(** * Dew point fan controller: the control loop of [dew_point_fan.go]

    A shallow embedding of the polling loop of [main]: sensor phase,
    dew point computation, spike rejection, hysteresis and safety floors,
    remote override, relay output and manual-switch telemetry.

    Go's [float32] and [float64] are IEEE-754 binary32 and binary64; they are
    modelled with the Standard Library's [spec_float] at precision 24 and 53,
    so comparisons with NaN are false and roundings are the hardware's. *)

From Stdlib Require Import ZArith Bool List String Ascii Lia.
From Stdlib Require Import DecimalString DecimalPos.
From Stdlib Require Import Floats.SpecFloat.
Import ListNotations.

Local Open Scope Z_scope.

(** ** Floating point numbers *)

Module F32.
Definition prec : Z := 24.
Definition emax : Z := 128.

Definition valid (x : spec_float) : bool := valid_binary prec emax x.

Definition add : spec_float -> spec_float -> spec_float := SFadd prec emax.
Definition sub : spec_float -> spec_float -> spec_float := SFsub prec emax.

(** An integer literal used as a [float32] constant. *)
Definition of_Z (z : Z) : spec_float := binary_normalize prec emax z 0 false.
End F32.

Module F64.
Definition prec : Z := 53.
Definition emax : Z := 1024.

Definition valid (x : spec_float) : bool := valid_binary prec emax x.

Definition add : spec_float -> spec_float -> spec_float := SFadd prec emax.
Definition sub : spec_float -> spec_float -> spec_float := SFsub prec emax.
Definition mul : spec_float -> spec_float -> spec_float := SFmul prec emax.
Definition div : spec_float -> spec_float -> spec_float := SFdiv prec emax.

Definition of_Z (z : Z) : spec_float := binary_normalize prec emax z 0 false.

(** The decimal literal [n / 10^k], rounded to the nearest [float64] as the
    Go compiler rounds a constant: both integers are exact in binary64 and
    the division rounds once. *)
Definition dec (n : Z) (k : Z) : spec_float := div (of_Z n) (of_Z (10 ^ k)).
End F64.

Definition float32 := spec_float.
Definition float64 := spec_float.

(** Go's comparison operators; each is false as soon as an operand is NaN. *)
Definition flt (x y : spec_float) : bool := SFltb x y.
Definition fgt (x y : spec_float) : bool := SFltb y x.
Definition fle (x y : spec_float) : bool := SFleb x y.
Definition fge (x y : spec_float) : bool := SFleb y x.
Definition feq (x y : spec_float) : bool := SFeqb x y.

Definition isNaN (x : spec_float) : bool :=
  match x with S754_nan => true | _ => false end.

(** [float64(x)] for a [float32] [x]: exact, the mantissa is re-aligned to
    53 bits (no binary32 value is subnormal or out of range in binary64). *)
Definition to_f64 (x : float32) : float64 :=
  match x with
  | S754_finite s m e =>
      let k := F64.prec - Z.pos (digits2_pos m) in
      match k with
      | Z.pos p => S754_finite s (Pos.iter xO m p) (e - k)
      | _ => x
      end
  | _ => x
  end.

(** [float32(x)] for a [float64] [x]: rounds to the nearest binary32 value,
    ties to even, overflowing to an infinity. *)
Definition to_f32 (x : float64) : float32 :=
  match x with
  | S754_finite s m e => binary_round F32.prec F32.emax s m e
  | _ => x
  end.

(** ** Go's [math] package

    [math.Abs] and [math.Round] are total and exact, and are written out.
    [math.Pow] and [math.Log10] are given by their documented special cases;
    what they return on the remaining arguments is left to a kernel, so every
    result below holds whatever the platform's approximation is. *)

Definition Abs (x : float64) : float64 := SFabs x.

(** [math.Round]: the nearest integer, halves away from zero, the sign kept
    (so a small negative number rounds to [-0]); infinities and NaN are
    returned unchanged. *)
Definition Round (x : float64) : float64 :=
  match x with
  | S754_finite s m (Z.neg k) =>
      let d := 2 ^ Z.pos k in
      let q := Z.pos m / d in
      let r := Z.pos m mod d in
      let n := if d <=? 2 * r then q + 1 else q in
      match n with
      | 0 => S754_zero s
      | _ => binary_normalize F64.prec F64.emax (cond_Zopp s n) 0 s
      end
  | _ => x
  end.




(** [pow_kernel x y] is [math.Pow x y] outside the special cases below and
    [log10_kernel x] is [math.Log10 x] for a finite [x > 0]. *)
Class MathKernel := {
  pow_kernel : float64 -> float64 -> float64;
  log10_kernel : float64 -> float64
}.

Section Math.
Context {M : MathKernel}.

(** [math.Pow]: [Pow(x, +-0) = 1], [Pow(1, y) = 1], [Pow(x, 1) = x],
    [Pow(NaN, y) = Pow(x, NaN) = NaN], in the order the package tests them. *)
Definition Pow (x y : float64) : float64 :=
  if feq y (F64.of_Z 0) || feq x (F64.of_Z 1) then F64.of_Z 1
  else if feq y (F64.of_Z 1) then x
  else if isNaN x || isNaN y then S754_nan
  else pow_kernel x y.

(** [math.Log10]: [Log10(+Inf) = +Inf], [Log10(+-0) = -Inf],
    [Log10(x < 0) = NaN], [Log10(NaN) = NaN]. *)
Definition Log10 (x : float64) : float64 :=
  match x with
  | S754_nan => S754_nan
  | S754_zero _ => S754_infinity true
  | S754_infinity false => x
  | S754_infinity true => S754_nan
  | S754_finite true _ _ => S754_nan
  | S754_finite false _ _ => log10_kernel x
  end.
End Math.

(** ** Constants of [dew_point_fan.go]

    Untyped Go constants; all are whole numbers, kept exact here and
    converted where an expression gives them a float type. *)

Definition DIFF_MIN : Z := 3.
Definition HYSTERESIS : Z := 1.
Definition HUM_INSIDE_MIN : Z := 50.
Definition TEMP_INSIDE_MIN : Z := 10.
Definition TEMP_OUTSIDE_MIN : Z := -10.
Definition DEF_TEMP : Z := -200.
Definition DEF_HUM : Z := -1.

(** ** Two-element slices

    [temperatures], [humidities], [dewpoints], [lastDewpoints] and [retried]
    are slices of length two that are never resized and only indexed by the
    loop variable [i] of [for i := 0; i < len(pins); i++] or by 0 and 1. *)

Inductive index := I0 | I1.

Record slice2 (A : Type) := Slice2 { elem0 : A; elem1 : A }.
Arguments Slice2 {A} _ _.
Arguments elem0 {A} _.
Arguments elem1 {A} _.

Definition get {A} (s : slice2 A) (i : index) : A :=
  match i with I0 => elem0 s | I1 => elem1 s end.

Definition set {A} (s : slice2 A) (i : index) (v : A) : slice2 A :=
  match i with
  | I0 => Slice2 v (elem1 s)
  | I1 => Slice2 (elem0 s) v
  end.

(** [getTempCorrections] and [getHumCorrections] *)
Definition getTempCorrections : slice2 float32 :=
  Slice2 (F32.of_Z (-4)) (F32.of_Z 0).

Definition getHumCorrections : slice2 float32 :=
  Slice2 (F32.of_Z 10) (F32.of_Z (-6)).

Section DewPoint.
Context {M : MathKernel}.

(** [roundFloat32] *)
Definition roundFloat32 (val : float32) (precision : N) : float32 :=
  let ratio := Pow (F64.of_Z 10) (F64.of_Z (Z.of_N precision)) in
  to_f32 (F64.div (Round (F64.mul (to_f64 val) ratio)) ratio).

(** The constants [a] and [b] of [calcDewPoint]: both variables start at
    zero and are assigned in one of the two branches. *)
Definition magnus (t64 : float64) : float64 * float64 :=
  if fge t64 (F64.of_Z 0) then (F64.dec 75 1, F64.dec 2373 1)
  else if flt t64 (F64.of_Z 0) then (F64.dec 76 1, F64.dec 2407 1)
  else (F64.of_Z 0, F64.of_Z 0).

(** [calcDewPoint] *)
Definition calcDewPoint (t r : float32) : float32 :=
  let t64 := to_f64 t in
  let r64 := to_f64 r in
  let '(a, b) := magnus t64 in
  let sdd := F64.mul (F64.dec 61078 4)
               (Pow (F64.of_Z 10) (F64.div (F64.mul a t64) (F64.add b t64))) in
  let dd := F64.mul sdd (F64.div r64 (F64.of_Z 100)) in
  let v := Log10 (F64.div dd (F64.dec 61078 4)) in
  let tt := F64.div (F64.mul b v) (F64.sub a v) in
  to_f32 tt.
End DewPoint.


(** ** The loop's variables and its effects *)

(** Level of a GPIO pin. *)
Inductive level := Low | High.

(** What one pass of the loop sends to the display, the log, the relay and
    the time series database, in the order of the calls. *)
Inductive event :=
| PrintRetried (i : index) (n : Z)
| PrintReading (i : index) (t h : float32)
| WarnOutOfRange (i : index) (t : float32)
| InfoDewpoint (i : index) (dp t h : float32) (n : Z)
| WarnDeviation
| PrintDewPoints (dp0 dp1 : float32) (venting : string)
| WritePoint (temps hums dps : slice2 float32) (retries : slice2 Z) (vent_val : Z)
| Pin25Out (l : level)
| ShowIpAndOverride (alive : bool) (remote : Z) (msg : string)
| InfoVentingChange (fan status : bool) (remote : Z)
| InfoFanIs (venting fanIsOn : string).

(** The variables of [main] that live across iterations, with the package
    variables [isAlive], [cycleUpdate] and [remoteOverride]; [pin25] is the
    level last written to the relay output and [log] collects the events. *)
Record State := mkState {
  temperatures : slice2 float32;
  humidities : slice2 float32;
  dewpoints : slice2 float32;
  lastDewpoints : slice2 float32;
  retried : slice2 Z;
  fanShouldBeOn : bool;
  lastfanShouldBeOn : bool;
  fanStatus : bool;
  lastFanStatus : bool;
  remoteOverride : Z;
  lastRemoteOverride : Z;
  venting : string;
  fanIsOn : string;
  isAlive : bool;
  cycleUpdate : string;
  pin25 : level;
  log : list event
}.

Definition set_temperatures v st := mkState v (humidities st) (dewpoints st) (lastDewpoints st) (retried st) (fanShouldBeOn st) (lastfanShouldBeOn st) (fanStatus st) (lastFanStatus st) (remoteOverride st) (lastRemoteOverride st) (venting st) (fanIsOn st) (isAlive st) (cycleUpdate st) (pin25 st) (log st).
Definition set_humidities v st := mkState (temperatures st) v (dewpoints st) (lastDewpoints st) (retried st) (fanShouldBeOn st) (lastfanShouldBeOn st) (fanStatus st) (lastFanStatus st) (remoteOverride st) (lastRemoteOverride st) (venting st) (fanIsOn st) (isAlive st) (cycleUpdate st) (pin25 st) (log st).
Definition set_dewpoints v st := mkState (temperatures st) (humidities st) v (lastDewpoints st) (retried st) (fanShouldBeOn st) (lastfanShouldBeOn st) (fanStatus st) (lastFanStatus st) (remoteOverride st) (lastRemoteOverride st) (venting st) (fanIsOn st) (isAlive st) (cycleUpdate st) (pin25 st) (log st).
Definition set_lastDewpoints v st := mkState (temperatures st) (humidities st) (dewpoints st) v (retried st) (fanShouldBeOn st) (lastfanShouldBeOn st) (fanStatus st) (lastFanStatus st) (remoteOverride st) (lastRemoteOverride st) (venting st) (fanIsOn st) (isAlive st) (cycleUpdate st) (pin25 st) (log st).
Definition set_retried v st := mkState (temperatures st) (humidities st) (dewpoints st) (lastDewpoints st) v (fanShouldBeOn st) (lastfanShouldBeOn st) (fanStatus st) (lastFanStatus st) (remoteOverride st) (lastRemoteOverride st) (venting st) (fanIsOn st) (isAlive st) (cycleUpdate st) (pin25 st) (log st).
Definition set_fanShouldBeOn v st := mkState (temperatures st) (humidities st) (dewpoints st) (lastDewpoints st) (retried st) v (lastfanShouldBeOn st) (fanStatus st) (lastFanStatus st) (remoteOverride st) (lastRemoteOverride st) (venting st) (fanIsOn st) (isAlive st) (cycleUpdate st) (pin25 st) (log st).
Definition set_lastfanShouldBeOn v st := mkState (temperatures st) (humidities st) (dewpoints st) (lastDewpoints st) (retried st) (fanShouldBeOn st) v (fanStatus st) (lastFanStatus st) (remoteOverride st) (lastRemoteOverride st) (venting st) (fanIsOn st) (isAlive st) (cycleUpdate st) (pin25 st) (log st).
Definition set_fanStatus v st := mkState (temperatures st) (humidities st) (dewpoints st) (lastDewpoints st) (retried st) (fanShouldBeOn st) (lastfanShouldBeOn st) v (lastFanStatus st) (remoteOverride st) (lastRemoteOverride st) (venting st) (fanIsOn st) (isAlive st) (cycleUpdate st) (pin25 st) (log st).
Definition set_lastFanStatus v st := mkState (temperatures st) (humidities st) (dewpoints st) (lastDewpoints st) (retried st) (fanShouldBeOn st) (lastfanShouldBeOn st) (fanStatus st) v (remoteOverride st) (lastRemoteOverride st) (venting st) (fanIsOn st) (isAlive st) (cycleUpdate st) (pin25 st) (log st).
Definition set_remoteOverride v st := mkState (temperatures st) (humidities st) (dewpoints st) (lastDewpoints st) (retried st) (fanShouldBeOn st) (lastfanShouldBeOn st) (fanStatus st) (lastFanStatus st) v (lastRemoteOverride st) (venting st) (fanIsOn st) (isAlive st) (cycleUpdate st) (pin25 st) (log st).
Definition set_lastRemoteOverride v st := mkState (temperatures st) (humidities st) (dewpoints st) (lastDewpoints st) (retried st) (fanShouldBeOn st) (lastfanShouldBeOn st) (fanStatus st) (lastFanStatus st) (remoteOverride st) v (venting st) (fanIsOn st) (isAlive st) (cycleUpdate st) (pin25 st) (log st).
Definition set_venting v st := mkState (temperatures st) (humidities st) (dewpoints st) (lastDewpoints st) (retried st) (fanShouldBeOn st) (lastfanShouldBeOn st) (fanStatus st) (lastFanStatus st) (remoteOverride st) (lastRemoteOverride st) v (fanIsOn st) (isAlive st) (cycleUpdate st) (pin25 st) (log st).
Definition set_fanIsOn v st := mkState (temperatures st) (humidities st) (dewpoints st) (lastDewpoints st) (retried st) (fanShouldBeOn st) (lastfanShouldBeOn st) (fanStatus st) (lastFanStatus st) (remoteOverride st) (lastRemoteOverride st) (venting st) v (isAlive st) (cycleUpdate st) (pin25 st) (log st).
Definition set_isAlive v st := mkState (temperatures st) (humidities st) (dewpoints st) (lastDewpoints st) (retried st) (fanShouldBeOn st) (lastfanShouldBeOn st) (fanStatus st) (lastFanStatus st) (remoteOverride st) (lastRemoteOverride st) (venting st) (fanIsOn st) v (cycleUpdate st) (pin25 st) (log st).
Definition set_cycleUpdate v st := mkState (temperatures st) (humidities st) (dewpoints st) (lastDewpoints st) (retried st) (fanShouldBeOn st) (lastfanShouldBeOn st) (fanStatus st) (lastFanStatus st) (remoteOverride st) (lastRemoteOverride st) (venting st) (fanIsOn st) (isAlive st) v (pin25 st) (log st).
Definition set_pin25 v st := mkState (temperatures st) (humidities st) (dewpoints st) (lastDewpoints st) (retried st) (fanShouldBeOn st) (lastfanShouldBeOn st) (fanStatus st) (lastFanStatus st) (remoteOverride st) (lastRemoteOverride st) (venting st) (fanIsOn st) (isAlive st) (cycleUpdate st) v (log st).

(** Appends one event to the log. *)
Definition emit (e : event) (st : State) : State :=
  mkState (temperatures st) (humidities st) (dewpoints st) (lastDewpoints st) (retried st) (fanShouldBeOn st) (lastfanShouldBeOn st) (fanStatus st) (lastFanStatus st) (remoteOverride st) (lastRemoteOverride st) (venting st) (fanIsOn st) (isAlive st) (cycleUpdate st) (pin25 st) (log st ++ [e]).

(** The values of the variables when the loop is entered. *)
Definition initial : State := {|
  temperatures := Slice2 (F32.of_Z DEF_TEMP) (F32.of_Z DEF_TEMP);
  humidities := Slice2 (F32.of_Z DEF_HUM) (F32.of_Z DEF_HUM);
  dewpoints := Slice2 (F32.of_Z 0) (F32.of_Z 0);
  lastDewpoints := Slice2 (F32.of_Z 0) (F32.of_Z 0);
  retried := Slice2 0 0;
  fanShouldBeOn := false;
  lastfanShouldBeOn := false;
  fanStatus := false;
  lastFanStatus := false;
  remoteOverride := 0;
  lastRemoteOverride := 0;
  venting := "---";
  fanIsOn := "---";
  isAlive := false;
  cycleUpdate := "---";
  pin25 := High;
  log := []
|}.

(** What [dht.ReadDHTxxWithRetry] returns: the four results are assigned
    whether or not [err] is nil. *)
Record dhtResult := mkDht {
  dht_temperature : float32;
  dht_humidity : float32;
  dht_retried : Z;
  dht_err : bool
}.

(** What one pass of the loop reads from outside: the two sensors, the
    relay-sense input [pin22] and the clock. *)
Record poll := mkPoll {
  dht : index -> dhtResult;
  pin22 : bool;
  now : string
}.

(** ** One pass of the loop *)

Section Loop.
Context {M : MathKernel}.

(** Body of [for i := 0; i < len(pins); i++], lines 377 to 402; the flag
    [readingsGood] is threaded beside the state. *)
Definition sensorStep (rd : index -> dhtResult) (acc : State * bool) (i : index)
  : State * bool :=
  let '(st, readingsGood) := acc in
  let r := rd i in
  (* temperatures[i], humidities[i], retried[i], err = dht.ReadDHTxxWithRetry(...) *)
  let st := set_temperatures (set (temperatures st) i (dht_temperature r)) st in
  let st := set_humidities (set (humidities st) i (dht_humidity r)) st in
  let st := set_retried (set (retried st) i (dht_retried r)) st in
  let '(st, readingsGood) :=
    if dht_err r then
      (emit (PrintRetried i (get (retried st) i)) st, false)
    else
      let st := set_temperatures (set (temperatures st) i
                  (roundFloat32 (F32.add (get (temperatures st) i) (get getTempCorrections i)) 1)) st in
      let st := set_humidities (set (humidities st) i
                  (roundFloat32 (F32.add (get (humidities st) i) (get getHumCorrections i)) 1)) st in
      (emit (PrintReading i (get (temperatures st) i) (get (humidities st) i)) st, readingsGood) in
  if fgt (get (temperatures st) i) (F32.of_Z DEF_TEMP) && fgt (get (humidities st) i) (F32.of_Z DEF_HUM) then
    if flt (get (temperatures st) i) (F32.of_Z (-20)) || fgt (get (temperatures st) i) (F32.of_Z 40) then
      (emit (WarnOutOfRange i (get (temperatures st) i)) st, false)
    else
      let st := set_dewpoints (set (dewpoints st) i
                  (roundFloat32 (calcDewPoint (get (temperatures st) i) (get (humidities st) i)) 1)) st in
      (emit (InfoDewpoint i (get (dewpoints st) i) (get (temperatures st) i)
               (get (humidities st) i) (get (retried st) i)) st, readingsGood)
  else (st, readingsGood).

(** The sensor phase: [readingsGood := true], then the body for [i = 0, 1]. *)
Definition sensorLoop (rd : index -> dhtResult) (st : State) : State * bool :=
  fold_left (sensorStep rd) [I0; I1] (st, true).

End Loop.

(** The spike test of lines 406 and 407. *)
Definition spike (st : State) : bool :=
  fgt (Abs (F64.sub (to_f64 (elem0 (dewpoints st))) (to_f64 (elem0 (lastDewpoints st)))))
      (F64.of_Z 1)
  || fgt (Abs (F64.sub (to_f64 (elem1 (dewpoints st))) (to_f64 (elem1 (lastDewpoints st)))))
         (F64.of_Z 1).

(** [deltaTP := dewpoints[0] - dewpoints[1]] *)
Definition deltaTP (st : State) : float32 :=
  F32.sub (elem0 (dewpoints st)) (elem1 (dewpoints st)).

(** Lines 411 to 416: the two threshold tests on [deltaTP]. *)
Definition hysteresis (delta : float32) (fan : bool) : bool :=
  let fan := if fgt delta (F32.of_Z (DIFF_MIN + HYSTERESIS)) then true else fan in
  let fan := if flt delta (F32.of_Z DIFF_MIN) then false else fan in
  fan.

(** Lines 417 to 426: the three floors. *)
Definition floors (st : State) (fan : bool) : bool :=
  let fan := if flt (elem0 (temperatures st)) (F32.of_Z TEMP_INSIDE_MIN) then false else fan in
  let fan := if flt (elem1 (temperatures st)) (F32.of_Z TEMP_OUTSIDE_MIN) then false else fan in
  let fan := if flt (elem0 (humidities st)) (F32.of_Z HUM_INSIDE_MIN) then false else fan in
  fan.

(** The [else] branch of the spike test, lines 410 to 458. *)
Definition decide (st : State) : State :=
  let st := set_fanShouldBeOn (floors st (hysteresis (deltaTP st) (fanShouldBeOn st))) st in
  let st := set_venting (if fanShouldBeOn st then "on" else "off")%string st in
  let st := emit (PrintDewPoints (elem0 (dewpoints st)) (elem1 (dewpoints st)) (venting st)) st in
  let ventingValue := if fanShouldBeOn st then 1 else 0 in
  emit (WritePoint (temperatures st) (humidities st) (dewpoints st) (retried st) ventingValue) st.

(** [if readingsGood { ... }], lines 404 to 462. *)
Definition decisionStage (readingsGood : bool) (st : State) : State :=
  if readingsGood then
    let st := if spike st then emit WarnDeviation st else decide st in
    set_lastDewpoints (Slice2 (elem0 (dewpoints st)) (elem1 (dewpoints st))) st
  else st.

(** Lines 464 to 470. *)
Definition overrideStage (st : State) : State :=
  if 0 <? remoteOverride st then
    if remoteOverride st =? 1 then set_fanShouldBeOn true st
    else set_fanShouldBeOn false st
  else st.

(** Lines 471 to 479: the relay is active low. *)
Definition actuate (st : State) : State :=
  let l := if fanShouldBeOn st then Low else High in
  emit (Pin25Out l) (set_pin25 l st).

(** Lines 481 to 499: the manual switch is read and reported, changes are
    logged and the [last...] variables are updated. *)
Definition report (p22 : bool) (time : string) (st : State) : State :=
  let st := set_isAlive (negb (isAlive st)) st in
  let st :=
    if p22 then set_fanStatus false (set_fanIsOn "OFF"%string st)
    else set_fanStatus true (set_fanIsOn "ON "%string st) in
  let st := emit (ShowIpAndOverride (isAlive st) (remoteOverride st) (fanIsOn st)) st in
  let st :=
    if negb (Bool.eqb (fanShouldBeOn st) (lastfanShouldBeOn st))
       || negb (Bool.eqb (fanStatus st) (lastFanStatus st))
       || negb (remoteOverride st =? lastRemoteOverride st)
    then emit (InfoVentingChange (fanShouldBeOn st) (fanStatus st) (remoteOverride st)) st
    else st in
  let st := set_lastfanShouldBeOn (fanShouldBeOn st) st in
  let st := set_lastFanStatus (fanStatus st) st in
  let st := set_lastRemoteOverride (remoteOverride st) st in
  let st := emit (InfoFanIs (venting st) (fanIsOn st)) st in
  set_cycleUpdate time st.

(** The part of the loop body after the sensor phase. *)
Definition control (p22 : bool) (time : string) (sensed : State * bool) : State :=
  let '(st, readingsGood) := sensed in
  report p22 time (actuate (overrideStage (decisionStage readingsGood st))).

(** The body of the [for] loop of [main], lines 374 to 500. *)
Definition cycle {M : MathKernel} (p : poll) (st : State) : State :=
  control (pin22 p) (now p) (sensorLoop (dht p) st).

(** ** The override endpoint *)

(** [remoteControl], the body of a POST to [/override]. *)
Record remoteControl := mkRemote { Override : Z }.

(** A request as [overrideHandler] sees it: its method and what
    [decoder.Decode] left in [remote], the zero value when nothing was
    decoded. The handler stores the field even when decoding failed. *)
Record request := mkRequest {
  method : string;
  remote : remoteControl
}.

(** [overrideHandler], lines 355 to 368. *)
Definition overrideHandler (req : request) (st : State) : State :=
  if String.eqb (method req) "POST" then set_remoteOverride (Override (remote req)) st
  else st.

(** ** Runs *)

(** The loop and the HTTP server run side by side; a run is a sequence of
    passes of the loop and of requests served between two passes. *)
Inductive action :=
| Poll (p : poll)
| Post (req : request).

Definition step {M : MathKernel} (st : State) (a : action) : State :=
  match a with
  | Poll p => cycle p st
  | Post req => overrideHandler req st
  end.

Definition run {M : MathKernel} (acts : list action) (st : State) : State :=
  fold_left step acts st.

(** ** A reference kernel

    The theorems below hold for every kernel. To run the loop on concrete
    readings a kernel is needed; this one evaluates the logarithm and the
    power by their series in fixed point with 128 fractional bits and rounds
    the result once. It is defined for a finite positive base and a finite
    exponent, the only arguments [calcDewPoint] produces. *)

Module Ref.
Definition P : Z := 128.
Definition one : Z := 2 ^ P.
Definition mulfx (a b : Z) : Z := (a * b) / one.
Definition divfx (a b : Z) : Z := (a * one) / b.

(** [z + z^3/3 + z^5/5 + ...], for [|z| <= 1/3] *)
Fixpoint atanh_aux (fuel : nat) (zpow z2 k acc : Z) : Z :=
  match fuel with
  | O => acc
  | S f => atanh_aux f (mulfx zpow z2) z2 (k + 2) (acc + zpow / k)
  end.

Definition atanh (z : Z) : Z := atanh_aux 48 z (mulfx z z) 1 0.

(** natural logarithm of [y] in [[1, 2]] *)
Definition ln (y : Z) : Z := 2 * atanh (divfx (y - one) (y + one)).

Definition ln2 : Z := Eval vm_compute in ln (2 * one).
Definition ln10 : Z := Eval vm_compute in 3 * ln2 + ln (one + one / 4).

(** natural logarithm of [m * 2^e] *)
Definition ln_pos (m : positive) (e : Z) : Z :=
  let d := Z.pos (digits2_pos m) in
  ln (Z.shiftl (Z.pos m) (P - (d - 1))) + (e + d - 1) * ln2.

(** [1 + u + u^2/2! + ...], for [0 <= u < 1] *)
Fixpoint exp_aux (fuel : nat) (term u k acc : Z) : Z :=
  match fuel with
  | O => acc
  | S f => exp_aux f (mulfx term u / k) u (k + 1) (acc + term)
  end.

Definition exp (u : Z) : Z := exp_aux 48 one u 1 0.

Definition log10 (x : float64) : float64 :=
  match x with
  | S754_finite false m e =>
      binary_normalize F64.prec F64.emax (divfx (ln_pos m e) ln10) (- P) false
  | _ => S754_nan
  end.

Definition pow (x y : float64) : float64 :=
  match x, y with
  | S754_finite false mx ex, S754_finite sy my ey =>
      let t := Z.shiftl (cond_Zopp sy (Z.pos my) * divfx (ln_pos mx ex) ln2) ey in
      let t := Z.max (- (2 ^ 20 * one)) (Z.min (2 ^ 20 * one) t) in
      binary_normalize F64.prec F64.emax (exp (mulfx (t mod one) ln2)) (t / one - P) false
  | _, _ => S754_nan
  end.

Definition kernel : MathKernel := {| pow_kernel := pow; log10_kernel := log10 |}.
End Ref.

(** ** Notions used to state the properties *)

(** One of the three floors holds. *)
Definition belowFloor (st : State) : bool :=
  flt (elem0 (temperatures st)) (F32.of_Z TEMP_INSIDE_MIN)
  || flt (elem1 (temperatures st)) (F32.of_Z TEMP_OUTSIDE_MIN)
  || flt (elem0 (humidities st)) (F32.of_Z HUM_INSIDE_MIN).

(** The threshold tests or a floor settle the desired state whatever it was. *)
Definition settled (st : State) : bool :=
  fgt (deltaTP st) (F32.of_Z (DIFF_MIN + HYSTERESIS))
  || flt (deltaTP st) (F32.of_Z DIFF_MIN)
  || belowFloor st.

(** Two states that agree on everything the loop computes with; they may
    differ in what the manual switch and the log have left. *)
Definition sameControl (a b : State) : Prop :=
  temperatures a = temperatures b
  /\ humidities a = humidities b
  /\ dewpoints a = dewpoints b
  /\ lastDewpoints a = lastDewpoints b
  /\ retried a = retried b
  /\ fanShouldBeOn a = fanShouldBeOn b
  /\ remoteOverride a = remoteOverride b
  /\ venting a = venting b
  /\ pin25 a = pin25 b.

(** Two actions that differ at most in the level read from the relay-sense
    input and in the clock. *)
Inductive sameButSwitch : action -> action -> Prop :=
| same_poll rd p22 t p22' t' :
    sameButSwitch (Poll (mkPoll rd p22 t)) (Poll (mkPoll rd p22' t'))
| same_post req : sameButSwitch (Post req) (Post req).

(** The readings of a sensor are well-formed [float32] values. *)
Definition validReading (r : dhtResult) : Prop :=
  F32.valid (dht_temperature r) = true /\ F32.valid (dht_humidity r) = true.

Definition validAction (a : action) : Prop :=
  match a with
  | Poll p => forall i, validReading (dht p i)
  | Post _ => True
  end.

(** What the loop guarantees about a dew point it logs: the value is the
    rounded result of [calcDewPoint] on the logged temperature and humidity,
    the temperature lies in [-20, 40], the humidity is above [DEF_HUM], and
    the temperature is not the opposite of the constant [b]. *)
Definition dewPointCallOk {M : MathKernel} (e : event) : Prop :=
  match e with
  | InfoDewpoint _ dp t h _ =>
      dp = roundFloat32 (calcDewPoint t h) 1
      /\ fle (F32.of_Z (-20)) t = true
      /\ fle t (F32.of_Z 40) = true
      /\ fgt h (F32.of_Z DEF_HUM) = true
      /\ feq (to_f64 t) (SFopp (snd (magnus (to_f64 t)))) = false
  | _ => True
  end.

(** The temperature and humidity stored for sensor [i] after a successful
    read: the reading plus the correction, rounded to one decimal. *)
Definition correctedTemperature {M : MathKernel} (i : index) (r : dhtResult) : float32 :=
  roundFloat32 (F32.add (dht_temperature r) (get getTempCorrections i)) 1.

Definition correctedHumidity {M : MathKernel} (i : index) (r : dhtResult) : float32 :=
  roundFloat32 (F32.add (dht_humidity r) (get getHumCorrections i)) 1.

(** What the loop holds for sensor [i] after the read [r], and whether it
    computes a dew point from it. *)
Definition storedTemperature {M : MathKernel} (i : index) (r : dhtResult) : float32 :=
  if dht_err r then dht_temperature r else correctedTemperature i r.

Definition storedHumidity {M : MathKernel} (i : index) (r : dhtResult) : float32 :=
  if dht_err r then dht_humidity r else correctedHumidity i r.

Definition computesDewPoint {M : MathKernel} (i : index) (r : dhtResult) : bool :=
  fgt (storedTemperature i r) (F32.of_Z DEF_TEMP)
  && fgt (storedHumidity i r) (F32.of_Z DEF_HUM)
  && negb (flt (storedTemperature i r) (F32.of_Z (-20))
           || fgt (storedTemperature i r) (F32.of_Z 40)).

(** ** Sample readings

    A DHT22 reports tenths of a degree and of a percent. The corrections
    subtract 4 degrees and add 10 percent inside, and subtract 6 percent
    outside. *)

Definition tenths (n : Z) : float32 := to_f32 (F64.dec n 1).

(** A successful read of [t / 10] degrees and [h / 10] percent. *)
Definition reading (t h : Z) : dhtResult := mkDht (tenths t) (tenths h) 0 false.

(** A read that gave up after 15 retries; the go-dht driver returns -1 for
    both values beside the error. *)
Definition failure : dhtResult := mkDht (F32.of_Z (-1)) (F32.of_Z (-1)) 15 true.

Definition sample (inside outside : dhtResult) : poll :=
  mkPoll (fun i => match i with I0 => inside | I1 => outside end) true "".

(** Inside 22.0 degrees and 55 percent after correction, dew point 12.5;
    outside 12.0 degrees and 82 percent, dew point 9.0: [deltaTP] is 3.5. *)
Definition mild : poll := sample (reading 260 450) (reading 120 880).

(** Outside 5.0 degrees and 80 percent, dew point 1.8: [deltaTP] is 10.7. *)
Definition humid : poll := sample (reading 260 450) (reading 50 860).

(** Outside 12.0 degrees and 87.5 percent, dew point 10.0: [deltaTP] is 2.5. *)
Definition close : poll := sample (reading 260 450) (reading 120 935).

(** As [humid] with 49 percent inside, below [HUM_INSIDE_MIN]. *)
Definition dry : poll := sample (reading 260 390) (reading 50 860).

(** Inside dew point 10.0, then 11.5, outside unchanged at 9.0. *)
Definition before_jump : poll := sample (reading 260 365) (reading 120 880).
Definition after_jump : poll := sample (reading 260 413) (reading 120 880).

(** The inside sensor fails; both sensors fail. *)
Definition inside_fails : poll := sample failure (reading 120 880).
Definition outside_fails : poll := sample (reading 260 450) failure.
Definition both_fail : poll := sample failure failure.

(** Outside 10.0 degrees and a raw humidity of 6 percent, 0 percent after
    correction. *)
Definition parched : poll := sample failure (reading 100 60).

(** As [mild] inside, with the outside reading of [parched]. *)
Definition parched_outside : poll := sample (reading 260 450) (reading 100 60).

Definition post (v : Z) : action := Post (mkRequest "POST" (mkRemote v)).

(** * The rest of the program *)

(** ** Further notions about the loop *)

(** The read of sensor [i] clears [readingsGood]: it returned an error, or
    what the loop then holds passes the test against the defaults and its
    temperature is outside [-20, 40]. *)
Definition marksBad {M : MathKernel} (i : index) (r : dhtResult) : bool :=
  dht_err r
  || (fgt (storedTemperature i r) (F32.of_Z DEF_TEMP)
      && fgt (storedHumidity i r) (F32.of_Z DEF_HUM)
      && (flt (storedTemperature i r) (F32.of_Z (-20))
          || fgt (storedTemperature i r) (F32.of_Z 40))).

(** The log line of a venting change; the point written to the database. *)
Definition isVentingChange (e : event) : bool :=
  match e with InfoVentingChange _ _ _ => true | _ => false end.

Definition isWritePoint (e : event) : bool :=
  match e with WritePoint _ _ _ _ _ => true | _ => false end.

(** A pass that switches the desired state on by itself: good readings, no
    spike, [deltaTP] above [DIFF_MIN + HYSTERESIS] and no floor. *)
Definition turnsOn {M : MathKernel} (p : poll) (st : State) : Prop :=
  let sensed := sensorLoop (dht p) st in
  snd sensed = true
  /\ spike (fst sensed) = false
  /\ fgt (deltaTP (fst sensed)) (F32.of_Z (DIFF_MIN + HYSTERESIS)) = true
  /\ belowFloor (fst sensed) = false.

(** No request of the run sets a positive override. *)
Definition neverForced (acts : list action) : Prop :=
  Forall (fun a => match a with
                   | Post req => Override (remote req) <= 0
                   | Poll _ => True
                   end) acts.

(** ** The status endpoint *)

(** [sensorData] and [info], the body of the answer to a GET of [/info]. *)
Record sensorData := mkSensorData {
  Name : string;
  Temperature : float32;
  Humidity : float32;
  DewPoint : float32
}.

Module info.
Record t := mk {
  Update : string;
  Sensors : list sensorData;
  Venting : bool;
  Override : bool;
  RemoteOverride : Z;
  DiffMin : float32;
  Hysteresis : float32
}.
End info.

(** A number [json.MarshalIndent] can write: it returns an error, and no
    bytes, for a float that is NaN or infinite. *)
Definition finite (x : float32) : bool :=
  match x with
  | S754_zero _ | S754_finite _ _ _ => true
  | _ => false
  end.

(** [json.MarshalIndent] on an [info]: the document, or [None] for the
    error. *)
Definition MarshalIndent (inf : info.t) : option info.t :=
  if forallb (fun s => finite (Temperature s) && finite (Humidity s) && finite (DewPoint s))
       (info.Sensors inf)
     && finite (info.DiffMin inf) && finite (info.Hysteresis inf)
  then Some inf else None.

(** What [w.Write] is given: the bytes of a document, or no bytes. *)
Inductive body :=
| Document (inf : info.t)
| NoBytes.

(** [infoHandler], lines 335 to 351: what is written, [None] for a method
    other than GET, for which [w.Write] is not called. The error of
    [json.MarshalIndent] is dropped and [j], then nil, is written all the
    same. The handler reads the variables of the loop as they are when the
    request is served. *)
Definition infoHandler (req : request) (st : State) : option body :=
  if String.eqb (method req) "GET" then
    let inf := {|
      info.Update := cycleUpdate st;
      info.Sensors :=
        [mkSensorData "Inside" (elem0 (temperatures st)) (elem0 (humidities st))
           (elem0 (dewpoints st));
         mkSensorData "Outside" (elem1 (temperatures st)) (elem1 (humidities st))
           (elem1 (dewpoints st))];
      info.Venting := fanShouldBeOn st;
      info.Override := negb (Bool.eqb (fanShouldBeOn st) (fanStatus st));
      info.RemoteOverride := remoteOverride st;
      info.DiffMin := F32.of_Z DIFF_MIN;
      info.Hysteresis := F32.of_Z HYSTERESIS
    |} in
    match MarshalIndent inf with
    | Some j => Some (Document j)
    | None => Some NoBytes
    end
  else None.

(** The six numbers of the answer can all be written. *)
Definition writable (st : State) : bool :=
  finite (elem0 (temperatures st)) && finite (elem0 (humidities st))
  && finite (elem0 (dewpoints st))
  && (finite (elem1 (temperatures st)) && finite (elem1 (humidities st))
      && finite (elem1 (dewpoints st))).

(** The level input [pin22] reads. *)
Definition level_of (p22 : bool) : level := if p22 then High else Low.

(** ** Go strings

    A Go string is a sequence of bytes; [len], slicing and [strings.Index]
    count bytes. *)

Definition len (s : string) : Z := Z.of_nat (String.length s).

Fixpoint copies (s : string) (n : nat) : string :=
  match n with
  | O => EmptyString
  | S k => s ++ copies s k
  end.

(** [strings.Repeat]: panics when [count] is negative, which is [None]. *)
Definition Repeat (s : string) (count : Z) : option string :=
  if count <? 0 then None else Some (copies s (Z.to_nat count)).

(** [strings.Index]: the index of the first instance of [substr] in [s], or
    -1. *)
Definition Index (s substr : string) : Z :=
  match String.index 0 substr s with
  | Some n => Z.of_nat n
  | None => -1
  end.

(** The verb [%d] of [fmt.Sprintf] on an [int]. *)
Definition Itoa (z : Z) : string := NilZero.string_of_int (Z.to_int z).

(** [s[i]] and [s[i:j]], for indexes in range. *)
Definition byte (c : ascii) : Z := Z.of_N (N_of_ascii c).

Definition byteAt (s : string) (i : nat) : option Z := option_map byte (String.get i s).

Definition slice (s : string) (i j : Z) : string :=
  substring (Z.to_nat i) (Z.to_nat (j - i)) s.

(** ** Package [unicode/utf8], [unicode.IsSpace] and [strings.TrimSpace]

    The library functions behind [strings.TrimSpace(text)] of line 137, as
    the Go library has them. A rune is a code point, an integer. *)

Definition RuneError : Z := 65533.
Definition RuneSelf : Z := 128.
Definition UTFMax : Z := 4.

(** The table [first] together with [acceptRanges]: a first byte is ASCII,
    is invalid, or starts a sequence of [size] bytes whose second byte lies
    within [lo, hi]. *)
Inductive lead :=
| LeadASCII
| LeadInvalid
| LeadOf (size lo hi : Z).

Definition first (b : Z) : lead :=
  if b <? 128 then LeadASCII
  else if b <? 194 then LeadInvalid
  else if b <? 224 then LeadOf 2 128 191
  else if b =? 224 then LeadOf 3 160 191
  else if b <? 237 then LeadOf 3 128 191
  else if b =? 237 then LeadOf 3 128 159
  else if b <? 240 then LeadOf 3 128 191
  else if b =? 240 then LeadOf 4 144 191
  else if b <? 244 then LeadOf 4 128 191
  else if b =? 244 then LeadOf 4 128 143
  else LeadInvalid.

(** A continuation byte outside [locb, hicb], that is [0x80, 0xBF]. *)
Definition notContinuation (b : Z) : bool := (b <? 128) || (191 <? b).

(** [utf8.DecodeRuneInString]: the rune at the start of [s] and its width
    in bytes; [RuneError] with width 1 for a sequence that is not valid and
    with width 0 for the empty string. The bytes read are in range once
    [n < sz] has been excluded. *)
Definition DecodeRuneInString (s : string) : Z * Z :=
  match byteAt s 0 with
  | None => (RuneError, 0)
  | Some s0 =>
      match first s0 with
      | LeadASCII => (s0, 1)
      | LeadInvalid => (RuneError, 1)
      | LeadOf sz lo hi =>
          if Z.of_nat (String.length s) <? sz then (RuneError, 1)
          else
            match byteAt s 1, byteAt s 2, byteAt s 3 with
            | Some s1, o2, o3 =>
                if (s1 <? lo) || (hi <? s1) then (RuneError, 1)
                else if sz <=? 2 then
                  (Z.lor (Z.shiftl (Z.land s0 31) 6) (Z.land s1 63), 2)
                else
                  match o2 with
                  | Some s2 =>
                      if notContinuation s2 then (RuneError, 1)
                      else if sz <=? 3 then
                        (Z.lor (Z.lor (Z.shiftl (Z.land s0 15) 12) (Z.shiftl (Z.land s1 63) 6))
                           (Z.land s2 63), 3)
                      else
                        match o3 with
                        | Some s3 =>
                            if notContinuation s3 then (RuneError, 1)
                            else
                              (Z.lor
                                 (Z.lor
                                    (Z.lor (Z.shiftl (Z.land s0 7) 18)
                                       (Z.shiftl (Z.land s1 63) 12))
                                    (Z.shiftl (Z.land s2 63) 6))
                                 (Z.land s3 63), 4)
                        | None => (RuneError, 1)
                        end
                  | None => (RuneError, 1)
                  end
            | None, _, _ => (RuneError, 1)
            end
      end
  end.

(** [utf8.RuneStart] *)
Definition RuneStart (b : Z) : bool := negb (Z.land b 192 =? 128).

(** The loop [for start--; start >= lim; start-- { if RuneStart(s[start])
    { break } }] of [DecodeLastRuneInString], entered at [start] with [n]
    indexes left down to [lim]: the value of [start] after it. *)
Fixpoint backToStart (s : string) (start : Z) (n : nat) : Z :=
  match n with
  | O => start
  | S k =>
      match byteAt s (Z.to_nat start) with
      | Some b => if RuneStart b then start else backToStart s (start - 1) k
      | None => start
      end
  end.

(** [utf8.DecodeLastRuneInString]: the last rune of [s] and its width. *)
Definition DecodeLastRuneInString (s : string) : Z * Z :=
  let end_ := Z.of_nat (String.length s) in
  if end_ =? 0 then (RuneError, 0)
  else
    match byteAt s (Z.to_nat (end_ - 1)) with
    | None => (RuneError, 0)
    | Some r =>
        if r <? RuneSelf then (r, 1)
        else
          let lim := Z.max 0 (end_ - UTFMax) in
          let start := backToStart s (end_ - 2) (Z.to_nat (end_ - 1 - lim)) in
          let start := if start <? 0 then 0 else start in
          let '(r, size) := DecodeRuneInString (slice s start end_) in
          if negb (start + size =? end_) then (RuneError, 1) else (r, size)
    end.

(** [unicode.IsSpace]: in Latin-1 the six ASCII characters, U+0085 and
    U+00A0; above it the table [White_Space]. *)
Definition IsSpace (r : Z) : bool :=
  if (0 <=? r) && (r <=? 255) then
    ((9 <=? r) && (r <=? 13)) || (r =? 32) || (r =? 133) || (r =? 160)
  else
    (r =? 5760) || ((8192 <=? r) && (r <=? 8202)) || (r =? 8232) || (r =? 8233)
    || (r =? 8239) || (r =? 8287) || (r =? 12288).

(** The table [asciiSpace] of package [strings]: tab, line feed, vertical
    tab, form feed, carriage return and space. *)
Definition asciiSpace (c : ascii) : bool :=
  let n := byte c in
  ((9 <=? n) && (n <=? 13)) || (n =? 32).

(** [indexFunc]: the index of the first rune [r] of [s] with
    [f(r) == truth], or -1. The loop is [for i, r := range s], which decodes
    as [DecodeRuneInString] does; [skip] counts the bytes still to pass of
    the rune decoded last, and [i] is the index of the first byte of [s]. *)
Fixpoint indexFunc_from (f : Z -> bool) (truth : bool) (s : string) (skip : nat) (i : Z) : Z :=
  match s with
  | EmptyString => -1
  | String _ rest =>
      match skip with
      | S k => indexFunc_from f truth rest k (i + 1)
      | O =>
          let '(r, size) := DecodeRuneInString s in
          if Bool.eqb (f r) truth then i
          else indexFunc_from f truth rest (Z.to_nat size - 1)%nat (i + 1)
      end
  end.

Definition indexFunc (s : string) (f : Z -> bool) (truth : bool) : Z :=
  indexFunc_from f truth s 0 0.

(** [lastIndexFunc]: the index of the last rune [r] of [s] with
    [f(r) == truth], or -1. The loop is [for i := len(s); i > 0; ] with
    [r, size := DecodeLastRuneInString(s[0:i]); i -= size]; [skip] counts the
    bytes still to pass of the rune decoded last. *)
Fixpoint lastIndexFunc_from (f : Z -> bool) (truth : bool) (s : string) (i skip : nat) : Z :=
  match i with
  | O => -1
  | S j =>
      match skip with
      | S k => lastIndexFunc_from f truth s j k
      | O =>
          let '(r, size) := DecodeLastRuneInString (substring 0 i s) in
          if Bool.eqb (f r) truth then Z.of_nat i - size
          else lastIndexFunc_from f truth s j (Z.to_nat size - 1)%nat
      end
  end.

Definition lastIndexFunc (s : string) (f : Z -> bool) (truth : bool) : Z :=
  lastIndexFunc_from f truth s (String.length s) 0.

(** [strings.TrimLeftFunc], [strings.TrimRightFunc], [strings.TrimFunc] *)
Definition TrimLeftFunc (s : string) (f : Z -> bool) : string :=
  let i := indexFunc s f false in
  if i =? -1 then EmptyString else slice s i (Z.of_nat (String.length s)).

Definition TrimRightFunc (s : string) (f : Z -> bool) : string :=
  let i := lastIndexFunc s f false in
  let i :=
    match (if 0 <=? i then byteAt s (Z.to_nat i) else None) with
    | Some b =>
        if RuneSelf <=? b then i + snd (DecodeRuneInString (slice s i (Z.of_nat (String.length s))))
        else i + 1
    | None => i + 1
    end in
  slice s 0 i.

Definition TrimFunc (s : string) (f : Z -> bool) : string :=
  TrimRightFunc (TrimLeftFunc s f) f.

(** The second loop of [strings.TrimSpace], on [t = s[start:]] with [n]
    for [stop - start]: from the end, a byte that is not ASCII hands
    [s[start:stop]] to [TrimRightFunc], a byte of [asciiSpace] is passed, and
    any other ends the loop. *)
Fixpoint TrimSpace_stop (t : string) (n : nat) : string :=
  match n with
  | O => EmptyString
  | S k =>
      match String.get k t with
      | Some c =>
          if RuneSelf <=? byte c then TrimRightFunc (substring 0 n t) IsSpace
          else if asciiSpace c then TrimSpace_stop t k
          else substring 0 n t
      | None => EmptyString
      end
  end.

(** [strings.TrimSpace]: the first loop goes over the bytes from the start;
    a byte that is not ASCII hands the rest, [s[start:]], to [TrimFunc], a
    byte of [asciiSpace] is passed, and any other ends the loop. *)
Fixpoint TrimSpace (s : string) : string :=
  match s with
  | EmptyString => EmptyString
  | String c rest =>
      if RuneSelf <=? byte c then TrimFunc s IsSpace
      else if asciiSpace c then TrimSpace rest
      else TrimSpace_stop s (String.length s)
  end.

(** Texts of ASCII characters, and such a text without the bytes of
    [asciiSpace] at its start and at its end. *)
Fixpoint allASCII (s : string) : bool :=
  match s with
  | EmptyString => true
  | String c rest => (byte c <? RuneSelf) && allASCII rest
  end.

Fixpoint trimLeft (s : string) : string :=
  match s with
  | String c r => if asciiSpace c then trimLeft r else s
  | EmptyString => s
  end.

Fixpoint trimRight (s : string) : string :=
  match s with
  | String c r =>
      match trimRight r with
      | EmptyString => if asciiSpace c then EmptyString else String c EmptyString
      | r' => String c r'
      end
  | EmptyString => s
  end.

(** ** The bottom line of the display *)

(** [showIpAndOverride], lines 177 to 194: the text handed to
    [printLine(3, ..., false)], from the package variables [ipAddress],
    [isAlive] and [remoteOverride]; [None] when [strings.Repeat] panics. *)
Definition showIpAndOverride (ipAddress : string) (isAlive : bool) (remoteOverride : Z)
    (msg : string) : option string :=
  let ofs := 17 - len ipAddress in
  match Repeat " " ofs with
  | None => None
  | Some spacer =>
      let spacer :=
        if 0 <? ofs then
          let alive := if isAlive then "*"%string else " "%string in
          if 4 <? ofs then
            match Repeat " " (ofs - 5) with
            | Some pad => Some (" " ++ alive ++ " " ++ Itoa remoteOverride ++ " " ++ pad)%string
            | None => None
            end
          else if 2 <? ofs then
            match Repeat " " (ofs - 3) with
            | Some pad => Some (" " ++ alive ++ " " ++ pad)%string
            | None => None
            end
          else
            match Repeat " " (ofs - 1) with
            | Some pad => Some (alive ++ pad)%string
            | None => None
            end
        else Some spacer in
      match spacer with
      | Some spacer => Some (ipAddress ++ spacer ++ msg)%string
      | None => None
      end
  end.

(** ** The address shown *)

(** The regular expressions the pattern of line 111 is made of: a byte, a
    class of bytes, a sequence, an alternative and an optional part. *)
Inductive regexp :=
| Byte (c : ascii)
| Class (lo hi : ascii)
| Cat (a b : regexp)
| Or (a b : regexp)
| Opt (a : regexp).

(** What is left of [s] after each way of matching [r] at its start. *)
Fixpoint remainders (r : regexp) (s : string) : list string :=
  match r with
  | Byte c =>
      match s with
      | String x rest => if Ascii.eqb x c then [rest] else []
      | EmptyString => []
      end
  | Class lo hi =>
      match s with
      | String x rest =>
          if ((nat_of_ascii lo <=? nat_of_ascii x) && (nat_of_ascii x <=? nat_of_ascii hi))%nat
          then [rest] else []
      | EmptyString => []
      end
  | Cat a b => flat_map (remainders b) (remainders a s)
  | Or a b => remainders a s ++ remainders b s
  | Opt a => remainders a s ++ [s]
  end.

(** [MatchString] for a pattern that starts with [^] and does not end with
    [$]: some match starts at the beginning of [s]. *)
Definition MatchString (r : regexp) (s : string) : bool :=
  match remainders r s with
  | [] => false
  | _ => true
  end.

(** [25[0-5]|2[0-4][0-9]|1[0-9][0-9]|[1-9]?[0-9]] *)
Definition octet : regexp :=
  Or (Cat (Byte "2") (Cat (Byte "5") (Class "0" "5")))
    (Or (Cat (Byte "2") (Cat (Class "0" "4") (Class "0" "9")))
       (Or (Cat (Byte "1") (Cat (Class "0" "9") (Class "0" "9")))
          (Cat (Opt (Class "1" "9")) (Class "0" "9")))).

(** The pattern [reg] of [logNetworkInterfaces]: three times an octet and a
    dot, then an octet. *)
Definition reg : regexp :=
  let dotted := Cat octet (Byte ".") in
  Cat dotted (Cat dotted (Cat dotted octet)).

(** Body of [for _, v := range addresses], lines 120 to 131, on [ipAddress]
    and on what [logger.Info] has been given. *)
Definition keepAddress (acc : string * list string) (ipv4 : string)
  : string * list string :=
  let '(ipAddress, logged) := acc in
  if MatchString reg ipv4 then
    let logged := logged ++ [ipv4] in
    if negb (Index ipv4 "127.0." =? 0) then
      let idx := Index ipv4 "/" in
      if 0 <? idx then (substring 0 (Z.to_nat idx) ipv4, logged)
      else (ipv4, logged)
    else (ipAddress, logged)
  else acc.

(** [logNetworkInterfaces], lines 105 to 134: [interfaces] holds, for each
    interface in the order of [net.Interfaces], the texts of its addresses
    in the order of [Addrs], and is [None] when [net.Interfaces] fails. *)
Definition logNetworkInterfaces (interfaces : option (list (list string)))
    (ipAddress : string) : string * list string :=
  match interfaces with
  | None => (ipAddress, [])
  | Some interfaces =>
      fold_left (fun acc addresses => fold_left keepAddress addresses acc)
        interfaces (ipAddress, [])
  end.

(** An address the loop body stores, and what it stores of it. *)
Definition eligible (ipv4 : string) : bool :=
  MatchString reg ipv4 && negb (Index ipv4 "127.0." =? 0).

Definition beforeSlash (ipv4 : string) : string :=
  if 0 <? Index ipv4 "/" then substring 0 (Z.to_nat (Index ipv4 "/")) ipv4 else ipv4.

(** ** The flags *)

(** Lines 231 to 242 of [main]: the values of [-scrollSpeed] and
    [-lcdDelay] after the four tests. *)
Definition clampFlags (scrollSpeed lcdDelay : Z) : Z * Z :=
  let scrollSpeed := if scrollSpeed <? 100 then 100 else scrollSpeed in
  let scrollSpeed := if 10000 <? scrollSpeed then 10000 else scrollSpeed in
  let lcdDelay := if lcdDelay <? 1 then 1 else lcdDelay in
  let lcdDelay := if 10 <? lcdDelay then 10 else lcdDelay in
  (scrollSpeed, lcdDelay).

(** ** Package [lcd]

    The display is driven by one goroutine, [commandHandler], that receives
    commands on the channel [cmdChan] and is the only one to talk to the
    device. The methods of the interface, called by [main], and the
    goroutines of [runTicker] send on that channel. The channel is made
    without a buffer: a send completes when the receiver is at its receive
    statement and takes the value, and blocks until then.

    The state of the package is passed along: the fields of the [lcd]
    struct, where the goroutine of [commandHandler] stands, the command it
    has received and not yet executed, and the calls made so far.

    The goroutines are taken one at a time: a call of the interface runs to
    its return or to the send that blocks it, the goroutine of [runTicker] it
    starts runs to its first wait for a tick, and the handler then runs its
    turn for the command it has been sent, before the next call or tick.
    The fields [ticker] are read and written by several goroutines without a
    lock; what can happen when a call comes while the handler or a goroutine
    of [runTicker] is still on its way is not followed here. *)

Module Lcd.

Definition numChars : Z := 20.
Definition numLines : Z := 4.

(** [cmdClear = iota] is the third constant of its block, after [numChars]
    and [numLines]: [iota] is 2 there. *)
Definition cmdClear : Z := 2.
Definition cmdBacklightOn : Z := 3.
Definition cmdBacklightOff : Z := 4.
Definition cmdPrintline : Z := 5.

Record command := mkCommand {
  cmd : Z;
  lineNum : Z;
  lineText : string
}.

(** [device.ShowOptions] as [New] sets them: the row, from 1, with
    [SHOW_BLANK_PADDING] and [SHOW_ELIPSE_IF_NOT_FIT]. *)
Record ShowOptions := mkOptions {
  showLine : Z;
  blankPadding : bool;
  elipseIfNotFit : bool
}.

(** What the package does to the outside. *)
Inductive effect :=
| DevClear
| DevBacklightOn
| DevBacklightOff
| DevShowMessage (text : string) (options : ShowOptions)
| TickerStop (line : Z)
| GoRunTicker (line : Z) (text : string)
| LogError
| Reopen
| BusClose.

(** Where the goroutine of [commandHandler] stands: not started, at
    [c := <-l.cmdChan], executing a command, or blocked for ever. *)
Inductive goroutine := NotStarted | Receiving | Running | Stuck.

(** The struct [lcd]. [i2cbus] says that the pointer is not nil;
    [ticker] holds, for a ticker that is not nil, the text [s] of the
    goroutine that ranges over it. *)
Record lcd := mkLcd {
  i2cbus : bool;
  lines : list ShowOptions;
  ticker : list (option string);
  scrollSpeed : Z;
  charsPerLine : Z;
  initDelay : Z;
  retryCount : Z;
  handler : goroutine;
  inbox : option command;
  trace : list effect
}.

Definition set_i2cbus v l := mkLcd v (lines l) (ticker l) (scrollSpeed l) (charsPerLine l) (initDelay l) (retryCount l) (handler l) (inbox l) (trace l).
Definition set_lines v l := mkLcd (i2cbus l) v (ticker l) (scrollSpeed l) (charsPerLine l) (initDelay l) (retryCount l) (handler l) (inbox l) (trace l).
Definition set_ticker v l := mkLcd (i2cbus l) (lines l) v (scrollSpeed l) (charsPerLine l) (initDelay l) (retryCount l) (handler l) (inbox l) (trace l).
Definition set_scrollSpeed v l := mkLcd (i2cbus l) (lines l) (ticker l) v (charsPerLine l) (initDelay l) (retryCount l) (handler l) (inbox l) (trace l).
Definition set_retryCount v l := mkLcd (i2cbus l) (lines l) (ticker l) (scrollSpeed l) (charsPerLine l) (initDelay l) v (handler l) (inbox l) (trace l).
Definition set_handler v l := mkLcd (i2cbus l) (lines l) (ticker l) (scrollSpeed l) (charsPerLine l) (initDelay l) (retryCount l) v (inbox l) (trace l).
Definition set_inbox v l := mkLcd (i2cbus l) (lines l) (ticker l) (scrollSpeed l) (charsPerLine l) (initDelay l) (retryCount l) (handler l) v (trace l).
Definition emit (e : effect) l := mkLcd (i2cbus l) (lines l) (ticker l) (scrollSpeed l) (charsPerLine l) (initDelay l) (retryCount l) (handler l) (inbox l) (trace l ++ [e]).

(** What the outside answers during one turn of the handler: whether the
    call on the device returns an error and, when [retryDevice] then runs,
    whether [i2c.NewI2C] gives a bus. *)
Record answer := mkAnswer {
  fails : bool;
  reopens : bool
}.

Definition fine : answer := mkAnswer false true.

(** How a call ends: it returns, it blocks for ever on the channel, or it
    panics. *)
Inductive result (A : Type) :=
| Returns (a : A) (l : lcd)
| Blocks (l : lcd)
| Panics.
Arguments Returns {A} _ _.
Arguments Blocks {A} _.
Arguments Panics {A}.

Definition bind {A B} (r : result A) (k : A -> lcd -> result B) : result B :=
  match r with
  | Returns a l => k a l
  | Blocks l => Blocks l
  | Panics => Panics
  end.

(** [a[i]] on an array: a panic, [None], when [i] is out of range. *)
Definition at_ {A} (a : list A) (i : Z) : option A :=
  if i <? 0 then None else nth_error a (Z.to_nat i).

Fixpoint update_nat {A} (a : list A) (i : nat) (v : A) : list A :=
  match a, i with
  | [], _ => []
  | _ :: r, O => v :: r
  | x :: r, S k => x :: update_nat r k v
  end.

(** [a[i] = v] for an index in range. *)
Definition update {A} (a : list A) (i : Z) (v : A) : list A :=
  update_nat a (Z.to_nat i) v.

(** [l.cmdChan <- c]: the goroutine of [commandHandler] is the only
    receiver; at its receive statement it takes the command, otherwise the
    sender blocks. *)
Definition send (c : command) (l : lcd) : result unit :=
  match handler l with
  | Receiving => Returns tt (set_inbox (Some c) (set_handler Running l))
  | _ => Blocks l
  end.

(** [Backlight], [ClearLine], [Clear] *)
Definition Backlight (on : bool) (l : lcd) : result unit :=
  if on then send (mkCommand cmdBacklightOn 0 "") l
  else send (mkCommand cmdBacklightOff 0 "") l.

Definition ClearLine (line : Z) (l : lcd) : result unit :=
  send (mkCommand cmdPrintline line "") l.

Definition Clear (l : lcd) : result unit :=
  send (mkCommand cmdClear 0 "") l.

(** [if l.ticker[line] != nil { l.ticker[line].Stop(); l.ticker[line] = nil }] *)
Definition stopTicker (line : Z) (l : lcd) : result unit :=
  match at_ (ticker l) line with
  | None => Panics
  | Some None => Returns tt l
  | Some (Some _) =>
      Returns tt (set_ticker (update (ticker l) line None) (emit (TickerStop line) l))
  end.

(** [Close] *)
Definition Close (l : lcd) : result unit :=
  if i2cbus l then
    let l := fold_left (fun l i =>
               match at_ (ticker l) i with
               | Some (Some _) => set_ticker (update (ticker l) i None) (emit (TickerStop i) l)
               | _ => l
               end) [0; 1; 2; 3] l in
    Returns tt (emit BusClose l)
  else Returns tt l.

(** [s[1:] + s[:1]] *)
Definition rotate (s : string) : string :=
  (substring 1 (String.length s - 1) s ++ substring 0 1 s)%string.

(** Arithmetic of [int64]: the result of an operation wraps around. *)
Definition wrap64 (z : Z) : Z := (z + 2 ^ 63) mod 2 ^ 64 - 2 ^ 63.

(** [time.Duration(l.scrollSpeed) * time.Millisecond]: a [Duration] is an
    [int64] that counts nanoseconds, and [scrollSpeed] is an [int], of 32 or
    64 bits. *)
Definition tickerPeriod (l : lcd) : Z := wrap64 (scrollSpeed l * 1000000).

(** [runTicker] up to its first wait for a tick: [time.NewTicker] panics on
    a duration that is not positive. The panic is in the goroutine that
    [printAndScrollLine] starts; it ends the program, and is shown here as
    the way the call ends. *)
Definition runTicker (line : Z) (text : string) (l : lcd) : result unit :=
  if tickerPeriod l <=? 0 then Panics
  else
    match at_ (ticker l) line with
    | None => Panics
    | Some _ => Returns tt (set_ticker (update (ticker l) line (Some (text ++ "     ")%string)) l)
    end.

(** One turn of [for range l.ticker[line].C] in [runTicker]: the text is
    sent, then rotated. A ticker that was stopped never ticks again. *)
Definition tick (line : Z) (l : lcd) : result unit :=
  match at_ (ticker l) line with
  | Some (Some s) =>
      bind (send (mkCommand cmdPrintline line s) l)
        (fun _ l => Returns tt (set_ticker (update (ticker l) line (Some (rotate s))) l))
  | _ => Returns tt l
  end.

(** [printAndScrollLine]; [%] is the remainder of the division that
    truncates, negative for a negative [line]. *)
Definition printAndScrollLine (line : Z) (text : string) (l : lcd) : result unit :=
  let line := Z.rem line numLines in
  bind (stopTicker line l)
    (fun _ l =>
       if len text <=? numChars then send (mkCommand cmdPrintline line text) l
       else runTicker line text (emit (GoRunTicker line text) l)).

(** [PrintLine] *)
Definition PrintLine (line : Z) (text : string) (scroll : bool) (l : lcd) : result unit :=
  if (line <? 0) || (numLines <=? line) then Returns tt (emit LogError l)
  else if scroll then printAndScrollLine line text l
  else bind (stopTicker line l) (fun _ l => send (mkCommand cmdPrintline line text) l).

(** [GetCharsPerLine], [GetMinMaxRowNum] *)
Definition GetCharsPerLine (l : lcd) : Z := charsPerLine l.

Definition GetMinMaxRowNum (l : lcd) : Z * Z := (0, numLines - 1).

(** [printLine]: [err] is what [l.dev.ShowMessage] returns when it is
    called. *)
Definition printLine (line : Z) (text : string) (err : bool) (l : lcd) : lcd * bool :=
  if (0 <=? line) && (line <? numLines) then
    let text := if len text =? 0 then " "%string else text in
    match at_ (lines l) line with
    | Some options => (emit (DevShowMessage text options) l, err)
    | None => (l, false)
    end
  else (l, false).

(** [retryDevice], for constructors that return: the bus and the device are
    opened again, [bus] saying whether a bus is obtained, then [l.Clear()]
    and [l.Backlight(true)] send on the channel. *)
Definition retryDevice (bus : bool) (l : lcd) : result unit :=
  let l := set_i2cbus bus (emit Reopen l) in
  let l := set_retryCount (retryCount l + 1) l in
  bind (Clear l) (fun _ l => Backlight true l).

(** One turn of the loop of [commandHandler], for the command it has
    received. *)
Definition commandHandler (a : answer) (l : lcd) : lcd :=
  match inbox l with
  | None => l
  | Some c =>
      let err := fails a in
      let l := set_inbox None l in
      let '(l, failed) :=
        if cmd c =? cmdClear then (emit DevClear l, err)
        else if cmd c =? cmdBacklightOn then (emit DevBacklightOn l, err)
        else if cmd c =? cmdBacklightOff then (emit DevBacklightOff l, err)
        else if cmd c =? cmdPrintline then printLine (lineNum c) (lineText c) err l
        else (l, false) in
      if failed then
        match retryDevice (reopens a) (emit LogError l) with
        | Returns _ l => set_handler Receiving l
        | Blocks l => set_handler Stuck l
        | Panics => set_handler Stuck l
        end
      else set_handler Receiving l
  end.

(** A call by a goroutine other than the handler, and then the turn of the
    handler for the command the call has sent, if it has sent one. *)
Definition call {A} (op : lcd -> result A) (a : answer) (l : lcd) : result A :=
  match op l with
  | Returns v l => Returns v (commandHandler a l)
  | r => r
  end.

(** [New]: [bus] and [dev] say whether [i2c.NewI2C] and [device.NewLcd]
    succeed, [a1] and [a2] are the answers to the first two commands; the
    value returned is [err != nil]. *)
Definition New (scrollHeader : bool) (speed initDelay : Z) (bus dev : bool)
    (a1 a2 : answer) : result bool :=
  let l := {|
    i2cbus := false;
    lines := [mkOptions 1 true (negb scrollHeader); mkOptions 2 true false;
              mkOptions 3 true false; mkOptions 4 true false];
    ticker := [None; None; None; None];
    scrollSpeed := speed;
    charsPerLine := numChars;
    initDelay := initDelay;
    retryCount := 0;
    handler := NotStarted;
    inbox := None;
    trace := []
  |} in
  if negb bus then Returns true (emit LogError l)
  else
    let l := set_i2cbus true l in
    if negb dev then Returns true (emit LogError l)
    else
      let l := set_handler Receiving l in
      bind (call Clear a1 l)
        (fun _ l => bind (call (Backlight true) a2 l) (fun _ l => Returns false l)).

(** The calls of the interface [display.Display] that return nothing, and
    a tick of the ticker of a row. *)
Inductive op :=
| OpBacklight (on : bool)
| OpClear
| OpClearLine (line : Z)
| OpClose
| OpPrintLine (line : Z) (text : string) (scroll : bool)
| OpTick (line : Z).

Definition perform (o : op) (l : lcd) : result unit :=
  match o with
  | OpBacklight on => Backlight on l
  | OpClear => Clear l
  | OpClearLine line => ClearLine line l
  | OpClose => Close l
  | OpPrintLine line text scroll => PrintLine line text scroll l
  | OpTick line => tick line l
  end.

(** A sequence of calls, each with the answer to it, up to the first that
    does not return. *)
Fixpoint session (ops : list (op * answer)) (l : lcd) : result unit :=
  match ops with
  | [] => Returns tt l
  | (o, a) :: rest => bind (call (perform o) a l) (fun _ l => session rest l)
  end.

(** The state a call ends in, when it ends in one. *)
Definition final {A} (r : result A) : option lcd :=
  match r with
  | Returns _ l => Some l
  | Blocks l => Some l
  | Panics => None
  end.

(** The call sends a command on the channel. *)
Definition sends (o : op) (l : lcd) : bool :=
  match o with
  | OpBacklight _ | OpClear | OpClearLine _ => true
  | OpClose => false
  | OpPrintLine line text scroll =>
      (0 <=? line) && (line <? numLines) && (negb scroll || (len text <=? numChars))
  | OpTick line =>
      match at_ (ticker l) line with Some (Some _) => true | _ => false end
  end.

(** A call on the device that the library accepts: a text that is not
    empty, for one of the four rows. *)
Definition accepted (e : effect) : Prop :=
  match e with
  | DevShowMessage text options => text <> EmptyString /\ 1 <= showLine options <= 4
  | _ => True
  end.

(** The two arrays of the struct have [numLines] entries. *)
Definition sized (l : lcd) : Prop :=
  List.length (lines l) = Z.to_nat numLines /\ List.length (ticker l) = Z.to_nat numLines.

(** The rows of the options are those of the device. *)
Definition rowsOk (l : lcd) : Prop :=
  Forall (fun options => 1 <= showLine options <= 4) (lines l).

(** The handler waits for a command. *)
Definition healthy (l : lcd) : Prop :=
  handler l = Receiving /\ inbox l = None.

Definition onDevice (e : effect) : bool :=
  match e with
  | DevClear | DevBacklightOn | DevBacklightOff | DevShowMessage _ _ => true
  | _ => false
  end.

(** The command of the call makes the handler call the device. *)
Definition reachesDevice (o : op) : bool :=
  match o with
  | OpClearLine line => (0 <=? line) && (line <? numLines)
  | _ => true
  end.

End Lcd.

(** ** The display seen from [main] *)

(** [printLine], lines 136 to 139, with [disp] the display of package
    [lcd]. *)
Definition printLine (line : Z) (text : string) (scroll : bool) (l : Lcd.lcd)
  : Lcd.result unit :=
  Lcd.PrintLine line (TrimSpace text) scroll l.

(** The calls [main] makes on the display: [disp.Backlight(true)] of line
    252 and, through [printLine], [disp.PrintLine] without [scroll]. *)
Definition calledByMain (o : Lcd.op) : bool :=
  match o with
  | Lcd.OpBacklight true => true
  | Lcd.OpPrintLine _ _ false => true
  | _ => false
  end.

(** The display of [main] after a start without errors, with the default
    flags. *)
Definition disp : Lcd.lcd := {|
  Lcd.i2cbus := true;
  Lcd.lines := [Lcd.mkOptions 1 true true; Lcd.mkOptions 2 true false;
                Lcd.mkOptions 3 true false; Lcd.mkOptions 4 true false];
  Lcd.ticker := [None; None; None; None];
  Lcd.scrollSpeed := 500;
  Lcd.charsPerLine := 20;
  Lcd.initDelay := 3;
  Lcd.retryCount := 0;
  Lcd.handler := Lcd.Receiving;
  Lcd.inbox := None;
  Lcd.trace := [Lcd.DevClear; Lcd.DevBacklightOn]
|}.

(** ** A pass and the display *)

(** The row of the call of [printLine] behind an event of the loop. *)
Definition rowOf (e : event) : option Z :=
  match e with
  | PrintRetried i _ | PrintReading i _ _ => Some (match i with I0 => 0 | I1 => 1 end)
  | PrintDewPoints _ _ _ => Some 2
  | ShowIpAndOverride _ _ _ => Some 3
  | _ => None
  end.

(** What one pass adds to the log, in the order of the calls. *)
Definition passEvents {M : MathKernel} (p : poll) (st : State) : list event :=
  skipn (List.length (log st)) (log (cycle p st)).

Section OnDisplay.

(** [fmt.Sprintf] for the texts of rows 0 to 2, the package variable
    [ipAddress], and the answer of the outside to the call behind an
    event. *)
Variable Sprintf : event -> string.
Variable ipAddress : string.
Variable answerTo : event -> Lcd.answer.

(** The text handed to [printLine]; [None] when building it panics. *)
Definition textOf (e : event) : option string :=
  match e with
  | ShowIpAndOverride alive remote msg => showIpAndOverride ipAddress alive remote msg
  | _ => Some (Sprintf e)
  end.

(** The effects of a pass against the display: the loop is one goroutine,
    so an effect happens once the calls of [printLine] before it have
    returned; the effects that have happened come with how the last call
    ended. *)
Fixpoint happen (evs : list event) (l : Lcd.lcd) : list event * Lcd.result unit :=
  match evs with
  | [] => ([], Lcd.Returns tt l)
  | e :: rest =>
      match rowOf e with
      | None => let '(done, r) := happen rest l in (e :: done, r)
      | Some row =>
          match textOf e with
          | None => ([], Lcd.Panics)
          | Some text =>
              match Lcd.call (printLine row text false) (answerTo e) l with
              | Lcd.Returns _ l' => let '(done, r) := happen rest l' in (e :: done, r)
              | r => ([], r)
              end
          end
      end
  end.

End OnDisplay.

(** * Properties *)

(** ** The conversions and the rounding on values *)

Example to_f64_agrees_with_rounding :
  to_f64 (F32.of_Z 3) = F64.of_Z 3
  /\ to_f64 (F32.of_Z (-200)) = F64.of_Z (-200)
  /\ to_f64 (S754_finite false 1 (-149)) = binary_normalize F64.prec F64.emax 1 (-149) false
  /\ to_f64 (to_f32 (F64.dec 1 1))
     = binary_normalize F64.prec F64.emax 13421773 (-27) false.
Proof. vm_compute. repeat split. Qed.

Example Round_values :
  Round (F64.dec 25 1) = F64.of_Z 3
  /\ Round (F64.dec (-25) 1) = F64.of_Z (-3)
  /\ Round (F64.dec 24999 4) = F64.of_Z 2
  /\ Round (F64.dec (-3) 1) = S754_zero true
  /\ Round (S754_finite false 9007199254740991 (-54)) = S754_zero false
  /\ Round (F64.of_Z 7) = F64.of_Z 7
  /\ Round S754_nan = S754_nan.
Proof. vm_compute. repeat split. Qed.

(** ** Well-formed floats

    Every value of a Go float type is a well-formed number of its format.
    The comparisons of [SpecFloat] order well-formed numbers only, so the
    results about the order of stored values need the stored values to be
    well-formed: they are, since each comes out of a rounding. *)

Lemma digits2_pos_iter_xO (m p : positive) :
  Z.pos (digits2_pos (Pos.iter xO m p)) = Z.pos (digits2_pos m) + Z.pos p.
Proof.
  induction p as [| p IH] using Pos.peano_ind.
  - cbn [Pos.iter digits2_pos]. lia.
  - rewrite Pos.iter_succ. cbn [digits2_pos]. lia.
Qed.

Section WellFormed.
Variables prec emax : Z.
Hypothesis Hprec : 0 < prec.

Lemma digits2_bounds (m : positive) :
  2 ^ (Z.pos (digits2_pos m) - 1) <= Z.pos m < 2 ^ Z.pos (digits2_pos m).
Proof.
  induction m as [m IH | m IH |]; cbn [digits2_pos].
  - rewrite Pos2Z.inj_succ.
    replace (Z.succ (Z.pos (digits2_pos m)) - 1) with (Z.succ (Z.pos (digits2_pos m) - 1)) by lia.
    rewrite !Z.pow_succ_r by lia. lia.
  - rewrite Pos2Z.inj_succ.
    replace (Z.succ (Z.pos (digits2_pos m)) - 1) with (Z.succ (Z.pos (digits2_pos m) - 1)) by lia.
    rewrite !Z.pow_succ_r by lia. lia.
  - cbn. lia.
Qed.

Lemma Zdigits2_unique (m : Z) (d : Z) :
  0 < m -> 2 ^ (d - 1) <= m < 2 ^ d -> Zdigits2 m = d.
Proof.
  intros Hm [Hlo Hhi]. destruct m as [| p | p]; try lia. cbn [Zdigits2].
  pose proof (digits2_bounds p) as [Blo Bhi].
  set (k := Z.pos (digits2_pos p)) in *.
  assert (Hk : 0 < k) by (unfold k; lia).
  destruct (Z.lt_trichotomy k d) as [Hlt | [Heq | Hgt]]; [|exact Heq|].
  - assert (2 ^ k <= 2 ^ (d - 1)) by (apply Z.pow_le_mono_r; lia). lia.
  - assert (0 < d \/ d <= 0) as [Hd | Hd] by lia.
    + assert (2 ^ d <= 2 ^ (k - 1)) by (apply Z.pow_le_mono_r; lia). lia.
    + assert (2 ^ d <= 1).
      { destruct (Z.eq_dec d 0) as [-> | Hne]; [cbn; lia|].
        rewrite Z.pow_neg_r by lia. lia. }
      lia.
Qed.

Lemma shr_1_m (mrs : shr_record) : 0 <= shr_m mrs -> shr_m (shr_1 mrs) = shr_m mrs / 2.
Proof.
  destruct mrs as [m r s]. cbn [shr_m]. intros Hm. unfold shr_1.
  destruct m as [| [p | p |] | p]; cbn [shr_m]; try reflexivity; try lia.
  - apply Z.div_unique with (r := 1); lia.
  - apply Z.div_unique with (r := 0); lia.
Qed.

Lemma pow2_xO (p : positive) : 2 ^ Z.pos p~0 = 2 ^ Z.pos p * 2 ^ Z.pos p.
Proof. rewrite <- Z.pow_add_r by lia. f_equal. lia. Qed.

Lemma pow2_xI (p : positive) : 2 ^ Z.pos p~1 = 2 * (2 ^ Z.pos p * 2 ^ Z.pos p).
Proof.
  rewrite <- Z.pow_add_r by lia. rewrite <- Z.pow_succ_r by lia. f_equal. lia.
Qed.

Lemma shr_iter_m (p : positive) :
  forall mrs, 0 <= shr_m mrs ->
  shr_m (iter_pos shr_1 p mrs) = shr_m mrs / 2 ^ Z.pos p.
Proof.
  assert (Hpow : forall q, 0 < 2 ^ Z.pos q) by (intros q; apply Z.pow_pos_nonneg; lia).
  induction p as [p IH | p IH |]; intros mrs Hm; cbn [iter_pos].
  - assert (H1 : 0 <= shr_m (shr_1 mrs)) by (rewrite shr_1_m by lia; apply Z.div_pos; lia).
    assert (H2 : 0 <= shr_m (iter_pos shr_1 p (shr_1 mrs)))
      by (rewrite IH by lia; apply Z.div_pos; [lia|apply Hpow]).
    rewrite IH by lia. rewrite IH by lia. rewrite shr_1_m by lia.
    pose proof (Hpow p).
    rewrite !Z.div_div by lia.
    rewrite pow2_xI. first [reflexivity | f_equal; ring].
  - assert (H2 : 0 <= shr_m (iter_pos shr_1 p mrs))
      by (rewrite IH by lia; apply Z.div_pos; [lia|apply Hpow]).
    rewrite IH by lia. rewrite IH by lia.
    pose proof (Hpow p).
    rewrite !Z.div_div by lia.
    rewrite pow2_xO. first [reflexivity | f_equal; ring].
  - rewrite shr_1_m by lia. reflexivity.
Qed.

Lemma shr_m_of_loc (m : Z) (l : location) : shr_m (shr_record_of_loc m l) = m.
Proof. destruct l as [| []]; reflexivity. Qed.

(** [shr_fexp] divides the mantissa by the power of two that brings the
    exponent to [fexp]. *)
Lemma shr_fexp_spec (m e : Z) (l : location) :
  0 <= m ->
  e <= fexp prec emax (Zdigits2 m + e) ->
  shr_m (fst (shr_fexp prec emax m e l))
  = m / 2 ^ (fexp prec emax (Zdigits2 m + e) - e)
  /\ snd (shr_fexp prec emax m e l) = fexp prec emax (Zdigits2 m + e).
Proof.
  intros Hm Hle. unfold shr_fexp, shr.
  destruct (fexp prec emax (Zdigits2 m + e) - e) as [| p | p] eqn:En; try lia.
  - cbn [fst snd]. rewrite shr_m_of_loc, Z.div_1_r. split; lia.
  - cbn [fst snd]. rewrite shr_iter_m by (rewrite shr_m_of_loc; exact Hm).
    rewrite shr_m_of_loc. split; lia.
Qed.

Lemma Zdigits2_bounds (m : Z) :
  0 < m -> 2 ^ (Zdigits2 m - 1) <= m < 2 ^ Zdigits2 m.
Proof. destruct m as [| p | p]; try lia. intros _. apply digits2_bounds. Qed.

Lemma Zdigits2_pos (m : Z) : 0 < m -> 0 < Zdigits2 m.
Proof. destruct m; cbn; lia. Qed.

(** Dropping [n] low bits of a number with more than [n] bits drops [n]
    digits. *)
Lemma div_pow2_bounds (m d n : Z) :
  0 <= n -> n < d -> 2 ^ (d - 1) <= m < 2 ^ d ->
  2 ^ (d - n - 1) <= m / 2 ^ n < 2 ^ (d - n).
Proof.
  intros Hn Hd [Hlo Hhi].
  assert (Hp : 0 < 2 ^ n) by (apply Z.pow_pos_nonneg; lia).
  split.
  - apply Z.div_le_lower_bound; [exact Hp|].
    rewrite <- Z.pow_add_r by lia. replace (n + (d - n - 1)) with (d - 1) by lia.
    exact Hlo.
  - apply Z.div_lt_upper_bound; [exact Hp|].
    rewrite <- Z.pow_add_r by lia. replace (n + (d - n)) with d by lia. exact Hhi.
Qed.

Lemma round_nearest_even_cases (m : Z) (l : location) :
  round_nearest_even m l = m \/ round_nearest_even m l = m + 1.
Proof.
  unfold round_nearest_even. destruct l as [| []]; auto.
  destruct (Z.even m); auto.
Qed.

(** The rounding step on an aligned mantissa gives zero, an infinity or a
    well-formed finite number. *)
Lemma binary_round_aux_valid (sx : bool) (m e : Z) (l : location) :
  0 < m ->
  e <= fexp prec emax (Zdigits2 m + e) ->
  valid_binary prec emax (binary_round_aux prec emax sx m e l) = true.
Proof.
  intros Hm Hle. unfold binary_round_aux.
  destruct (shr_fexp_spec m e l (Z.lt_le_incl _ _ Hm) Hle) as [Hm1 He1].
  destruct (shr_fexp prec emax m e l) as [mrs1 e1]. cbn [fst snd] in Hm1, He1.
  set (d := Zdigits2 m) in *.
  pose proof (Zdigits2_bounds m Hm) as Hd. fold d in Hd.
  pose proof (Zdigits2_pos m Hm) as Hdpos. fold d in Hdpos.
  set (n := fexp prec emax (d + e) - e) in *.
  assert (Hn : 0 <= n) by (unfold n; lia).
  set (m' := round_nearest_even (shr_m mrs1) (loc_of_shr_record mrs1)).
  assert (Hm1nn : 0 <= shr_m mrs1)
    by (rewrite Hm1; apply Z.div_pos; [lia|apply Z.pow_pos_nonneg; lia]).
  assert (Hm' : m' = shr_m mrs1 \/ m' = shr_m mrs1 + 1)
    by apply round_nearest_even_cases.
  assert (Hm'nn : 0 <= m') by lia.
  (* the mantissa after rounding has at most [prec] digits, or is [2^prec] *)
  assert (Hcases :
            (e1 = d + e - prec /\ 2 ^ (prec - 1) <= shr_m mrs1 < 2 ^ prec)
            \/ (e1 = emin prec emax /\ shr_m mrs1 < 2 ^ (prec - 1))).
  { unfold fexp in He1.
    destruct (Z.max_spec (d + e - prec) (emin prec emax)) as [[Hlt Hmax'] | [Hge Hmax']].
    - right. split; [lia|].
      rewrite Hm1. unfold n, fexp. rewrite Hmax'.
      destruct (Z_lt_le_dec (emin prec emax - e) d) as [Hnd | Hnd].
      + pose proof (div_pow2_bounds m d (emin prec emax - e) ltac:(unfold n, fexp in Hn; lia) Hnd Hd)
          as [_ Hup].
        eapply Z.lt_le_trans; [exact Hup|]. apply Z.pow_le_mono_r; lia.
      + rewrite Z.div_small; [apply Z.pow_pos_nonneg; lia|].
        split; [lia|]. eapply Z.lt_le_trans; [apply Hd|]. apply Z.pow_le_mono_r; lia.
    - left. split; [lia|].
      rewrite Hm1. unfold n, fexp. rewrite Hmax'.
      replace (d + e - prec - e) with (d - prec) by lia.
      assert (Hdp : 0 <= d - prec) by (unfold n, fexp in Hn; lia).
      pose proof (div_pow2_bounds m d (d - prec) Hdp ltac:(lia) Hd) as Hb.
      replace (d - (d - prec) - 1) with (prec - 1) in Hb by lia.
      replace (d - (d - prec)) with prec in Hb by lia. exact Hb. }
  assert (Hemin : emin prec emax <= e1) by (rewrite He1; unfold fexp; lia).
  (* the second alignment *)
  assert (Hfinal :
            let r := shr_fexp prec emax m' e1 loc_Exact in
            shr_m (fst r) = 0
            \/ (0 < shr_m (fst r)
                /\ fexp prec emax (Zdigits2 (shr_m (fst r)) + snd r) = snd r)).
  { cbn zeta.
    destruct (Z.eq_dec m' 0) as [Hz | Hnz].
    - left. rewrite Hz. unfold shr_fexp, shr. cbn [Zdigits2 shr_record_of_loc].
      destruct (fexp prec emax (0 + e1) - e1) as [| p | p]; cbn [fst]; try reflexivity.
      rewrite shr_iter_m by (cbn; lia). cbn [shr_m]. apply Z.div_0_l.
      apply Z.pow_nonzero; lia.
    - right. assert (Hpos : 0 < m') by lia.
      destruct Hcases as [[He1' Hb] | [He1' Hb]].
      + (* normal range *)
        destruct (Z_lt_le_dec m' (2 ^ prec)) as [Hlt | Hge].
        * assert (Hdig : Zdigits2 m' = prec) by (apply Zdigits2_unique; lia).
          assert (Hf : fexp prec emax (Zdigits2 m' + e1) = e1)
            by (rewrite Hdig; unfold fexp; lia).
          destruct (shr_fexp_spec m' e1 loc_Exact Hm'nn ltac:(lia)) as [Hs1 Hs2].
          rewrite Hs1, Hs2, Hf, Z.sub_diag, Z.div_1_r.
          split; [exact Hpos|]. exact Hf.
        * assert (Heq : m' = 2 ^ prec) by lia.
          assert (Hdig : Zdigits2 m' = prec + 1).
          { apply Zdigits2_unique; [lia|]. replace (prec + 1 - 1) with prec by lia.
            split; [lia|]. rewrite Heq. apply Z.pow_lt_mono_r; lia. }
          assert (Hf : fexp prec emax (Zdigits2 m' + e1) = e1 + 1)
            by (rewrite Hdig; unfold fexp; lia).
          destruct (shr_fexp_spec m' e1 loc_Exact Hm'nn ltac:(lia)) as [Hs1 Hs2].
          rewrite Hs1, Hs2, Hf. replace (e1 + 1 - e1) with 1 by lia.
          assert (Hhalf : m' / 2 ^ 1 = 2 ^ (prec - 1)).
          { rewrite Heq. change (2 ^ 1) with 2.
            replace prec with (Z.succ (prec - 1)) at 1 by lia.
            rewrite Z.pow_succ_r by lia. rewrite Z.mul_comm, Z.div_mul by lia.
            reflexivity. }
          rewrite Hhalf.
          assert (Hp1 : 0 < 2 ^ (prec - 1)) by (apply Z.pow_pos_nonneg; lia).
          split; [exact Hp1|].
          assert (Hdig2 : Zdigits2 (2 ^ (prec - 1)) = prec).
          { apply Zdigits2_unique; [exact Hp1|]. split; [lia|].
            apply Z.pow_lt_mono_r; lia. }
          rewrite Hdig2. unfold fexp. lia.
      + (* subnormal range *)
        assert (Hle' : m' <= 2 ^ (prec - 1)) by lia.
        assert (Hdig : Zdigits2 m' <= prec).
        { pose proof (Zdigits2_bounds m' Hpos) as [Hlo _].
          destruct (Z_lt_le_dec prec (Zdigits2 m')) as [Hbig | Hok]; [|exact Hok].
          assert (2 ^ prec <= 2 ^ (Zdigits2 m' - 1)) by (apply Z.pow_le_mono_r; lia).
          assert (2 ^ (prec - 1) < 2 ^ prec) by (apply Z.pow_lt_mono_r; lia).
          lia. }
        assert (Hf : fexp prec emax (Zdigits2 m' + e1) = e1) by (unfold fexp; lia).
        destruct (shr_fexp_spec m' e1 loc_Exact Hm'nn ltac:(lia)) as [Hs1 Hs2].
        rewrite Hs1, Hs2, Hf, Z.sub_diag, Z.div_1_r.
        split; [exact Hpos|]. exact Hf. }
  cbn zeta in Hfinal. fold m'.
  destruct (shr_fexp prec emax m' e1 loc_Exact) as [mrs2 e2]. cbn [fst snd] in Hfinal.
  destruct Hfinal as [Hz | [Hpos Hcan]].
  - rewrite Hz. reflexivity.
  - destruct (shr_m mrs2) as [| p | p] eqn:Ep; try lia.
    destruct (Z.leb_spec e2 (emax - prec)) as [Hb | Hb]; [|reflexivity].
    cbn [valid_binary]. unfold bounded, canonical_mantissa.
    cbn [Zdigits2] in Hcan. rewrite Hcan, Z.eqb_refl. cbn [andb].
    apply Z.leb_le. exact Hb.
Qed.

(** Rounding to a format gives a well-formed number of that format. *)
Lemma binary_round_valid (sx : bool) (mx : positive) (ex : Z) :
  valid_binary prec emax (binary_round prec emax sx mx ex) = true.
Proof.
  unfold binary_round, shl_align.
  destruct (fexp prec emax (Z.pos (digits2_pos mx) + ex) - ex) as [| d | d] eqn:Ed.
  - apply binary_round_aux_valid; [lia|]. cbn [Zdigits2]. lia.
  - apply binary_round_aux_valid; [lia|]. cbn [Zdigits2]. lia.
  - apply binary_round_aux_valid; [lia|]. cbn [Zdigits2].
    rewrite digits2_pos_iter_xO.
    replace (Z.pos (digits2_pos mx) + Z.pos d + fexp prec emax (Z.pos (digits2_pos mx) + ex))
      with (Z.pos (digits2_pos mx) + ex) by lia.
    lia.
Qed.

End WellFormed.


Lemma to_f32_valid (x : float64) : F32.valid (to_f32 x) = true.
Proof.
  destruct x as [s | s | | s m e]; try reflexivity.
  apply binary_round_valid. reflexivity.
Qed.

Lemma roundFloat32_valid {M : MathKernel} (x : float32) (precision : N) :
  F32.valid (roundFloat32 x precision) = true.
Proof. apply to_f32_valid. Qed.

(** ** Rounding to an integer *)













(** ** Comparisons of floats *)

Lemma SFcompare_antisym (x y : spec_float) :
  SFcompare y x = option_map CompOpp (SFcompare x y).
Proof.
  destruct x as [sx | sx | | sx mx ex], y as [sy | sy | | sy my ey];
    try destruct sx; try destruct sy; try reflexivity; cbn.
  - rewrite (Z.compare_antisym ey ex).
    destruct (ey ?= ex); cbn; try reflexivity.
    exact (f_equal (fun c => Some (CompOpp c))
             (eq_sym (Pos.compare_cont_antisym mx my Eq))).
  - rewrite (Z.compare_antisym ey ex).
    destruct (ey ?= ex); cbn; try reflexivity.
    exact (f_equal Some (eq_sym (Pos.compare_cont_antisym mx my Eq))).
Qed.

Lemma fle_not_fgt (x y : spec_float) : fle x y = true -> fgt x y = false.
Proof.
  unfold fle, fgt, SFleb, SFltb. rewrite (SFcompare_antisym x y).
  destruct (SFcompare x y) as [[]|]; cbn; congruence.
Qed.

Lemma fge_not_flt (x y : spec_float) : fge x y = true -> flt x y = false.
Proof. unfold fge, flt. intros H. apply (fle_not_fgt y x H). Qed.

Lemma feq_fle (x y : spec_float) : feq x y = true -> fle x y = true.
Proof.
  unfold feq, fle, SFeqb, SFleb. destruct (SFcompare x y) as [[]|]; congruence.
Qed.

Lemma feq_fge (x y : spec_float) : feq x y = true -> fge x y = true.
Proof.
  unfold feq, fge, SFeqb, SFleb. rewrite (SFcompare_antisym x y).
  destruct (SFcompare x y) as [[]|]; cbn; congruence.
Qed.

(** The two thresholds as binary32 values. *)
Lemma on_threshold_bits :
  F32.of_Z (DIFF_MIN + HYSTERESIS) = S754_finite false 8388608 (-21).
Proof. vm_compute. reflexivity. Qed.

Lemma off_threshold_bits : F32.of_Z DIFF_MIN = S754_finite false 12582912 (-22).
Proof. vm_compute. reflexivity. Qed.

(** Above the upper threshold is not below the lower one. *)
Lemma above_on_not_below_off (d : float32) :
  fgt d (F32.of_Z (DIFF_MIN + HYSTERESIS)) = true -> flt d (F32.of_Z DIFF_MIN) = false.
Proof.
  rewrite on_threshold_bits, off_threshold_bits.
  unfold fgt, flt, SFltb.
  destruct d as [s | s | | s m e]; try destruct s; unfold SFcompare;
    try congruence.
  destruct (Z.compare_spec (-21) e); destruct (Z.compare_spec e (-22));
    try lia; congruence.
Qed.

(** ** What the sensor phase leaves alone *)

Ltac split_ifs :=
  repeat match goal with
         | |- context [if ?c then _ else _] => destruct c eqn:?
         end.

Section Frame.
Context {M : MathKernel}.

Lemma sensorStep_frame rd acc i :
  let st := fst acc in
  let st' := fst (sensorStep rd acc i) in
  fanShouldBeOn st' = fanShouldBeOn st
  /\ lastDewpoints st' = lastDewpoints st
  /\ remoteOverride st' = remoteOverride st
  /\ venting st' = venting st
  /\ pin25 st' = pin25 st.
Proof.
  destruct acc as [st g]. unfold sensorStep.
  destruct (dht_err (rd i)); split_ifs; cbn; repeat split; reflexivity.
Qed.

Lemma sensorLoop_frame rd st :
  let st' := fst (sensorLoop rd st) in
  fanShouldBeOn st' = fanShouldBeOn st
  /\ lastDewpoints st' = lastDewpoints st
  /\ remoteOverride st' = remoteOverride st
  /\ venting st' = venting st
  /\ pin25 st' = pin25 st.
Proof.
  unfold sensorLoop. cbn [fold_left].
  pose proof (sensorStep_frame rd (st, true) I0) as H0.
  pose proof (sensorStep_frame rd (sensorStep rd (st, true) I0) I1) as H1.
  cbn zeta in *. cbn [fst] in H0.
  destruct H0 as (a0 & b0 & c0 & d0 & e0), H1 as (a1 & b1 & c1 & d1 & e1).
  repeat split; congruence.
Qed.

End Frame.

(** ** What the last steps of a pass leave alone *)

Lemma actuate_frame st :
  fanShouldBeOn (actuate st) = fanShouldBeOn st
  /\ lastDewpoints (actuate st) = lastDewpoints st
  /\ temperatures (actuate st) = temperatures st
  /\ humidities (actuate st) = humidities st
  /\ dewpoints (actuate st) = dewpoints st
  /\ remoteOverride (actuate st) = remoteOverride st.
Proof. repeat split. Qed.

Lemma report_frame p22 time st :
  fanShouldBeOn (report p22 time st) = fanShouldBeOn st
  /\ lastDewpoints (report p22 time st) = lastDewpoints st
  /\ temperatures (report p22 time st) = temperatures st
  /\ humidities (report p22 time st) = humidities st
  /\ dewpoints (report p22 time st) = dewpoints st
  /\ remoteOverride (report p22 time st) = remoteOverride st
  /\ pin25 (report p22 time st) = pin25 st.
Proof. unfold report. destruct p22; split_ifs; repeat split. Qed.

Lemma overrideStage_frame st :
  lastDewpoints (overrideStage st) = lastDewpoints st
  /\ temperatures (overrideStage st) = temperatures st
  /\ humidities (overrideStage st) = humidities st
  /\ dewpoints (overrideStage st) = dewpoints st
  /\ remoteOverride (overrideStage st) = remoteOverride st.
Proof. unfold overrideStage. split_ifs; repeat split. Qed.

Lemma decisionStage_frame good st :
  temperatures (decisionStage good st) = temperatures st
  /\ humidities (decisionStage good st) = humidities st
  /\ dewpoints (decisionStage good st) = dewpoints st
  /\ remoteOverride (decisionStage good st) = remoteOverride st.
Proof. unfold decisionStage. split_ifs; repeat split. Qed.

(** The relay output and the desired state at the end of a pass, from the
    state the decision step leaves. *)
Lemma control_fan p22 time st good :
  fanShouldBeOn (control p22 time (st, good))
  = fanShouldBeOn (overrideStage (decisionStage good st)).
Proof.
  unfold control.
  destruct (report_frame p22 time (actuate (overrideStage (decisionStage good st))))
    as (-> & _).
  reflexivity.
Qed.

Lemma control_pin25 p22 time st good :
  pin25 (control p22 time (st, good))
  = if fanShouldBeOn (overrideStage (decisionStage good st)) then Low else High.
Proof.
  unfold control.
  destruct (report_frame p22 time (actuate (overrideStage (decisionStage good st))))
    as (_ & _ & _ & _ & _ & _ & ->).
  reflexivity.
Qed.

(** ** The decision step *)

Section Decision.
Context {M : MathKernel}.

Lemma hysteresis_on delta fan :
  fgt delta (F32.of_Z (DIFF_MIN + HYSTERESIS)) = true -> hysteresis delta fan = true.
Proof.
  intros H. unfold hysteresis. rewrite H, (above_on_not_below_off delta H). reflexivity.
Qed.

Lemma hysteresis_off delta fan :
  flt delta (F32.of_Z DIFF_MIN) = true -> hysteresis delta fan = false.
Proof. intros H. unfold hysteresis. rewrite H. reflexivity. Qed.

Lemma hysteresis_keep delta fan :
  fle (F32.of_Z DIFF_MIN) delta = true ->
  fle delta (F32.of_Z (DIFF_MIN + HYSTERESIS)) = true ->
  hysteresis delta fan = fan.
Proof.
  intros Hlo Hhi. unfold hysteresis.
  rewrite (fle_not_fgt _ _ Hhi), (fge_not_flt delta (F32.of_Z DIFF_MIN) Hlo).
  reflexivity.
Qed.

Lemma hysteresis_turns_on delta :
  hysteresis delta false = true -> fgt delta (F32.of_Z (DIFF_MIN + HYSTERESIS)) = true.
Proof.
  unfold hysteresis.
  destruct (fgt delta (F32.of_Z (DIFF_MIN + HYSTERESIS))); [reflexivity|].
  destruct (flt delta (F32.of_Z DIFF_MIN)); discriminate.
Qed.

Lemma decisionStage_run st :
  spike st = false ->
  fanShouldBeOn (decisionStage true st)
  = floors st (hysteresis (deltaTP st) (fanShouldBeOn st)).
Proof. intros H. unfold decisionStage. rewrite H. reflexivity. Qed.

Lemma decisionStage_spike st :
  spike st = true ->
  fanShouldBeOn (decisionStage true st) = fanShouldBeOn st
  /\ venting (decisionStage true st) = venting st.
Proof. intros H. unfold decisionStage. rewrite H. split; reflexivity. Qed.

(** The sequence of the specification at the upper threshold: 3.0, 3.99,
    4.0 and 4.01 from a fan that is off; only the last value turns it on. *)
Example no_chatter_at_the_threshold :
  map (fun d => hysteresis d false)
      [F32.of_Z 3; to_f32 (F64.dec 399 2); F32.of_Z 4; to_f32 (F64.dec 401 2)]
  = [false; false; false; true]
  /\ map (fun d => hysteresis d true)
        [F32.of_Z 4; F32.of_Z 3; to_f32 (F64.dec 299 2); S754_nan]
     = [true; true; false; true].
Proof. vm_compute. split; reflexivity. Qed.

(** C1. In a pass where both readings are good and no spike is seen, the
    desired state handed to the safety floors is the one the hysteresis
    step computes from [deltaTP = dewpoints[0] - dewpoints[1]] and the desired
    state of the previous pass: true above [DIFF_MIN + HYSTERESIS], false
    below [DIFF_MIN], the previous value in between, bounds included. At
    [deltaTP = DIFF_MIN] a state that was false stays false, and a state that
    was false becomes true only when [deltaTP] strictly exceeds
    [DIFF_MIN + HYSTERESIS]. *)
Theorem hysteresis_step (p : poll) (st : State) :
  let sensed := sensorLoop (dht p) st in
  let delta := deltaTP (fst sensed) in
  let h := hysteresis delta (fanShouldBeOn st) in
  snd sensed = true ->
  spike (fst sensed) = false ->
  fanShouldBeOn (decisionStage (snd sensed) (fst sensed)) = floors (fst sensed) h
  /\ (fgt delta (F32.of_Z (DIFF_MIN + HYSTERESIS)) = true -> h = true)
  /\ (flt delta (F32.of_Z DIFF_MIN) = true -> h = false)
  /\ (fle (F32.of_Z DIFF_MIN) delta = true ->
      fle delta (F32.of_Z (DIFF_MIN + HYSTERESIS)) = true ->
      h = fanShouldBeOn st)
  /\ (feq delta (F32.of_Z DIFF_MIN) = true -> fanShouldBeOn st = false -> h = false)
  /\ (fanShouldBeOn st = false -> h = true ->
      fgt delta (F32.of_Z (DIFF_MIN + HYSTERESIS)) = true).
Proof.
  intros sensed delta h Hgood Hspike.
  destruct (sensorLoop_frame (dht p) st) as (Hfan & _).
  fold sensed in Hfan. subst h.
  repeat split.
  - rewrite Hgood, (decisionStage_run _ Hspike), Hfan. reflexivity.
  - apply hysteresis_on.
  - apply hysteresis_off.
  - apply hysteresis_keep.
  - intros Heq Hprev. rewrite Hprev.
    apply hysteresis_keep; [exact (feq_fge _ _ Heq)|].
    apply feq_fle in Heq. revert Heq.
    rewrite on_threshold_bits, off_threshold_bits.
    unfold fle, SFleb.
    destruct delta as [s | s | | s m e]; try destruct s; unfold SFcompare;
      try congruence.
    destruct (Z.compare_spec e (-22)); destruct (Z.compare_spec e (-21));
      try lia; congruence.
  - intros Hprev. rewrite Hprev. apply hysteresis_turns_on.
Qed.

(** C2. In a pass where the decision step runs, as soon as the inside
    temperature is below [TEMP_INSIDE_MIN], the outside temperature is below
    [TEMP_OUTSIDE_MIN] or the inside humidity is below [HUM_INSIDE_MIN], the
    desired state at the end of the decision step is false, whatever
    [deltaTP] is. *)
Theorem safety_floors_force_off (p : poll) (st : State) :
  let sensed := sensorLoop (dht p) st in
  let st1 := fst sensed in
  snd sensed = true ->
  spike st1 = false ->
  flt (elem0 (temperatures st1)) (F32.of_Z TEMP_INSIDE_MIN) = true
  \/ flt (elem1 (temperatures st1)) (F32.of_Z TEMP_OUTSIDE_MIN) = true
  \/ flt (elem0 (humidities st1)) (F32.of_Z HUM_INSIDE_MIN) = true ->
  fanShouldBeOn (decisionStage (snd sensed) st1) = false
  /\ venting (decisionStage (snd sensed) st1) = "off"%string.
Proof.
  intros sensed st1 Hgood Hspike Hfloor.
  rewrite Hgood. unfold decisionStage. rewrite Hspike.
  assert (Hf : forall fan, floors st1 fan = false).
  { intros fan. unfold floors.
    destruct Hfloor as [H | [H | H]]; rewrite H; split_ifs; reflexivity. }
  unfold decide. cbn. rewrite Hf. split; reflexivity.
Qed.

(** C3. In a pass where both readings are good but the dew point of either
    location is more than 1.0 away from the stored one, the decision step is
    skipped: the desired state and the [venting] text are those of the
    previous pass, and without a remote override they are still so at the end
    of the pass. *)
Theorem spike_keeps_desired_state (p : poll) (st : State) :
  let sensed := sensorLoop (dht p) st in
  snd sensed = true ->
  spike (fst sensed) = true ->
  fanShouldBeOn (decisionStage (snd sensed) (fst sensed)) = fanShouldBeOn st
  /\ venting (decisionStage (snd sensed) (fst sensed)) = venting st
  /\ (remoteOverride st <= 0 -> fanShouldBeOn (cycle p st) = fanShouldBeOn st).
Proof.
  intros sensed Hgood Hspike.
  destruct (sensorLoop_frame (dht p) st) as (Hfan & _ & Hrem & Hvent & _).
  fold sensed in Hfan, Hrem, Hvent.
  destruct (decisionStage_spike _ Hspike) as [Hd Hv].
  rewrite Hgood. repeat split; try congruence.
  intros Hle. unfold cycle. fold sensed.
  destruct sensed as [st1 good]; cbn [fst snd] in *. subst good.
  rewrite control_fan. unfold overrideStage.
  assert (Hr : remoteOverride (decisionStage true st1) = remoteOverride st).
  { unfold decisionStage. rewrite Hspike. cbn. exact Hrem. }
  rewrite Hr. destruct (Z.ltb_spec 0 (remoteOverride st)); [lia|].
  congruence.
Qed.

End Decision.

(** ** The stored dew points *)

(** A float is never more than 1.0 away from itself. *)
Lemma no_spike_on_equal (x : float64) :
  fgt (Abs (F64.sub x x)) (F64.of_Z 1) = false.
Proof.
  destruct x as [s | s | | s m e]; try destruct s; try reflexivity;
    unfold F64.sub, SFsub; rewrite Z.sub_diag; reflexivity.
Qed.


Section LastDewpoints.
Context {M : MathKernel}.

Lemma cycle_lastDewpoints p st :
  lastDewpoints (cycle p st)
  = lastDewpoints (decisionStage (snd (sensorLoop (dht p) st)) (fst (sensorLoop (dht p) st))).
Proof.
  unfold cycle. destruct (sensorLoop (dht p) st) as [st1 good]. unfold control.
  destruct (report_frame (pin22 p) (now p) (actuate (overrideStage (decisionStage good st1))))
    as (_ & -> & _).
  destruct (actuate_frame (overrideStage (decisionStage good st1))) as (_ & -> & _).
  destruct (overrideStage_frame (decisionStage good st1)) as (-> & _).
  reflexivity.
Qed.

Lemma lastDewpoints_after_good p st :
  snd (sensorLoop (dht p) st) = true ->
  elem0 (lastDewpoints (cycle p st)) = elem0 (dewpoints (fst (sensorLoop (dht p) st)))
  /\ elem1 (lastDewpoints (cycle p st)) = elem1 (dewpoints (fst (sensorLoop (dht p) st))).
Proof.
  intros Hg. rewrite cycle_lastDewpoints, Hg. unfold decisionStage.
  destruct (spike (fst (sensorLoop (dht p) st))); split; reflexivity.
Qed.


End LastDewpoints.

(** ** The remote override *)

Lemma overrideStage_fan st :
  fanShouldBeOn (overrideStage st)
  = if 0 <? remoteOverride st then remoteOverride st =? 1 else fanShouldBeOn st.
Proof. unfold overrideStage. split_ifs; reflexivity. Qed.

Section Override.
Context {M : MathKernel}.

(** The desired state at the end of a pass. *)
Lemma cycle_fan p st :
  let sensed := sensorLoop (dht p) st in
  fanShouldBeOn (cycle p st)
  = if 0 <? remoteOverride st then remoteOverride st =? 1
    else fanShouldBeOn (decisionStage (snd sensed) (fst sensed)).
Proof.
  intros sensed. unfold cycle. fold sensed.
  destruct (sensorLoop_frame (dht p) st) as (_ & _ & Hrem & _). fold sensed in Hrem.
  destruct sensed as [st1 good]. cbn [fst snd] in *.
  rewrite control_fan, overrideStage_fan.
  destruct (decisionStage_frame good st1) as (_ & _ & _ & ->).
  rewrite Hrem. reflexivity.
Qed.

(** The relay output follows the desired state, active low. *)
Lemma cycle_pin25 p st :
  pin25 (cycle p st) = if fanShouldBeOn (cycle p st) then Low else High.
Proof.
  unfold cycle. destruct (sensorLoop (dht p) st) as [st1 good].
  rewrite control_pin25, control_fan. reflexivity.
Qed.

(** C10. The override is whatever integer the endpoint was sent: after a
    POST of [v], the value 1 forces the relay on, every value from 2 upwards
    forces it off, and zero and every negative value leave the relay to the
    desired state the decision step of the pass computes. *)
Theorem override_is_an_unvalidated_integer (v : Z) (p : poll) (st : State) :
  let posted := overrideHandler (mkRequest "POST" (mkRemote v)) st in
  let sensed := sensorLoop (dht p) posted in
  let computed := fanShouldBeOn (decisionStage (snd sensed) (fst sensed)) in
  remoteOverride posted = v
  /\ (v = 1 -> fanShouldBeOn (cycle p posted) = true /\ pin25 (cycle p posted) = Low)
  /\ (2 <= v -> fanShouldBeOn (cycle p posted) = false /\ pin25 (cycle p posted) = High)
  /\ (v <= 0 ->
      fanShouldBeOn (cycle p posted) = computed
      /\ pin25 (cycle p posted) = if computed then Low else High).
Proof.
  intros posted sensed computed.
  assert (Hv : remoteOverride posted = v) by reflexivity.
  pose proof (cycle_fan p posted) as Hfan. cbn zeta in Hfan.
  fold sensed in Hfan. fold computed in Hfan. rewrite Hv in Hfan.
  rewrite cycle_pin25, Hfan.
  split; [exact Hv|]. clear Hv Hfan. repeat split.
  - subst v. reflexivity.
  - subst v. reflexivity.
  - destruct (Z.ltb_spec 0 v); [|lia]. destruct (Z.eqb_spec v 1); [lia|reflexivity].
  - destruct (Z.ltb_spec 0 v); [|lia]. destruct (Z.eqb_spec v 1); [lia|reflexivity].
  - destruct (Z.ltb_spec 0 v); [lia|reflexivity].
  - destruct (Z.ltb_spec 0 v); [lia|reflexivity].
Qed.

End Override.

(** ** The desired state coming into a pass *)

Ltac state_fields :=
  cbn [temperatures humidities dewpoints lastDewpoints retried fanShouldBeOn
       lastfanShouldBeOn fanStatus lastFanStatus remoteOverride lastRemoteOverride
       venting fanIsOn isAlive cycleUpdate pin25 log
       set_temperatures set_humidities set_dewpoints set_lastDewpoints set_retried
       set_fanShouldBeOn set_lastfanShouldBeOn set_fanStatus set_lastFanStatus
       set_remoteOverride set_lastRemoteOverride set_venting set_fanIsOn
       set_isAlive set_cycleUpdate set_pin25 emit fst snd] in *.

Section Incoming.
Context {M : MathKernel}.

(** The sensor phase neither reads nor writes the desired state. *)
Lemma sensorStep_set_fan rd st g i b :
  sensorStep rd (set_fanShouldBeOn b st, g) i
  = (set_fanShouldBeOn b (fst (sensorStep rd (st, g) i)), snd (sensorStep rd (st, g) i)).
Proof.
  destruct st. unfold sensorStep. state_fields.
  destruct (dht_err (rd i)); state_fields; split_ifs; reflexivity.
Qed.

Lemma sensorLoop_set_fan rd st b :
  sensorLoop rd (set_fanShouldBeOn b st)
  = (set_fanShouldBeOn b (fst (sensorLoop rd st)), snd (sensorLoop rd st)).
Proof.
  unfold sensorLoop. cbn [fold_left].
  rewrite sensorStep_set_fan.
  destruct (sensorStep rd (st, true) I0) as [st0 g0]. cbn [fst snd].
  rewrite sensorStep_set_fan. reflexivity.
Qed.

End Incoming.

(** ** Clearing the override *)

Lemma floors_belowFloor st fan :
  floors st fan = if belowFloor st then false else fan.
Proof.
  unfold floors, belowFloor.
  destruct (flt (elem0 (temperatures st)) (F32.of_Z TEMP_INSIDE_MIN)),
    (flt (elem1 (temperatures st)) (F32.of_Z TEMP_OUTSIDE_MIN)),
    (flt (elem0 (humidities st)) (F32.of_Z HUM_INSIDE_MIN)); reflexivity.
Qed.

Lemma decide_settled st b :
  settled st = true ->
  fanShouldBeOn (decide (set_fanShouldBeOn b st)) = fanShouldBeOn (decide st).
Proof.
  unfold settled. intros H. destruct st. unfold decide. state_fields.
  rewrite !floors_belowFloor. unfold belowFloor, deltaTP in *. state_fields.
  match goal with |- (if ?c then _ else _) = _ => destruct c end; [reflexivity|].
  rewrite orb_false_r in H. apply orb_true_iff in H. destruct H as [H | H].
  - rewrite !(hysteresis_on _ _ H). reflexivity.
  - rewrite !(hysteresis_off _ _ H). reflexivity.
Qed.

Lemma decisionStage_settled st b :
  spike st = false ->
  settled st = true ->
  fanShouldBeOn (decisionStage true (set_fanShouldBeOn b st))
  = fanShouldBeOn (decisionStage true st).
Proof.
  intros Hs Hset. pose proof (decide_settled st b Hset) as E.
  unfold decisionStage.
  change (spike (set_fanShouldBeOn b st)) with (spike st). rewrite Hs.
  exact E.
Qed.

Section Clearing.
Context {M : MathKernel}.

(** C5. An override of 1 turns the relay on and an override of 2 turns it
    off, whatever the decision step computed. With the override back at 0
    the desired state and the relay are what the decision step of that pass
    computes. That step starts from the desired state the override left,
    since both write the same variable: the pass gives what it would have
    given from any other state when the step runs and a threshold or a floor
    settles it; when the step is skipped, or runs inside the hysteresis band
    with no floor, it keeps the state it finds. *)
Theorem remote_override_priority (p : poll) (st : State) :
  let sensed := sensorLoop (dht p) st in
  let st1 := fst sensed in
  let computed := fanShouldBeOn (decisionStage (snd sensed) st1) in
  (remoteOverride st = 1 ->
   fanShouldBeOn (cycle p st) = true /\ pin25 (cycle p st) = Low)
  /\ (remoteOverride st = 2 ->
      fanShouldBeOn (cycle p st) = false /\ pin25 (cycle p st) = High)
  /\ (remoteOverride st = 0 ->
      fanShouldBeOn (cycle p st) = computed
      /\ pin25 (cycle p st) = if computed then Low else High)
  /\ (remoteOverride st = 0 -> snd sensed = true -> spike st1 = false ->
      settled st1 = true ->
      forall b, pin25 (cycle p (set_fanShouldBeOn b st)) = pin25 (cycle p st))
  /\ (remoteOverride st = 0 -> snd sensed = false \/ spike st1 = true ->
      fanShouldBeOn (cycle p st) = fanShouldBeOn st)
  /\ (remoteOverride st = 0 -> snd sensed = true -> spike st1 = false ->
      fle (F32.of_Z DIFF_MIN) (deltaTP st1) = true ->
      fle (deltaTP st1) (F32.of_Z (DIFF_MIN + HYSTERESIS)) = true ->
      belowFloor st1 = false ->
      fanShouldBeOn (cycle p st) = fanShouldBeOn st).
Proof.
  intros sensed st1 computed.
  pose proof (cycle_fan p st) as Hfan. cbn zeta in Hfan.
  fold sensed in Hfan. fold st1 in Hfan. fold computed in Hfan.
  destruct (sensorLoop_frame (dht p) st) as (Hprev & _).
  fold sensed in Hprev. fold st1 in Hprev.
  rewrite cycle_pin25, Hfan.
  split; [|split; [|split; [|split; [|split]]]].
  - intros ->. split; reflexivity.
  - intros ->. split; reflexivity.
  - intros ->. split; reflexivity.
  - intros Hrem Hgood Hspike Hset b.
    rewrite cycle_pin25.
    pose proof (cycle_fan p (set_fanShouldBeOn b st)) as Hb. cbn zeta in Hb.
    rewrite Hb, sensorLoop_set_fan. fold sensed. fold st1.
    cbn [fst snd]. change (remoteOverride (set_fanShouldBeOn b st)) with (remoteOverride st).
    rewrite Hrem. cbn [Z.ltb Z.compare]. subst computed. rewrite Hgood.
    rewrite (decisionStage_settled st1 b Hspike Hset). reflexivity.
  - intros -> Hskip. cbn [Z.ltb Z.compare]. subst computed.
    destruct Hskip as [-> | Hs].
    + exact Hprev.
    + destruct (snd sensed); [|exact Hprev].
      destruct (decisionStage_spike _ Hs) as [-> _]. exact Hprev.
  - intros -> Hgood Hspike Hlo Hhi Hfloor. cbn [Z.ltb Z.compare]. subst computed.
    rewrite Hgood, (decisionStage_run _ Hspike), floors_belowFloor, Hfloor.
    rewrite (hysteresis_keep _ _ Hlo Hhi). exact Hprev.
Qed.

End Clearing.

(** ** A failed read *)

Lemma get_set_same {A} (s : slice2 A) i v : get (set s i v) i = v.
Proof. destruct i; reflexivity. Qed.

Lemma get_set_other {A} (s : slice2 A) i j v : i <> j -> get (set s j v) i = get s i.
Proof. destruct i, j; intros H; try reflexivity; now destruct H. Qed.

Section FailedRead.
Context {M : MathKernel}.

(** [readingsGood] is only ever cleared inside the loop. *)
Lemma sensorStep_stays_bad rd st i : snd (sensorStep rd (st, false) i) = false.
Proof.
  unfold sensorStep. destruct (dht_err (rd i)); split_ifs; reflexivity.
Qed.

Lemma sensorStep_err rd st g i :
  dht_err (rd i) = true ->
  let st' := fst (sensorStep rd (st, g) i) in
  snd (sensorStep rd (st, g) i) = false
  /\ get (temperatures st') i = dht_temperature (rd i)
  /\ get (humidities st') i = dht_humidity (rd i)
  /\ (fgt (dht_temperature (rd i)) (F32.of_Z DEF_TEMP)
      && fgt (dht_humidity (rd i)) (F32.of_Z DEF_HUM) = false ->
      get (dewpoints st') i = get (dewpoints st) i).
Proof.
  intros Herr. destruct st. unfold sensorStep. rewrite Herr. state_fields.
  rewrite !get_set_same.
  split_ifs; state_fields; rewrite ?get_set_same; repeat split;
    try reflexivity; intros; discriminate.
Qed.

(** The body for one index leaves the entries of the other index alone. *)
Lemma sensorStep_other rd st g i j :
  i <> j ->
  let st' := fst (sensorStep rd (st, g) j) in
  get (temperatures st') i = get (temperatures st) i
  /\ get (humidities st') i = get (humidities st) i
  /\ get (dewpoints st') i = get (dewpoints st) i.
Proof.
  intros Hij. destruct st. unfold sensorStep. state_fields.
  destruct (dht_err (rd j)); state_fields; split_ifs; state_fields;
    rewrite ?(get_set_other _ i j _ Hij); repeat split; reflexivity.
Qed.

Lemma sensorLoop_err rd st i :
  dht_err (rd i) = true ->
  let st' := fst (sensorLoop rd st) in
  snd (sensorLoop rd st) = false
  /\ get (temperatures st') i = dht_temperature (rd i)
  /\ get (humidities st') i = dht_humidity (rd i)
  /\ (fgt (dht_temperature (rd i)) (F32.of_Z DEF_TEMP)
      && fgt (dht_humidity (rd i)) (F32.of_Z DEF_HUM) = false ->
      get (dewpoints st') i = get (dewpoints st) i).
Proof.
  intros Herr. unfold sensorLoop. cbn [fold_left].
  destruct (sensorStep rd (st, true) I0) as [st0 g0] eqn:E0.
  destruct i.
  - pose proof (sensorStep_err rd st true I0 Herr) as H. rewrite E0 in H.
    cbn [fst snd] in H. destruct H as (-> & Ht & Hh & Hd).
    assert (Hij : I0 <> I1) by discriminate.
    destruct (sensorStep_other rd st0 false I0 I1 Hij) as (-> & -> & ->).
    rewrite sensorStep_stays_bad. repeat split; assumption.
  - pose proof (sensorStep_err rd st0 g0 I1 Herr) as H.
    destruct H as (-> & -> & -> & Hd).
    assert (Hij : I1 <> I0) by discriminate.
    pose proof (sensorStep_other rd st true I1 I0 Hij) as H. rewrite E0 in H.
    cbn [fst] in H. destruct H as (_ & _ & <-).
    repeat split; assumption.
Qed.

(** After the sensor phase a pass no longer touches the readings. *)
Lemma cycle_readings p st :
  temperatures (cycle p st) = temperatures (fst (sensorLoop (dht p) st))
  /\ humidities (cycle p st) = humidities (fst (sensorLoop (dht p) st))
  /\ dewpoints (cycle p st) = dewpoints (fst (sensorLoop (dht p) st)).
Proof.
  unfold cycle. destruct (sensorLoop (dht p) st) as [st1 good]. unfold control.
  destruct (report_frame (pin22 p) (now p) (actuate (overrideStage (decisionStage good st1))))
    as (_ & _ & -> & -> & -> & _).
  destruct (actuate_frame (overrideStage (decisionStage good st1)))
    as (_ & _ & -> & -> & -> & _).
  destruct (overrideStage_frame (decisionStage good st1)) as (_ & -> & -> & -> & _).
  destruct (decisionStage_frame good st1) as (-> & -> & -> & _).
  repeat split.
Qed.

(** C8, as the loop has it. When the read of a sensor returns an error the
    pass is marked not good: the decision step does nothing, the stored dew
    points are kept and, without a remote override, so is the desired state.
    The temperature and the humidity of that sensor are not kept: they are
    overwritten with the two values returned beside the error, and those are
    what the status pages show. The dew point of the sensor is kept when the
    returned values do not pass the test against [DEF_TEMP] and
    [DEF_HUM]. *)
Theorem failed_read_skips_decision (p : poll) (st : State) (i : index) :
  dht_err (dht p i) = true ->
  let sensed := sensorLoop (dht p) st in
  snd sensed = false
  /\ decisionStage (snd sensed) (fst sensed) = fst sensed
  /\ (remoteOverride st <= 0 -> fanShouldBeOn (cycle p st) = fanShouldBeOn st)
  /\ lastDewpoints (cycle p st) = lastDewpoints st
  /\ get (temperatures (cycle p st)) i = dht_temperature (dht p i)
  /\ get (humidities (cycle p st)) i = dht_humidity (dht p i)
  /\ (fgt (dht_temperature (dht p i)) (F32.of_Z DEF_TEMP)
      && fgt (dht_humidity (dht p i)) (F32.of_Z DEF_HUM) = false ->
      get (dewpoints (cycle p st)) i = get (dewpoints st) i).
Proof.
  intros Herr sensed.
  destruct (sensorLoop_err (dht p) st i Herr) as (Hbad & Ht & Hh & Hd).
  destruct (sensorLoop_frame (dht p) st) as (Hfan & Hlast & _).
  destruct (cycle_readings p st) as (Et & Eh & Ed).
  fold sensed in Hbad, Ht, Hh, Hd, Hfan, Hlast, Et, Eh, Ed.
  rewrite Et, Eh, Ed, Hbad.
  split; [reflexivity|]. split; [reflexivity|].
  split; [|split; [|repeat split; assumption]].
  - intros Hle. pose proof (cycle_fan p st) as Hc. cbn zeta in Hc. rewrite Hc.
    destruct (Z.ltb_spec 0 (remoteOverride st)); [lia|].
    fold sensed. rewrite Hbad. exact Hfan.
  - rewrite cycle_lastDewpoints. fold sensed. rewrite Hbad. exact Hlast.
Qed.

End FailedRead.

(** ** Who writes the desired state *)

Ltac same_control_intro :=
  match goal with
  | |- sameControl ?a ?b -> _ =>
      destruct a, b; unfold sameControl; state_fields;
      intros (-> & -> & -> & -> & -> & -> & -> & -> & ->)
  end.

Section Writers.
Context {M : MathKernel}.

Lemma sensorStep_sameControl rd a b g i :
  sameControl a b ->
  sameControl (fst (sensorStep rd (a, g) i)) (fst (sensorStep rd (b, g) i))
  /\ snd (sensorStep rd (a, g) i) = snd (sensorStep rd (b, g) i).
Proof.
  same_control_intro. unfold sensorStep. state_fields.
  destruct (dht_err (rd i)); state_fields; split_ifs; state_fields;
    unfold sameControl; state_fields; repeat split; reflexivity.
Qed.

Lemma sensorLoop_sameControl rd a b :
  sameControl a b ->
  sameControl (fst (sensorLoop rd a)) (fst (sensorLoop rd b))
  /\ snd (sensorLoop rd a) = snd (sensorLoop rd b).
Proof.
  intros H. unfold sensorLoop. cbn [fold_left].
  destruct (sensorStep_sameControl rd a b true I0 H) as [H0 G0].
  destruct (sensorStep rd (a, true) I0) as [a0 ga], (sensorStep rd (b, true) I0) as [b0 gb].
  cbn [fst snd] in *. subst gb.
  apply sensorStep_sameControl, H0.
Qed.

Lemma decisionStage_sameControl a b g :
  sameControl a b -> sameControl (decisionStage g a) (decisionStage g b).
Proof.
  same_control_intro. destruct g; [|unfold sameControl; repeat split].
  unfold decisionStage, spike. state_fields.
  match goal with |- context [if ?c then _ else _] => destruct c end.
  - unfold sameControl; repeat split.
  - unfold decide, deltaTP, floors. state_fields.
    unfold sameControl; state_fields; repeat split.
Qed.

Lemma overrideStage_sameControl a b :
  sameControl a b -> sameControl (overrideStage a) (overrideStage b).
Proof.
  same_control_intro. unfold overrideStage. state_fields.
  split_ifs; unfold sameControl; repeat split.
Qed.

Lemma actuate_sameControl a b :
  sameControl a b -> sameControl (actuate a) (actuate b).
Proof.
  same_control_intro. unfold actuate. state_fields. unfold sameControl; repeat split.
Qed.

Lemma report_sameControl p22 t p22' t' a b :
  sameControl a b -> sameControl (report p22 t a) (report p22' t' b).
Proof.
  intros H. unfold sameControl in *.
  destruct (report_frame p22 t a) as (-> & -> & -> & -> & -> & -> & ->).
  destruct (report_frame p22' t' b) as (-> & -> & -> & -> & -> & -> & ->).
  assert (Hr : forall q time s, retried (report q time s) = retried s
                                /\ venting (report q time s) = venting s).
  { intros q time s. unfold report. destruct q; split_ifs; split; reflexivity. }
  destruct (Hr p22 t a) as [-> ->], (Hr p22' t' b) as [-> ->].
  exact H.
Qed.

Lemma control_sameControl p22 t p22' t' a b g :
  sameControl a b ->
  sameControl (control p22 t (a, g)) (control p22' t' (b, g)).
Proof.
  intros H. unfold control.
  apply report_sameControl, actuate_sameControl, overrideStage_sameControl,
    decisionStage_sameControl, H.
Qed.

Lemma step_sameControl x y a b :
  sameButSwitch x y -> sameControl a b -> sameControl (step a x) (step b y).
Proof.
  intros Hxy Hab. destruct Hxy as [rd p22 t p22' t' | req]; cbn [step].
  - unfold cycle. cbn [dht pin22 now].
    destruct (sensorLoop_sameControl rd a b Hab) as [H G].
    destruct (sensorLoop rd a) as [a1 ga], (sensorLoop rd b) as [b1 gb].
    cbn [fst snd] in *. subst gb. apply control_sameControl, H.
  - revert Hab. same_control_intro. unfold overrideHandler.
    split_ifs; unfold sameControl; state_fields; repeat split; reflexivity.
Qed.

Lemma run_sameControl xs ys :
  Forall2 sameButSwitch xs ys ->
  forall a b, sameControl a b -> sameControl (run xs a) (run ys b).
Proof.
  induction 1 as [| x y xs ys Hxy _ IH]; intros a b Hab; cbn [run fold_left].
  - exact Hab.
  - apply IH, step_sameControl; assumption.
Qed.

(** C9. Over a pass the desired state changes only if the decision step
    ran, which needs good readings and no spike, or if a remote override is
    set. A request to the override endpoint does not change it. The level
    read from the relay-sense input is only reported: two runs that receive
    the same readings and requests and differ in that level alone have the
    same desired state and the same relay output. *)
Theorem desired_state_writers (p : poll) (st : State) :
  let sensed := sensorLoop (dht p) st in
  (fanShouldBeOn (cycle p st) <> fanShouldBeOn st ->
   (snd sensed = true /\ spike (fst sensed) = false) \/ 0 < remoteOverride st)
  /\ (forall req, fanShouldBeOn (overrideHandler req st) = fanShouldBeOn st)
  /\ (forall xs ys, Forall2 sameButSwitch xs ys ->
      fanShouldBeOn (run xs st) = fanShouldBeOn (run ys st)
      /\ pin25 (run xs st) = pin25 (run ys st)).
Proof.
  intros sensed. split; [|split].
  - intros Hch. pose proof (cycle_fan p st) as Hc. cbn zeta in Hc. fold sensed in Hc.
    destruct (Z.ltb_spec 0 (remoteOverride st)) as [Hpos | Hle]; [right; exact Hpos|].
    left. destruct (sensorLoop_frame (dht p) st) as (Hfan & _). fold sensed in Hfan.
    destruct (snd sensed) eqn:Hg.
    + split; [reflexivity|]. destruct (spike (fst sensed)) eqn:Hs; [|reflexivity].
      destruct (decisionStage_spike _ Hs) as [Hd _]. congruence.
    + cbn [decisionStage] in Hc. congruence.
  - intros req. unfold overrideHandler. split_ifs; reflexivity.
  - intros xs ys Hxy.
    assert (Hst : sameControl st st) by (unfold sameControl; repeat split).
    destruct (run_sameControl xs ys Hxy st st Hst)
      as (_ & _ & _ & _ & _ & Hf & _ & _ & Hp).
    split; assumption.
Qed.

End Writers.

(** ** The arguments of [calcDewPoint] *)

Lemma SFcompare_total (x y : spec_float) :
  isNaN x = false -> isNaN y = false -> exists c, SFcompare x y = Some c.
Proof.
  destruct x as [sx | sx | | sx mx ex], y as [sy | sy | | sy my ey];
    cbn [isNaN]; intros; try discriminate; unfold SFcompare; eauto.
Qed.

Lemma fgt_not_nan (x c : spec_float) : fgt x c = true -> isNaN x = false.
Proof.
  unfold fgt, SFltb. destruct x; try reflexivity.
  destruct c; cbn; discriminate.
Qed.

Lemma not_flt_fle (x y : spec_float) :
  isNaN x = false -> isNaN y = false -> flt x y = false -> fle y x = true.
Proof.
  intros Hx Hy. destruct (SFcompare_total x y Hx Hy) as [c Hc].
  unfold flt, fle, SFltb, SFleb. rewrite (SFcompare_antisym x y), Hc.
  destruct c; cbn; congruence.
Qed.

Lemma not_fgt_fle (x y : spec_float) :
  isNaN x = false -> isNaN y = false -> fgt x y = false -> fle x y = true.
Proof. intros Hx Hy. unfold fgt. apply (not_flt_fle y x Hy Hx). Qed.

Lemma warm_constant_bits : F64.dec 2373 1 = S754_finite false 8349251496679834 (-45).
Proof. vm_compute. reflexivity. Qed.

Lemma cold_constant_bits : F64.dec 2407 1 = S754_finite false 8468878361781862 (-45).
Proof. vm_compute. reflexivity. Qed.

Lemma minus_twenty_bits : F32.of_Z (-20) = S754_finite true 10485760 (-19).
Proof. vm_compute. reflexivity. Qed.

Lemma zero_bits : F64.of_Z 0 = S754_zero false.
Proof. reflexivity. Qed.

(** The mantissa of a binary32 value has at most 24 bits. *)
Lemma valid_mantissa s m e :
  F32.valid (S754_finite s m e) = true -> Z.pos (digits2_pos m) <= 24.
Proof.
  unfold F32.valid, valid_binary, bounded, canonical_mantissa, fexp, emin,
    F32.prec, F32.emax.
  intros H. apply andb_true_iff in H. destruct H as [H _].
  apply Z.eqb_eq in H. lia.
Qed.

(** A [float32] that is at least -20 is not the opposite of the constant
    [b] that [calcDewPoint] picks for it, so [b + t64] is not zero. *)
Lemma divisor_not_zero (t : float32) :
  F32.valid t = true ->
  fle (F32.of_Z (-20)) t = true ->
  feq (to_f64 t) (SFopp (snd (magnus (to_f64 t)))) = false.
Proof.
  intros Hv Hle. unfold magnus.
  rewrite warm_constant_bits, cold_constant_bits, zero_bits.
  rewrite minus_twenty_bits in Hle.
  destruct t as [s | s | | s m e].
  - destruct s; reflexivity.
  - destruct s; [discriminate|reflexivity].
  - discriminate.
  - pose proof (valid_mantissa s m e Hv) as Hd.
    unfold to_f64, F64.prec.
    destruct (53 - Z.pos (digits2_pos m)) as [| k | k] eqn:K; try lia.
    destruct s; [|reflexivity].
    unfold fge, flt, feq, SFleb, SFltb, SFeqb, SFcompare, snd, SFopp, negb.
    revert Hle. unfold fle, SFleb, SFcompare.
    destruct (Z.compare_spec (-19) e); intros Hle; try discriminate;
      destruct (Z.compare_spec (e - Z.pos k) (-45)); try lia; reflexivity.
Qed.

Section Arguments.
Context {M : MathKernel}.

Lemma guard_range t h :
  fgt t (F32.of_Z DEF_TEMP) && fgt h (F32.of_Z DEF_HUM) = true ->
  flt t (F32.of_Z (-20)) || fgt t (F32.of_Z 40) = false ->
  fle (F32.of_Z (-20)) t = true
  /\ fle t (F32.of_Z 40) = true
  /\ fgt h (F32.of_Z DEF_HUM) = true.
Proof.
  intros Hg Hr. apply andb_true_iff in Hg. destruct Hg as [Ht Hh].
  apply orb_false_iff in Hr. destruct Hr as [Hlo Hhi].
  pose proof (fgt_not_nan _ _ Ht) as Hn.
  repeat split.
  - apply not_flt_fle; [exact Hn|reflexivity|exact Hlo].
  - apply not_fgt_fle; [exact Hn|reflexivity|exact Hhi].
  - exact Hh.
Qed.

Lemma Forall_emit (P : event -> Prop) e st :
  Forall P (log st) -> P e -> Forall P (log (emit e st)).
Proof.
  intros H He. cbn [log emit]. apply Forall_app. split; [exact H|].
  constructor; [exact He|constructor].
Qed.

Lemma sensorStep_calls rd acc i :
  validReading (rd i) ->
  Forall dewPointCallOk (log (fst acc)) ->
  Forall dewPointCallOk (log (fst (sensorStep rd acc i))).
Proof.
  destruct acc as [st g]. cbn [fst]. intros [Hvt _] H. unfold sensorStep.
  destruct (dht_err (rd i));
    match goal with
    | |- context [if ?c then _ else _] => destruct c eqn:Hguard
    end;
    try match goal with
    | |- context [if ?c then _ else _] => destruct c eqn:Hrange
    end;
    cbn [fst]; repeat apply Forall_emit; try exact H; try exact I.
  - destruct (guard_range _ _ Hguard Hrange) as (Hlo & Hhi & Hh).
    state_fields. rewrite ?get_set_same in *.
    repeat split; try assumption; try reflexivity.
    apply divisor_not_zero; assumption.
  - destruct (guard_range _ _ Hguard Hrange) as (Hlo & Hhi & Hh).
    state_fields. rewrite ?get_set_same in *.
    repeat split; try assumption; try reflexivity.
    apply divisor_not_zero; [apply roundFloat32_valid|assumption].
Qed.

Lemma decisionStage_calls good st :
  Forall dewPointCallOk (log st) -> Forall dewPointCallOk (log (decisionStage good st)).
Proof.
  intros H. unfold decisionStage. destruct good; [|exact H].
  destruct (spike st); cbn [log set_lastDewpoints].
  - apply Forall_emit; [exact H|exact I].
  - unfold decide. repeat apply Forall_emit; try exact I. exact H.
Qed.

Lemma report_calls p22 time st :
  Forall dewPointCallOk (log st) -> Forall dewPointCallOk (log (report p22 time st)).
Proof.
  destruct st. unfold report. state_fields. intros H.
  destruct p22; split_ifs; state_fields; rewrite ?Forall_app;
    repeat split; try exact H; repeat constructor.
Qed.

Lemma control_calls p22 time st good :
  Forall dewPointCallOk (log st) ->
  Forall dewPointCallOk (log (control p22 time (st, good))).
Proof.
  intros H. unfold control. apply report_calls.
  unfold actuate. apply Forall_emit; [|exact I]. cbn [log set_pin25].
  unfold overrideStage. split_ifs; cbn [log set_fanShouldBeOn];
    apply decisionStage_calls, H.
Qed.

Lemma cycle_calls p st :
  (forall i, validReading (dht p i)) ->
  Forall dewPointCallOk (log st) -> Forall dewPointCallOk (log (cycle p st)).
Proof.
  intros Hv H. unfold cycle, sensorLoop. cbn [fold_left].
  pose proof (sensorStep_calls (dht p) _ I1 (Hv I1)
                (sensorStep_calls (dht p) (st, true) I0 (Hv I0) H)) as H1.
  destruct (sensorStep (dht p) (sensorStep (dht p) (st, true) I0) I1) as [st1 good].
  apply control_calls, H1.
Qed.

Lemma run_calls acts :
  Forall validAction acts ->
  forall st, Forall dewPointCallOk (log st) -> Forall dewPointCallOk (log (run acts st)).
Proof.
  induction 1 as [| a acts Ha _ IH]; intros st H; cbn [run fold_left]; [exact H|].
  apply IH. destruct a as [p | req]; cbn [step].
  - apply cycle_calls; assumption.
  - unfold overrideHandler. split_ifs; exact H.
Qed.

End Arguments.

Section Calculator.
Context {M : MathKernel}.

(** C6, as the loop has it. In every run from the initial state whose
    readings are well-formed [float32] values, each dew point the loop
    computes is computed from a temperature in [-20, 40], which is never
    the opposite of the constant [b], and from a humidity above the sentinel
    [DEF_HUM = -1]; a humidity of zero or just below is not excluded. *)
Theorem calcDewPoint_arguments (acts : list action) :
  Forall validAction acts ->
  Forall dewPointCallOk (log (run acts initial)).
Proof. intros Hv. apply run_calls; [exact Hv|constructor]. Qed.

Lemma Pow_ten_one : Pow (F64.of_Z 10) (F64.of_Z 1) = F64.of_Z 10.
Proof. vm_compute. reflexivity. Qed.

Lemma roundFloat32_one (x : float32) :
  roundFloat32 x 1
  = to_f32 (F64.div (Round (F64.mul (to_f64 x) (F64.of_Z 10))) (F64.of_Z 10)).
Proof.
  unfold roundFloat32. change (Z.of_N 1) with 1. rewrite Pow_ten_one. reflexivity.
Qed.





End Calculator.

(** ** A successful read *)

Section GoodRead.
Context {M : MathKernel}.

Lemma sensorStep_ok rd st g i :
  dht_err (rd i) = false ->
  let st' := fst (sensorStep rd (st, g) i) in
  let t := correctedTemperature i (rd i) in
  let h := correctedHumidity i (rd i) in
  get (temperatures st') i = t
  /\ get (humidities st') i = h
  /\ (fgt t (F32.of_Z DEF_TEMP) && fgt h (F32.of_Z DEF_HUM) = true ->
      flt t (F32.of_Z (-20)) || fgt t (F32.of_Z 40) = false ->
      In (InfoDewpoint i (roundFloat32 (calcDewPoint t h) 1) t h (dht_retried (rd i)))
         (log st')).
Proof.
  intros Herr. destruct st. unfold sensorStep, correctedTemperature, correctedHumidity.
  rewrite Herr. state_fields. rewrite !get_set_same.
  split_ifs; state_fields; rewrite ?get_set_same; repeat split; intros;
    try discriminate.
  apply in_or_app. right. left. reflexivity.
Qed.

Lemma sensorStep_log_grows rd st g i e :
  In e (log st) -> In e (log (fst (sensorStep rd (st, g) i))).
Proof.
  destruct st. unfold sensorStep. state_fields. intros H.
  destruct (dht_err (rd i)); state_fields; split_ifs; state_fields;
    repeat (apply in_or_app; left); exact H.
Qed.

Lemma control_log_grows p22 time st good e :
  In e (log st) -> In e (log (control p22 time (st, good))).
Proof.
  intros H.
  assert (Hd : In e (log (decisionStage good st))).
  { unfold decisionStage. destruct good; [|exact H].
    destruct (spike st); [cbn [log set_lastDewpoints emit]; apply in_or_app; left; exact H|].
    unfold decide. cbn [log set_lastDewpoints emit].
    repeat (apply in_or_app; left). exact H. }
  assert (Ho : In e (log (overrideStage (decisionStage good st)))).
  { unfold overrideStage. split_ifs; exact Hd. }
  unfold control. set (s := overrideStage (decisionStage good st)) in *. clearbody s.
  destruct s. unfold report, actuate. state_fields.
  destruct p22; split_ifs; state_fields; repeat (apply in_or_app; left); exact Ho.
Qed.

Lemma cycle_logs_sensor_events p st e :
  In e (log (fst (sensorLoop (dht p) st))) -> In e (log (cycle p st)).
Proof.
  unfold cycle. destruct (sensorLoop (dht p) st) as [st1 good]. apply control_log_grows.
Qed.

(** What a pass stores and logs for the outside sensor when its read
    succeeds. *)
Lemma cycle_outside_ok p st :
  dht_err (dht p I1) = false ->
  let t := correctedTemperature I1 (dht p I1) in
  let h := correctedHumidity I1 (dht p I1) in
  fgt t (F32.of_Z DEF_TEMP) && fgt h (F32.of_Z DEF_HUM) = true ->
  flt t (F32.of_Z (-20)) || fgt t (F32.of_Z 40) = false ->
  In (InfoDewpoint I1 (roundFloat32 (calcDewPoint t h) 1) t h (dht_retried (dht p I1)))
     (log (cycle p st)).
Proof.
  intros Herr t h Hguard Hrange. apply cycle_logs_sensor_events.
  unfold sensorLoop. cbn [fold_left].
  destruct (sensorStep (dht p) (st, true) I0) as [st0 g0].
  destruct (sensorStep_ok (dht p) st0 g0 I1 Herr) as (_ & _ & H).
  apply H; assumption.
Qed.

(** What a pass stores for the inside sensor when its read succeeds. *)
Lemma cycle_inside_ok p st :
  dht_err (dht p I0) = false ->
  get (temperatures (cycle p st)) I0 = correctedTemperature I0 (dht p I0)
  /\ get (humidities (cycle p st)) I0 = correctedHumidity I0 (dht p I0).
Proof.
  intros Herr. destruct (cycle_readings p st) as (-> & -> & _).
  unfold sensorLoop. cbn [fold_left].
  destruct (sensorStep_ok (dht p) st true I0 Herr) as (Ht & Hh & _).
  destruct (sensorStep (dht p) (st, true) I0) as [st0 g0]. cbn [fst] in Ht, Hh.
  assert (Hij : I0 <> I1) by discriminate.
  destruct (sensorStep_other (dht p) st0 g0 I0 I1 Hij) as (-> & -> & _).
  split; assumption.
Qed.

(** What a pass stores for a sensor whose read fails. *)
Lemma cycle_failed_values p st i :
  dht_err (dht p i) = true ->
  get (temperatures (cycle p st)) i = dht_temperature (dht p i)
  /\ get (humidities (cycle p st)) i = dht_humidity (dht p i).
Proof.
  intros Herr. destruct (cycle_readings p st) as (-> & -> & _).
  destruct (sensorLoop_err (dht p) st i Herr) as (_ & Ht & Hh & _).
  split; assumption.
Qed.

End GoodRead.

(** ** Further properties of the loop *)

Section Further.
Context {M : MathKernel}.

Lemma sensorStep_dewpoints rd st g i :
  get (dewpoints (fst (sensorStep rd (st, g) i))) i
  = if computesDewPoint i (rd i)
    then roundFloat32 (calcDewPoint (storedTemperature i (rd i)) (storedHumidity i (rd i))) 1
    else get (dewpoints st) i.
Proof.
  destruct st. unfold sensorStep, computesDewPoint, storedTemperature, storedHumidity,
    correctedTemperature, correctedHumidity.
  state_fields.
  destruct (dht_err (rd i)); state_fields; rewrite ?get_set_same;
    repeat match goal with
           | |- context [fgt ?a ?b] => destruct (fgt a b)
           | |- context [flt ?a ?b] => destruct (flt a b)
           end;
    cbn [andb orb negb]; state_fields; rewrite ?get_set_same; reflexivity.
Qed.

Lemma sensorLoop_dewpoints rd st i :
  get (dewpoints (fst (sensorLoop rd st))) i
  = if computesDewPoint i (rd i)
    then roundFloat32 (calcDewPoint (storedTemperature i (rd i)) (storedHumidity i (rd i))) 1
    else get (dewpoints st) i.
Proof.
  unfold sensorLoop. cbn [fold_left].
  destruct (sensorStep rd (st, true) I0) as [st0 g0] eqn:E0.
  destruct i.
  - assert (Hij : I0 <> I1) by discriminate.
    destruct (sensorStep_other rd st0 g0 I0 I1 Hij) as (_ & _ & ->).
    pose proof (sensorStep_dewpoints rd st true I0) as H. rewrite E0 in H. exact H.
  - rewrite sensorStep_dewpoints.
    assert (Hij : I1 <> I0) by discriminate.
    pose proof (sensorStep_other rd st true I1 I0 Hij) as H. rewrite E0 in H.
    cbn [fst] in H. destruct H as (_ & _ & ->). reflexivity.
Qed.

(** X1. The relay output is the desired state, active low, and it is
    written in every pass. *)
Theorem relay_is_active_low (p : poll) (st : State) :
  pin25 (cycle p st) = (if fanShouldBeOn (cycle p st) then Low else High)
  /\ In (Pin25Out (pin25 (cycle p st))) (log (cycle p st)).
Proof.
  unfold cycle. destruct (sensorLoop (dht p) st) as [st1 good].
  rewrite control_pin25, control_fan. split; [reflexivity|].
  unfold control.
  set (s := overrideStage (decisionStage good st1)).
  assert (Ha : In (Pin25Out (if fanShouldBeOn s then Low else High)) (log (actuate s))).
  { unfold actuate. cbn [log emit]. apply in_or_app. right. left. reflexivity. }
  clearbody s. revert Ha. generalize (Pin25Out (if fanShouldBeOn s then Low else High)).
  intros e Ha. destruct (actuate s). unfold report. state_fields.
  destruct (pin22 p); split_ifs; state_fields; repeat (apply in_or_app; left); exact Ha.
Qed.

(** X2. A jump of the dew point is rejected for one pass only: after a
    pass with good readings, a pass with the same readings finds no spike. *)
Theorem rejected_jump_is_accepted_next (p : poll) (st : State) :
  snd (sensorLoop (dht p) st) = true ->
  spike (fst (sensorLoop (dht p) (cycle p st))) = false.
Proof.
  intros Hgood.
  destruct (lastDewpoints_after_good p st Hgood) as [Hl0 Hl1].
  destruct (cycle_readings p st) as (_ & _ & Hd).
  pose proof (sensorLoop_frame (dht p) (cycle p st)) as (_ & Hlast & _).
  cbn zeta in Hlast.
  unfold spike. rewrite Hlast, Hl0, Hl1.
  change (elem0 (dewpoints (fst (sensorLoop (dht p) (cycle p st)))))
    with (get (dewpoints (fst (sensorLoop (dht p) (cycle p st)))) I0).
  change (elem1 (dewpoints (fst (sensorLoop (dht p) (cycle p st)))))
    with (get (dewpoints (fst (sensorLoop (dht p) (cycle p st)))) I1).
  change (elem0 (dewpoints (fst (sensorLoop (dht p) st))))
    with (get (dewpoints (fst (sensorLoop (dht p) st))) I0).
  change (elem1 (dewpoints (fst (sensorLoop (dht p) st))))
    with (get (dewpoints (fst (sensorLoop (dht p) st))) I1).
  rewrite !sensorLoop_dewpoints, Hd, !sensorLoop_dewpoints.
  destruct (computesDewPoint I0 (dht p I0)), (computesDewPoint I1 (dht p I1));
    rewrite !no_spike_on_equal; reflexivity.
Qed.

(** X3. An outside dew point that is not a number is never rejected as a
    spike: the test then looks at the inside dew point alone, and the
    hysteresis step keeps the desired state. *)
Theorem nan_is_never_a_spike (st : State) :
  elem1 (dewpoints st) = S754_nan ->
  spike st
  = fgt (Abs (F64.sub (to_f64 (elem0 (dewpoints st))) (to_f64 (elem0 (lastDewpoints st)))))
      (F64.of_Z 1)
  /\ hysteresis (deltaTP st) (fanShouldBeOn st) = fanShouldBeOn st.
Proof.
  unfold spike, deltaTP. intros ->. split.
  - cbn [to_f64]. unfold F64.sub at 2.
    replace (SFsub F64.prec F64.emax S754_nan (to_f64 (elem1 (lastDewpoints st))))
      with S754_nan by reflexivity.
    apply orb_false_r.
  - replace (F32.sub (elem0 (dewpoints st)) S754_nan) with S754_nan
      by (unfold F32.sub, SFsub; destruct (elem0 (dewpoints st)); reflexivity).
    destruct (fanShouldBeOn st); reflexivity.
Qed.

End Further.

(** * The loop on sample readings *)

(** The first pass only records the dew points: they are more than 1.0 away
    from the initial zeros. The second pass with the same readings decides. *)
Example humid_turns_on :
  fanShouldBeOn (run (M := Ref.kernel) [Poll humid] initial) = false
  /\ fanShouldBeOn (run (M := Ref.kernel) [Poll humid; Poll humid] initial) = true
  /\ pin25 (run (M := Ref.kernel) [Poll humid; Poll humid] initial) = Low.
Proof. vm_compute. repeat split. Qed.

Example sample_dew_points :
  dewpoints (run (M := Ref.kernel) [Poll humid] initial) = Slice2 (tenths 125) (tenths 18)
  /\ dewpoints (run (M := Ref.kernel) [Poll mild] initial) = Slice2 (tenths 125) (tenths 90)
  /\ dewpoints (run (M := Ref.kernel) [Poll close] initial) = Slice2 (tenths 125) (tenths 100).
Proof. vm_compute. repeat split. Qed.

(** Witness for C1: with the fan on, a pass inside the band keeps it on; a
    pass above the upper threshold turns it on; a pass below the lower
    threshold turns it off. *)
Lemma hysteresis_step_witness :
  let warm := run (M := Ref.kernel) [Poll humid; Poll humid; Poll mild] initial in
  let cold := run (M := Ref.kernel) [Poll humid] initial in
  let near := run (M := Ref.kernel) [Poll humid; Poll humid; Poll close] initial in
  (fanShouldBeOn warm = true
   /\ deltaTP (fst (sensorLoop (M := Ref.kernel) (dht mild) warm)) = tenths 35
   /\ hysteresis (deltaTP (fst (sensorLoop (M := Ref.kernel) (dht mild) warm)))
        (fanShouldBeOn warm) = fanShouldBeOn warm)
  /\ (fanShouldBeOn cold = false
      /\ hysteresis (deltaTP (fst (sensorLoop (M := Ref.kernel) (dht humid) cold)))
           (fanShouldBeOn cold) = true)
  /\ (fanShouldBeOn near = true
      /\ deltaTP (fst (sensorLoop (M := Ref.kernel) (dht close) near)) = tenths 25
      /\ hysteresis (deltaTP (fst (sensorLoop (M := Ref.kernel) (dht close) near)))
           (fanShouldBeOn near) = false).
Proof.
  intros warm cold near.
  assert (Gw : snd (sensorLoop (M := Ref.kernel) (dht mild) warm) = true)
    by (vm_compute; reflexivity).
  assert (Sw : spike (fst (sensorLoop (M := Ref.kernel) (dht mild) warm)) = false)
    by (vm_compute; reflexivity).
  assert (Gc : snd (sensorLoop (M := Ref.kernel) (dht humid) cold) = true)
    by (vm_compute; reflexivity).
  assert (Sc : spike (fst (sensorLoop (M := Ref.kernel) (dht humid) cold)) = false)
    by (vm_compute; reflexivity).
  assert (Gn : snd (sensorLoop (M := Ref.kernel) (dht close) near) = true)
    by (vm_compute; reflexivity).
  assert (Sn : spike (fst (sensorLoop (M := Ref.kernel) (dht close) near)) = false)
    by (vm_compute; reflexivity).
  destruct (hysteresis_step (M := Ref.kernel) mild warm Gw Sw) as (_ & _ & _ & Hkeep & _).
  destruct (hysteresis_step (M := Ref.kernel) humid cold Gc Sc) as (_ & Hon & _).
  destruct (hysteresis_step (M := Ref.kernel) close near Gn Sn) as (_ & _ & Hoff & _).
  split; [|split].
  - split; [vm_compute; reflexivity|]. split; [vm_compute; reflexivity|].
    apply Hkeep; vm_compute; reflexivity.
  - split; [vm_compute; reflexivity|].
    apply Hon; vm_compute; reflexivity.
  - split; [vm_compute; reflexivity|]. split; [vm_compute; reflexivity|].
    apply Hoff; vm_compute; reflexivity.
Defined.

(** Witness for C2: inside humidity 49 percent with [deltaTP = 9.0]. *)
Lemma safety_floors_force_off_witness :
  let st := run (M := Ref.kernel) [Poll humid; Poll humid; Poll dry] initial in
  let sensed := sensorLoop (M := Ref.kernel) (dht dry) st in
  fanShouldBeOn st = true
  /\ deltaTP (fst sensed) = tenths 90
  /\ elem0 (humidities (fst sensed)) = tenths 490
  /\ fanShouldBeOn (decisionStage (snd sensed) (fst sensed)) = false
  /\ venting (decisionStage (snd sensed) (fst sensed)) = "off"%string.
Proof.
  intros st sensed.
  assert (G : snd sensed = true) by (vm_compute; reflexivity).
  assert (S : spike (fst sensed) = false) by (vm_compute; reflexivity).
  assert (F : flt (elem0 (temperatures (fst sensed))) (F32.of_Z TEMP_INSIDE_MIN) = true
              \/ flt (elem1 (temperatures (fst sensed))) (F32.of_Z TEMP_OUTSIDE_MIN) = true
              \/ flt (elem0 (humidities (fst sensed))) (F32.of_Z HUM_INSIDE_MIN) = true)
    by (right; right; vm_compute; reflexivity).
  destruct (safety_floors_force_off (M := Ref.kernel) dry st G S F) as [Hf Hv].
  split; [vm_compute; reflexivity|].
  split; [vm_compute; reflexivity|].
  split; [vm_compute; reflexivity|].
  split; assumption.
Defined.

(** Witness for C3: the stored inside dew point is 10.0, the new one 11.5. *)
Lemma spike_keeps_desired_state_witness :
  let st := run (M := Ref.kernel) [Poll before_jump; Poll before_jump] initial in
  let sensed := sensorLoop (M := Ref.kernel) (dht after_jump) st in
  elem0 (lastDewpoints st) = tenths 100
  /\ elem0 (dewpoints (fst sensed)) = tenths 115
  /\ fanShouldBeOn (decisionStage (snd sensed) (fst sensed)) = fanShouldBeOn st
  /\ venting (decisionStage (snd sensed) (fst sensed)) = venting st
  /\ fanShouldBeOn (cycle (M := Ref.kernel) after_jump st) = fanShouldBeOn st.
Proof.
  intros st sensed.
  assert (G : snd sensed = true) by (vm_compute; reflexivity).
  assert (S : spike (fst sensed) = true) by (vm_compute; reflexivity).
  destruct (spike_keeps_desired_state (M := Ref.kernel) after_jump st G S)
    as (Hf & Hv & Hc).
  split; [vm_compute; reflexivity|].
  split; [vm_compute; reflexivity|].
  split; [exact Hf|]. split; [exact Hv|].
  apply Hc. vm_compute. intros Hgt. discriminate Hgt.
Defined.



(** Witness for C5: an override of 1 and of 2 on a pass that would decide
    otherwise; then, with the override cleared, a pass below the lower
    threshold switches the relay off as its decision step computes, a pass
    in the band or with failed reads keeps the state it finds, and a pass
    below the lower threshold gives the same from either state. *)
Lemma remote_override_priority_witness :
  let off := run (M := Ref.kernel) [Poll mild; Poll mild] initial in
  let on := run (M := Ref.kernel) [Poll humid; Poll humid] initial in
  let forced := run (M := Ref.kernel) [Poll mild; Poll mild; post 1; Poll mild; post 0] initial in
  (fanShouldBeOn off = false
   /\ pin25 (cycle (M := Ref.kernel) mild (step (M := Ref.kernel) off (post 1))) = Low)
  /\ (fanShouldBeOn on = true
      /\ pin25 (cycle (M := Ref.kernel) humid (step (M := Ref.kernel) on (post 2))) = High)
  /\ (fanShouldBeOn forced = true
      /\ fanShouldBeOn (cycle (M := Ref.kernel) mild forced) = true
      /\ fanShouldBeOn (cycle (M := Ref.kernel) both_fail forced) = true)
  /\ (forall b, pin25 (cycle (M := Ref.kernel) close (set_fanShouldBeOn b (cycle (M := Ref.kernel) close forced)))
                = pin25 (cycle (M := Ref.kernel) close (cycle (M := Ref.kernel) close forced)))
  /\ (fanShouldBeOn (cycle (M := Ref.kernel) close forced) = false
      /\ pin25 (cycle (M := Ref.kernel) close forced) = High).
Proof.
  intros off on forced.
  destruct (remote_override_priority (M := Ref.kernel) close forced)
    as (_ & _ & Hcleared & _).
  destruct (remote_override_priority (M := Ref.kernel) mild (step (M := Ref.kernel) off (post 1)))
    as (H1 & _).
  destruct (remote_override_priority (M := Ref.kernel) humid (step (M := Ref.kernel) on (post 2)))
    as (_ & H2 & _).
  destruct (remote_override_priority (M := Ref.kernel) mild forced)
    as (_ & _ & _ & _ & _ & Hband).
  destruct (remote_override_priority (M := Ref.kernel) both_fail forced)
    as (_ & _ & _ & _ & Hskip & _).
  destruct (remote_override_priority (M := Ref.kernel) close (cycle (M := Ref.kernel) close forced))
    as (_ & _ & _ & Hsettled & _).
  split; [|split; [|split; [|split]]].
  - split; [vm_compute; reflexivity|]. apply H1. vm_compute; reflexivity.
  - split; [vm_compute; reflexivity|]. apply H2. vm_compute; reflexivity.
  - assert (F : fanShouldBeOn forced = true) by (vm_compute; reflexivity).
    split; [exact F|]. split.
    + transitivity (fanShouldBeOn forced); [|exact F].
      apply Hband; vm_compute; reflexivity.
    + transitivity (fanShouldBeOn forced); [|exact F].
      apply Hskip; [|left]; vm_compute; reflexivity.
  - apply Hsettled; vm_compute; reflexivity.
  - destruct Hcleared as [Hf Hp]; [vm_compute; reflexivity|].
    split; [rewrite Hf|rewrite Hp]; vm_compute; reflexivity.
Defined.

(** What an override leaves behind. The override is set to 1 for one pass
    and then cleared. When both reads fail the decision step does not run in
    either pass and the relay stays on, for every kernel, while the run that
    was never overridden has it off. With good readings and [deltaTP = 3.5]
    the decision step runs in the pass after the override is cleared and
    keeps the state it finds: the relay is on, and off in the run that was
    never overridden. *)
Lemma override_is_not_reverted :
  ~ (exists M : MathKernel,
        pin25 (run (M := M) [post 1; Poll both_fail; post 0; Poll both_fail] initial)
        = pin25 (run (M := M) [Poll both_fail; Poll both_fail] initial))
  /\ pin25 (run (M := Ref.kernel)
              [Poll mild; Poll mild; post 1; Poll mild; post 0; Poll mild] initial) = Low
  /\ pin25 (run (M := Ref.kernel) [Poll mild; Poll mild; Poll mild; Poll mild] initial) = High.
Proof.
  split; [|split].
  - intros [M H]. vm_compute in H. discriminate H.
  - vm_compute. reflexivity.
  - vm_compute. reflexivity.
Qed.

(** A pass does log a dew point computation, so C6 is not about nothing. *)
Example a_dew_point_is_logged :
  In (InfoDewpoint I0 (tenths 125) (tenths 220) (tenths 550) 0)
     (log (run (M := Ref.kernel) [Poll mild] initial)).
Proof. vm_compute. tauto. Qed.

(** Witness for C6 as amended, on the dew point logged for the inside
    sensor in the first pass. *)
Lemma calcDewPoint_arguments_witness :
  fle (F32.of_Z (-20)) (tenths 220) = true
  /\ fle (tenths 220) (F32.of_Z 40) = true
  /\ fgt (tenths 550) (F32.of_Z DEF_HUM) = true
  /\ feq (to_f64 (tenths 220)) (SFopp (snd (magnus (to_f64 (tenths 220))))) = false.
Proof.
  assert (Hv : Forall validAction [Poll mild]).
  { constructor; [|constructor]. intros []; split; vm_compute; reflexivity. }
  pose proof (calcDewPoint_arguments (M := Ref.kernel) [Poll mild] Hv) as H.
  rewrite Forall_forall in H.
  assert (Hin : In (InfoDewpoint I0 (tenths 125) (tenths 220) (tenths 550) 0)
                   (log (run (M := Ref.kernel) [Poll mild] initial)))
    by (vm_compute; tauto).
  apply H in Hin. clear H. destruct Hin as (_ & Hlo & Hhi & Hh & Hb).
  split; [exact Hlo|]. split; [exact Hhi|]. split; [exact Hh|exact Hb].
Defined.

(** Counterexample to C6 as stated: the outside sensor reads 10.0 degrees
    and 6 percent; its humidity after correction is 0, which is above
    [DEF_HUM], and [calcDewPoint] is called with 10.0 and 0. This holds for
    every kernel. *)
Lemma zero_humidity_reaches_calcDewPoint :
  ~ (exists M : MathKernel,
        Forall (fun e => match e with
                         | InfoDewpoint _ _ _ h _ => fgt h (F32.of_Z 0) = true
                         | _ => True
                         end)
               (log (run (M := M) [Poll parched] initial))).
Proof.
  intros [M H]. rewrite Forall_forall in H.
  assert (Herr : dht_err (dht parched I1) = false) by reflexivity.
  assert (Hguard : fgt (correctedTemperature I1 (dht parched I1)) (F32.of_Z DEF_TEMP)
                   && fgt (correctedHumidity I1 (dht parched I1)) (F32.of_Z DEF_HUM) = true)
    by (vm_compute; reflexivity).
  assert (Hrange : flt (correctedTemperature I1 (dht parched I1)) (F32.of_Z (-20))
                   || fgt (correctedTemperature I1 (dht parched I1)) (F32.of_Z 40) = false)
    by (vm_compute; reflexivity).
  pose proof (cycle_outside_ok parched initial Herr Hguard Hrange) as Hin.
  apply H in Hin. clear H Hguard Hrange. vm_compute in Hin. discriminate Hin.
Qed.

(** With the reference kernel that dew point is not a number; the next pass
    with good readings finds no spike, since every comparison with it is
    false, and decides with it. *)
Example zero_humidity_gives_nan :
  elem1 (dewpoints (run (M := Ref.kernel) [Poll parched] initial)) = S754_nan.
Proof. vm_compute. reflexivity. Qed.


Example dew_point_values :
  roundFloat32 (M := Ref.kernel) (calcDewPoint (M := Ref.kernel) (tenths 220) (tenths 550)) 1
  = tenths 125
  /\ roundFloat32 (M := Ref.kernel) (calcDewPoint (M := Ref.kernel) (tenths 50) (tenths 800)) 1
     = tenths 18
  /\ roundFloat32 (M := Ref.kernel) (calcDewPoint (M := Ref.kernel) (F32.of_Z (-5)) (tenths 700)) 1
     = tenths (-96).
Proof. vm_compute. repeat split. Qed.

(** Witness for C8 as amended: the inside read fails while 22.0 degrees and
    55 percent are held. *)
Lemma failed_read_skips_decision_witness :
  let st := run (M := Ref.kernel) [Poll humid; Poll humid] initial in
  get (temperatures st) I0 = tenths 220
  /\ get (humidities st) I0 = tenths 550
  /\ fanShouldBeOn (cycle (M := Ref.kernel) inside_fails st) = fanShouldBeOn st
  /\ lastDewpoints (cycle (M := Ref.kernel) inside_fails st) = lastDewpoints st
  /\ get (temperatures (cycle (M := Ref.kernel) inside_fails st)) I0 = F32.of_Z (-1)
  /\ get (humidities (cycle (M := Ref.kernel) inside_fails st)) I0 = F32.of_Z (-1)
  /\ get (dewpoints (cycle (M := Ref.kernel) inside_fails st)) I0 = get (dewpoints st) I0.
Proof.
  intros st.
  assert (E : dht_err (dht inside_fails I0) = true) by reflexivity.
  destruct (failed_read_skips_decision (M := Ref.kernel) inside_fails st I0 E)
    as (_ & _ & Hf & Hl & Ht & Hh & Hd).
  split; [vm_compute; reflexivity|]. split; [vm_compute; reflexivity|].
  split; [apply Hf; vm_compute; intros Hgt; discriminate Hgt|].
  split; [exact Hl|]. split; [exact Ht|]. split; [exact Hh|].
  apply Hd. vm_compute. reflexivity.
Defined.

(** Counterexample to C8 as stated: a pass reads 22.0 degrees and 55 percent
    inside, which are held; in the next pass the inside read fails and
    returns -1 and -1 beside the error. The temperature and humidity held
    for the inside sensor are then -1 and -1: neither value is kept. This
    holds for every kernel. *)
Lemma failed_read_overwrites_values :
  (forall M : MathKernel,
      get (temperatures (run (M := M) [Poll outside_fails] initial)) I0 = tenths 220
      /\ get (humidities (run (M := M) [Poll outside_fails] initial)) I0 = tenths 550)
  /\ ~ (exists M : MathKernel,
          let st := run (M := M) [Poll outside_fails] initial in
          get (temperatures (cycle (M := M) both_fail st)) I0 = get (temperatures st) I0
          \/ get (humidities (cycle (M := M) both_fail st)) I0 = get (humidities st) I0).
Proof.
  assert (Hheld : forall M : MathKernel,
             get (temperatures (run (M := M) [Poll outside_fails] initial)) I0 = tenths 220
             /\ get (humidities (run (M := M) [Poll outside_fails] initial)) I0 = tenths 550).
  { intros M. cbn [run fold_left step].
    assert (Hok : dht_err (dht outside_fails I0) = false) by reflexivity.
    destruct (cycle_inside_ok outside_fails initial Hok) as (-> & ->).
    split; vm_compute; reflexivity. }
  split; [exact Hheld|].
  intros [M H]. cbn zeta in H.
  destruct (Hheld M) as (Et & Eh). rewrite Et, Eh in H.
  assert (Herr : dht_err (dht both_fail I0) = true) by reflexivity.
  destruct (cycle_failed_values both_fail (run (M := M) [Poll outside_fails] initial) I0 Herr)
    as (Ft & Fh).
  rewrite Ft, Fh in H. clear Hheld Et Eh Ft Fh.
  destruct H as [H | H]; vm_compute in H; discriminate H.
Qed.

(** Witness for C9: the desired state changes in the second pass of
    [humid], where the decision step runs; it changes in a pass with failed
    reads under an override of 1; and the level of the relay-sense input
    makes no difference. *)
Lemma desired_state_writers_witness :
  let st := run (M := Ref.kernel) [Poll humid] initial in
  let sensed := sensorLoop (M := Ref.kernel) (dht humid) st in
  ((snd sensed = true /\ spike (fst sensed) = false) \/ 0 < remoteOverride st)
  /\ pin25 (run (M := Ref.kernel) [Poll humid; Poll humid] initial)
     = pin25 (run (M := Ref.kernel)
                [Poll (mkPoll (dht humid) false "later"); Poll humid] initial).
Proof.
  intros st sensed.
  destruct (desired_state_writers (M := Ref.kernel) humid st) as (Hch & _).
  destruct (desired_state_writers (M := Ref.kernel) humid initial) as (_ & _ & Hsw).
  split.
  - apply Hch. vm_compute. intros Hne. discriminate Hne.
  - apply Hsw. repeat constructor.
Defined.

(** Witness for C10: the values 1, 2, 7, 0 and -3. *)
Lemma override_is_an_unvalidated_integer_witness :
  let st := run (M := Ref.kernel) [Poll humid; Poll humid] initial in
  let cold := run (M := Ref.kernel) [Poll mild; Poll mild] initial in
  let posted v s := overrideHandler (mkRequest "POST" (mkRemote v)) s in
  fanShouldBeOn st = true /\ fanShouldBeOn cold = false
  /\ pin25 (cycle (M := Ref.kernel) mild (posted 1 cold)) = Low
  /\ pin25 (cycle (M := Ref.kernel) humid (posted 2 st)) = High
  /\ pin25 (cycle (M := Ref.kernel) humid (posted 7 st)) = High
  /\ pin25 (cycle (M := Ref.kernel) humid (posted 0 st)) = Low
  /\ pin25 (cycle (M := Ref.kernel) humid (posted (-3) st)) = Low.
Proof.
  intros st cold posted.
  destruct (override_is_an_unvalidated_integer (M := Ref.kernel) 1 mild cold)
    as (_ & H1 & _).
  destruct (override_is_an_unvalidated_integer (M := Ref.kernel) 2 humid st)
    as (_ & _ & H2 & _).
  destruct (override_is_an_unvalidated_integer (M := Ref.kernel) 7 humid st)
    as (_ & _ & H7 & _).
  destruct (override_is_an_unvalidated_integer (M := Ref.kernel) 0 humid st)
    as (_ & _ & _ & H0).
  destruct (override_is_an_unvalidated_integer (M := Ref.kernel) (-3) humid st)
    as (_ & _ & _ & Hn).
  split; [vm_compute; reflexivity|]. split; [vm_compute; reflexivity|].
  split; [apply H1; reflexivity|].
  split; [apply H2; lia|].
  split; [apply H7; lia|].
  subst posted. cbv beta.
  split.
  - destruct H0 as [_ E]; [lia|]. rewrite E. vm_compute. reflexivity.
  - destruct Hn as [_ E]; [lia|]. rewrite E. vm_compute. reflexivity.
Defined.

(** Witness for X2: the jump from 10.0 to 11.5
    is rejected once; the next pass with the same readings is accepted. *)
Lemma rejected_jump_is_accepted_next_witness :
  let st := run (M := Ref.kernel) [Poll before_jump; Poll before_jump] initial in
  spike (fst (sensorLoop (M := Ref.kernel) (dht after_jump) st)) = true
  /\ spike (fst (sensorLoop (M := Ref.kernel) (dht after_jump)
                   (cycle (M := Ref.kernel) after_jump st))) = false.
Proof.
  intros st. split; [vm_compute; reflexivity|].
  apply (rejected_jump_is_accepted_next (M := Ref.kernel) after_jump st).
  vm_compute. reflexivity.
Defined.

(** Witness for X3: an outside humidity of 0 percent
    after correction gives a dew point that is not a number; the pass is
    not rejected and the fan stays as it was. *)
Lemma nan_is_never_a_spike_witness :
  let st := fst (sensorLoop (M := Ref.kernel) (dht parched_outside)
                   (run (M := Ref.kernel) [Poll humid; Poll humid] initial)) in
  elem1 (dewpoints st) = S754_nan
  /\ elem1 (lastDewpoints st) = tenths 18
  /\ spike st = false
  /\ hysteresis (deltaTP st) (fanShouldBeOn st) = fanShouldBeOn st.
Proof.
  intros st.
  assert (Hnan : elem1 (dewpoints st) = S754_nan) by (vm_compute; reflexivity).
  destruct (nan_is_never_a_spike st Hnan) as [Hs Hh].
  split; [exact Hnan|]. split; [vm_compute; reflexivity|].
  split; [|exact Hh]. rewrite Hs. vm_compute. reflexivity.
Defined.

(** * Properties of the rest of the program *)

Section SensorPhase.
Context {M : MathKernel}.

Lemma sensorStep_good rd st g i :
  snd (sensorStep rd (st, g) i) = g && negb (marksBad i (rd i)).
Proof.
  destruct st. unfold sensorStep, marksBad, storedTemperature, storedHumidity,
    correctedTemperature, correctedHumidity.
  state_fields.
  destruct (dht_err (rd i)); state_fields; rewrite ?get_set_same;
    repeat match goal with
           | |- context [fgt ?a ?b] => destruct (fgt a b)
           | |- context [flt ?a ?b] => destruct (flt a b)
           end;
    cbn [andb orb negb]; state_fields; rewrite ?andb_true_r, ?andb_false_r; reflexivity.
Qed.

Lemma sensorStep_stored rd st g i :
  get (temperatures (fst (sensorStep rd (st, g) i))) i = storedTemperature i (rd i)
  /\ get (humidities (fst (sensorStep rd (st, g) i))) i = storedHumidity i (rd i).
Proof.
  destruct st. unfold sensorStep, storedTemperature, storedHumidity,
    correctedTemperature, correctedHumidity.
  state_fields.
  destruct (dht_err (rd i)); state_fields; rewrite ?get_set_same;
    split_ifs; state_fields; rewrite ?get_set_same; split; reflexivity.
Qed.

Lemma sensorLoop_good rd st :
  snd (sensorLoop rd st) = negb (marksBad I0 (rd I0)) && negb (marksBad I1 (rd I1)).
Proof.
  unfold sensorLoop. cbn [fold_left].
  pose proof (sensorStep_good rd st true I0) as H0.
  destruct (sensorStep rd (st, true) I0) as [st0 g0]. cbn [snd] in H0.
  rewrite sensorStep_good, H0. reflexivity.
Qed.

Lemma sensorLoop_stored rd st i :
  get (temperatures (fst (sensorLoop rd st))) i = storedTemperature i (rd i)
  /\ get (humidities (fst (sensorLoop rd st))) i = storedHumidity i (rd i).
Proof.
  unfold sensorLoop. cbn [fold_left].
  pose proof (sensorStep_stored rd st true I0) as H0.
  destruct (sensorStep rd (st, true) I0) as [st0 g0]. cbn [fst] in H0.
  destruct i.
  - assert (Hij : I0 <> I1) by discriminate.
    destruct (sensorStep_other rd st0 g0 I0 I1 Hij) as (-> & -> & _). exact H0.
  - apply sensorStep_stored.
Qed.

(** X4. The sensor phase of a pass. [readingsGood] is cleared exactly by a
    read that returns an error, or whose held values pass the test against
    the defaults while the temperature lies outside [-20, 40]. The values
    held for a sensor are the returned ones after an error and the corrected,
    rounded ones otherwise. The dew point is computed anew exactly when the
    held values pass both tests, and is otherwise the one of an earlier pass:
    a successful read whose corrected values do not pass the test against
    [DEF_TEMP] and [DEF_HUM] neither clears [readingsGood] nor changes the
    dew point. *)
Theorem sensor_phase_outcome (rd : index -> dhtResult) (st : State) :
  let sensed := sensorLoop rd st in
  snd sensed = negb (marksBad I0 (rd I0)) && negb (marksBad I1 (rd I1))
  /\ (forall i,
      get (temperatures (fst sensed)) i = storedTemperature i (rd i)
      /\ get (humidities (fst sensed)) i = storedHumidity i (rd i)
      /\ get (dewpoints (fst sensed)) i
         = if computesDewPoint i (rd i)
           then roundFloat32 (calcDewPoint (storedTemperature i (rd i))
                                (storedHumidity i (rd i))) 1
           else get (dewpoints st) i)
  /\ (forall i,
      dht_err (rd i) = false ->
      fgt (correctedTemperature i (rd i)) (F32.of_Z DEF_TEMP)
      && fgt (correctedHumidity i (rd i)) (F32.of_Z DEF_HUM) = false ->
      marksBad i (rd i) = false
      /\ get (dewpoints (fst sensed)) i = get (dewpoints st) i).
Proof.
  intros sensed. split; [apply sensorLoop_good|]. split.
  - intros i. destruct (sensorLoop_stored rd st i) as [Ht Hh].
    split; [exact Ht|]. split; [exact Hh|]. apply sensorLoop_dewpoints.
  - intros i Herr Hguard. subst sensed. rewrite sensorLoop_dewpoints.
    unfold marksBad, computesDewPoint, storedTemperature, storedHumidity.
    rewrite Herr, Hguard. split; reflexivity.
Qed.

End SensorPhase.

(** ** A humidity of zero *)

Lemma mul_zero_r_cases (x : spec_float) (s : bool) :
  F64.mul x (S754_zero s) = S754_nan \/ exists s', F64.mul x (S754_zero s) = S754_zero s'.
Proof. destruct x; cbn; eauto. Qed.

Lemma vapour_constant_bits : exists m e, F64.dec 61078 4 = S754_finite false m e.
Proof. vm_compute. eauto. Qed.

Lemma hundred_bits : exists m e, F64.of_Z 100 = S754_finite false m e.
Proof. vm_compute. eauto. Qed.

Lemma magnus_cases (t64 : float64) :
  (exists ma ea mb eb, magnus t64 = (S754_finite false ma ea, S754_finite false mb eb))
  \/ magnus t64 = (S754_zero false, S754_zero false).
Proof.
  unfold magnus. destruct (fge t64 (F64.of_Z 0)); [|destruct (flt t64 (F64.of_Z 0))].
  - left. vm_compute. eauto 6.
  - left. vm_compute. eauto 6.
  - right. reflexivity.
Qed.

Lemma roundFloat32_nan {M : MathKernel} : roundFloat32 S754_nan 1 = S754_nan.
Proof. rewrite roundFloat32_one. reflexivity. Qed.

Section ZeroHumidity.
Context {M : MathKernel}.

Lemma calcDewPoint_zero_humidity (t : float32) (s : bool) :
  calcDewPoint t (S754_zero s) = S754_nan.
Proof.
  unfold calcDewPoint. cbn [to_f64].
  destruct vapour_constant_bits as (mc & ec & Ec).
  destruct hundred_bits as (mh & eh & Eh).
  rewrite Ec, Eh.
  replace (F64.div (S754_zero s) (S754_finite false mh eh)) with (S754_zero (xorb s false))
    by reflexivity.
  destruct (magnus_cases (to_f64 t)) as [(ma & ea & mb & eb & ->) | ->];
    match goal with
    | |- context [F64.mul ?x (S754_zero ?z)] =>
        destruct (mul_zero_r_cases x z) as [-> | [s' ->]]
    end; reflexivity.
Qed.

(** X5. For every temperature, and whatever [math.Pow] and [math.Log10]
    return outside their special cases, [calcDewPoint] gives NaN on a
    humidity of zero and the rounding keeps it. A pass that reads a corrected
    humidity of zero at a temperature in range stores NaN as the dew point of
    that sensor, and that read does not clear [readingsGood]. *)
Theorem zero_humidity_dew_point_is_nan (t : float32) (s : bool) :
  roundFloat32 (calcDewPoint t (S754_zero s)) 1 = S754_nan
  /\ (forall p st i,
      dht_err (dht p i) = false ->
      correctedHumidity i (dht p i) = S754_zero s ->
      fgt (correctedTemperature i (dht p i)) (F32.of_Z DEF_TEMP) = true ->
      flt (correctedTemperature i (dht p i)) (F32.of_Z (-20))
      || fgt (correctedTemperature i (dht p i)) (F32.of_Z 40) = false ->
      marksBad i (dht p i) = false
      /\ get (dewpoints (cycle p st)) i = S754_nan).
Proof.
  split.
  - rewrite calcDewPoint_zero_humidity. apply roundFloat32_nan.
  - intros p st i Herr Hh Ht Hr.
    destruct (cycle_readings p st) as (_ & _ & ->).
    rewrite sensorLoop_dewpoints.
    unfold marksBad, computesDewPoint, storedTemperature, storedHumidity.
    rewrite Herr, Hh, Ht, Hr. destruct s; cbn [andb orb negb].
    + split; [reflexivity|].
      rewrite calcDewPoint_zero_humidity. apply roundFloat32_nan.
    + split; [reflexivity|].
      rewrite calcDewPoint_zero_humidity. apply roundFloat32_nan.
Qed.

End ZeroHumidity.

(** Witness for X5. *)
Lemma zero_humidity_dew_point_is_nan_witness :
  correctedHumidity (M := Ref.kernel) I1 (dht parched_outside I1) = S754_zero false
  /\ snd (sensorLoop (M := Ref.kernel) (dht parched_outside) initial) = true
  /\ get (dewpoints (cycle (M := Ref.kernel) parched_outside initial)) I1 = S754_nan.
Proof.
  assert (Hh : correctedHumidity (M := Ref.kernel) I1 (dht parched_outside I1) = S754_zero false)
    by (vm_compute; reflexivity).
  destruct (zero_humidity_dew_point_is_nan (M := Ref.kernel) (F32.of_Z 0) false) as [_ H].
  destruct (H parched_outside initial I1) as (_ & Hd).
  - reflexivity.
  - exact Hh.
  - vm_compute. reflexivity.
  - vm_compute. reflexivity.
  - split; [exact Hh|]. split; [|exact Hd].
    vm_compute. reflexivity.
Defined.

(** ** Steady readings *)

Lemma slice2_ext {A} (a b : slice2 A) :
  (forall i, get a i = get b i) -> a = b.
Proof.
  intros H. destruct a as [a0 a1], b as [b0 b1].
  pose proof (H I0) as H0. pose proof (H I1) as H1. cbn in H0, H1. congruence.
Qed.

Lemma slice2_eta {A} (a : slice2 A) : Slice2 (elem0 a) (elem1 a) = a.
Proof. destruct a; reflexivity. Qed.

Lemma floors_ext a b fan :
  temperatures a = temperatures b -> humidities a = humidities b ->
  floors a fan = floors b fan.
Proof. unfold floors. intros -> ->. reflexivity. Qed.

Lemma deltaTP_ext a b : dewpoints a = dewpoints b -> deltaTP a = deltaTP b.
Proof. unfold deltaTP. intros ->. reflexivity. Qed.

Lemma hysteresis_idem delta fan :
  hysteresis delta (hysteresis delta fan) = hysteresis delta fan.
Proof.
  unfold hysteresis.
  destruct (fgt delta (F32.of_Z (DIFF_MIN + HYSTERESIS))),
    (flt delta (F32.of_Z DIFF_MIN)); reflexivity.
Qed.

Lemma decision_idem st delta fan :
  floors st (hysteresis delta (floors st (hysteresis delta fan)))
  = floors st (hysteresis delta fan).
Proof.
  rewrite !floors_belowFloor. destruct (belowFloor st); [reflexivity|].
  unfold hysteresis.
  destruct (fgt delta (F32.of_Z (DIFF_MIN + HYSTERESIS))),
    (flt delta (F32.of_Z DIFF_MIN)); reflexivity.
Qed.

Section Steady.
Context {M : MathKernel}.

Lemma cycle_remoteOverride p st : remoteOverride (cycle p st) = remoteOverride st.
Proof.
  unfold cycle.
  destruct (sensorLoop_frame (dht p) st) as (_ & _ & Hrem & _).
  destruct (sensorLoop (dht p) st) as [st1 good]. cbn [fst] in Hrem. unfold control.
  destruct (report_frame (pin22 p) (now p) (actuate (overrideStage (decisionStage good st1))))
    as (_ & _ & _ & _ & _ & -> & _).
  destruct (actuate_frame (overrideStage (decisionStage good st1)))
    as (_ & _ & _ & _ & _ & ->).
  destruct (overrideStage_frame (decisionStage good st1)) as (_ & _ & _ & _ & ->).
  destruct (decisionStage_frame good st1) as (_ & _ & _ & ->).
  exact Hrem.
Qed.

(** The readings a pass has stored are what the sensor phase of a pass with
    the same reads stores again. *)
Lemma sensorLoop_again p st :
  let st' := cycle p st in
  temperatures (fst (sensorLoop (dht p) st')) = temperatures st'
  /\ humidities (fst (sensorLoop (dht p) st')) = humidities st'
  /\ dewpoints (fst (sensorLoop (dht p) st')) = dewpoints st'.
Proof.
  intros st'. subst st'.
  destruct (cycle_readings p st) as (Et & Eh & Ed). rewrite Et, Eh, Ed.
  split; [|split]; apply slice2_ext; intros i.
  - destruct (sensorLoop_stored (dht p) (cycle p st) i) as [-> _].
    destruct (sensorLoop_stored (dht p) st i) as [-> _]. reflexivity.
  - destruct (sensorLoop_stored (dht p) (cycle p st) i) as [_ ->].
    destruct (sensorLoop_stored (dht p) st i) as [_ ->]. reflexivity.
  - rewrite !sensorLoop_dewpoints, Ed, sensorLoop_dewpoints.
    destruct (computesDewPoint i (dht p i)); reflexivity.
Qed.

Lemma no_spike_again p st :
  snd (sensorLoop (dht p) st) = true ->
  spike (fst (sensorLoop (dht p) (cycle p st))) = false.
Proof.
  intros Hgood.
  destruct (lastDewpoints_after_good p st Hgood) as [Hl0 Hl1].
  destruct (cycle_readings p st) as (_ & _ & Ed).
  destruct (sensorLoop_again p st) as (_ & _ & Ea). cbn zeta in Ea.
  pose proof (sensorLoop_frame (dht p) (cycle p st)) as (_ & Hlast & _).
  cbn zeta in Hlast.
  unfold spike. rewrite Hlast, Hl0, Hl1, Ea, Ed, !no_spike_on_equal. reflexivity.
Qed.

(** The desired state after the third of three passes with the same reads
    is that after the second. *)
Lemma third_pass_keeps p st :
  fanShouldBeOn (cycle p (cycle p (cycle p st))) = fanShouldBeOn (cycle p (cycle p st)).
Proof.
  set (s1 := cycle p st). set (s2 := cycle p s1).
  pose proof (cycle_fan p s2) as H3. pose proof (cycle_fan p s1) as H2.
  cbn zeta in H2, H3. fold s2 in H2.
  assert (R2 : remoteOverride s2 = remoteOverride s1) by apply cycle_remoteOverride.
  rewrite R2 in H3. rewrite H3. clear H3 R2.
  destruct (0 <? remoteOverride s1) eqn:Hr; [rewrite H2; reflexivity|].
  pose proof (sensorLoop_good (dht p) s2) as G2.
  pose proof (sensorLoop_good (dht p) s1) as G1.
  pose proof (sensorLoop_good (dht p) st) as G0.
  destruct (sensorLoop_frame (dht p) s2) as (F2 & _).
  destruct (sensorLoop_frame (dht p) s1) as (F1 & _).
  cbn zeta in F1, F2.
  destruct (negb (marksBad I0 (dht p I0)) && negb (marksBad I1 (dht p I1))) eqn:Hg.
  - rewrite G2, decisionStage_run by (apply no_spike_again; exact G1).
    rewrite F2, H2.
    rewrite G1, decisionStage_run by (apply no_spike_again; exact G0).
    rewrite F1.
    destruct (sensorLoop_again p s1) as (Et2 & Eh2 & Ed2).
    destruct (sensorLoop_again p st) as (Et1 & Eh1 & Ed1).
    cbn zeta in Et1, Eh1, Ed1, Et2, Eh2, Ed2.
    fold s1 in Et1, Eh1, Ed1. fold s2 in Et2, Eh2, Ed2.
    destruct (cycle_readings p s1) as (Ct & Ch & Cd). fold s2 in Ct, Ch, Cd.
    rewrite (floors_ext (fst (sensorLoop (dht p) s2)) (fst (sensorLoop (dht p) s1)))
      by congruence.
    rewrite (deltaTP_ext (fst (sensorLoop (dht p) s2)) (fst (sensorLoop (dht p) s1)))
      by congruence.
    apply decision_idem.
  - rewrite G2. cbn [decisionStage]. exact F2.
Qed.

Lemma run_app acts acts' st : run (acts ++ acts') st = run acts' (run acts st).
Proof. unfold run. apply fold_left_app. Qed.

Lemma repeat_snoc {A} (a : A) n : repeat a (S n) = repeat a n ++ [a].
Proof. induction n as [| n IH]; [reflexivity|]. cbn [repeat app] in *. rewrite <- IH. reflexivity. Qed.

Lemma run_repeat_S p n st :
  run (repeat (Poll p) (S n)) st = cycle p (run (repeat (Poll p) n) st).
Proof. rewrite repeat_snoc, run_app. reflexivity. Qed.

(** X6. With the same reads in every pass and no request in between, the
    desired state and the relay output no longer change after the second
    pass. *)
Theorem steady_readings_settle (p : poll) (st : State) (n : nat) :
  fanShouldBeOn (run (repeat (Poll p) (2 + n)) st)
  = fanShouldBeOn (run (repeat (Poll p) 2) st)
  /\ pin25 (run (repeat (Poll p) (2 + n)) st) = pin25 (run (repeat (Poll p) 2) st).
Proof.
  assert (H : fanShouldBeOn (run (repeat (Poll p) (2 + n)) st)
              = fanShouldBeOn (run (repeat (Poll p) 2) st)).
  { induction n as [| n IH]; [reflexivity|].
    rewrite <- IH. replace (2 + S n)%nat with (S (S (S n))) by lia.
    change (2 + n)%nat with (S (S n)).
    rewrite !run_repeat_S. apply third_pass_keeps. }
  split; [exact H|].
  change (2 + n)%nat with (S (S n)) in *. change 2%nat with (S (S O)) in *.
  rewrite (run_repeat_S p (S n)), (run_repeat_S p 1), !cycle_pin25.
  rewrite <- !run_repeat_S, H. reflexivity.
Qed.

End Steady.

(** ** What switches the relay on *)

Section Cause.
Context {M : MathKernel}.

Lemma step_remoteOverride_le a st :
  match a with Post req => Override (remote req) <= 0 | Poll _ => True end ->
  remoteOverride st <= 0 -> remoteOverride (step st a) <= 0.
Proof.
  destruct a as [p | req]; cbn [step]; intros Ha Hst.
  - rewrite cycle_remoteOverride. exact Hst.
  - unfold overrideHandler. destruct (String.eqb (method req) "POST"); [exact Ha|exact Hst].
Qed.

Lemma run_remoteOverride_le acts :
  neverForced acts -> forall st, remoteOverride st <= 0 -> remoteOverride (run acts st) <= 0.
Proof.
  induction 1 as [| a acts Ha _ IH]; intros st Hst; cbn [run fold_left]; [exact Hst|].
  apply IH, step_remoteOverride_le; assumption.
Qed.

Lemma cycle_turns_on p st :
  remoteOverride st <= 0 -> fanShouldBeOn st = false ->
  fanShouldBeOn (cycle p st) = true -> turnsOn p st.
Proof.
  intros Hr Hoff Hon. pose proof (cycle_fan p st) as Hc. cbn zeta in Hc.
  destruct (Z.ltb_spec 0 (remoteOverride st)); [lia|].
  destruct (sensorLoop_frame (dht p) st) as (Hfan & _). cbn zeta in Hfan.
  rewrite Hc in Hon. clear Hc. unfold turnsOn. cbn zeta.
  destruct (snd (sensorLoop (dht p) st)).
  - destruct (spike (fst (sensorLoop (dht p) st))) eqn:Hs.
    + destruct (decisionStage_spike _ Hs) as [Hd _]. congruence.
    + rewrite (decisionStage_run _ Hs), floors_belowFloor, Hfan, Hoff in Hon.
      destruct (belowFloor (fst (sensorLoop (dht p) st))); [discriminate Hon|].
      repeat split. apply hysteresis_turns_on, Hon.
  - cbn [decisionStage] in Hon. congruence.
Qed.

(** X7. The relay is not switched on without a cause. In a run that starts
    with the desired state off and in which the override is never positive, a
    desired state that is on at the end was switched on by a pass with good
    readings, no spike, [deltaTP] above [DIFF_MIN + HYSTERESIS] and no
    floor. *)
Theorem relay_on_has_a_cause (acts : list action) (st : State) :
  remoteOverride st <= 0 ->
  fanShouldBeOn st = false ->
  neverForced acts ->
  fanShouldBeOn (run acts st) = true ->
  exists before p after,
    acts = before ++ Poll p :: after
    /\ fanShouldBeOn (run before st) = false
    /\ turnsOn p (run before st).
Proof.
  intros Hr Hoff. induction acts as [| a acts IH] using rev_ind; intros Hn Hon.
  - cbn in Hon. congruence.
  - apply Forall_app in Hn. destruct Hn as [Hn Ha].
    rewrite run_app in Hon. cbn [run fold_left] in Hon.
    destruct (fanShouldBeOn (run acts st)) eqn:Hprev.
    + destruct (IH Hn eq_refl) as (before & p & after & -> & Hb & Ht).
      exists before, p, (after ++ [a]).
      split; [rewrite <- app_assoc; reflexivity|]. split; assumption.
    + destruct a as [p | req]; cbn [step] in Hon.
      * exists acts, p, []. split; [reflexivity|]. split; [exact Hprev|].
        apply cycle_turns_on; try assumption.
        apply run_remoteOverride_le; assumption.
      * unfold overrideHandler in Hon.
        destruct (String.eqb (method req) "POST"); cbn in Hon; congruence.
Qed.

End Cause.

(** Witness for X7. *)
Lemma relay_on_has_a_cause_witness :
  fanShouldBeOn (run (M := Ref.kernel) [Poll humid; post 0; Poll humid] initial) = true
  /\ exists before p after,
       [Poll humid; post 0; Poll humid] = before ++ Poll p :: after
       /\ fanShouldBeOn (run (M := Ref.kernel) before initial) = false
       /\ turnsOn (M := Ref.kernel) p (run (M := Ref.kernel) before initial).
Proof.
  assert (Hon : fanShouldBeOn (run (M := Ref.kernel) [Poll humid; post 0; Poll humid] initial)
                = true) by (vm_compute; reflexivity).
  split; [exact Hon|].
  apply (relay_on_has_a_cause (M := Ref.kernel) [Poll humid; post 0; Poll humid] initial).
  - cbn. lia.
  - reflexivity.
  - repeat constructor. cbn. lia.
  - exact Hon.
Defined.

(** ** What a pass logs *)

Section Logging.
Context {M : MathKernel}.

Lemma sensorStep_last rd acc i :
  let st := fst acc in
  let st' := fst (sensorStep rd acc i) in
  lastfanShouldBeOn st' = lastfanShouldBeOn st
  /\ lastFanStatus st' = lastFanStatus st
  /\ lastRemoteOverride st' = lastRemoteOverride st
  /\ filter isVentingChange (log st') = filter isVentingChange (log st)
  /\ filter isWritePoint (log st') = filter isWritePoint (log st).
Proof.
  destruct acc as [st g]. destruct st. unfold sensorStep. state_fields.
  destruct (dht_err (rd i)); state_fields; split_ifs; state_fields;
    rewrite ?filter_app; cbn [filter isVentingChange isWritePoint];
    rewrite ?app_nil_r; repeat split; reflexivity.
Qed.

Lemma sensorLoop_last rd st :
  let st' := fst (sensorLoop rd st) in
  lastfanShouldBeOn st' = lastfanShouldBeOn st
  /\ lastFanStatus st' = lastFanStatus st
  /\ lastRemoteOverride st' = lastRemoteOverride st
  /\ filter isVentingChange (log st') = filter isVentingChange (log st)
  /\ filter isWritePoint (log st') = filter isWritePoint (log st).
Proof.
  unfold sensorLoop. cbn [fold_left].
  pose proof (sensorStep_last rd (st, true) I0) as H0.
  pose proof (sensorStep_last rd (sensorStep rd (st, true) I0) I1) as H1.
  cbn zeta in *. cbn [fst] in H0.
  destruct H0 as (a0 & b0 & c0 & d0 & e0), H1 as (a1 & b1 & c1 & d1 & e1).
  repeat split; congruence.
Qed.

Lemma decisionStage_last good st :
  let st' := decisionStage good st in
  lastfanShouldBeOn st' = lastfanShouldBeOn st
  /\ lastFanStatus st' = lastFanStatus st
  /\ lastRemoteOverride st' = lastRemoteOverride st
  /\ filter isVentingChange (log st') = filter isVentingChange (log st).
Proof.
  destruct st. unfold decisionStage, decide. state_fields.
  destruct good; [|repeat split].
  match goal with |- context [if ?c then _ else _] => destruct c end; state_fields;
    rewrite ?filter_app; cbn [filter isVentingChange]; rewrite ?app_nil_r;
    repeat split; reflexivity.
Qed.

Lemma overrideStage_last st :
  let st' := overrideStage st in
  lastfanShouldBeOn st' = lastfanShouldBeOn st
  /\ lastFanStatus st' = lastFanStatus st
  /\ lastRemoteOverride st' = lastRemoteOverride st
  /\ venting st' = venting st
  /\ log st' = log st.
Proof. unfold overrideStage. split_ifs; repeat split. Qed.

Lemma report_changes p22 time st :
  let st' := report p22 time st in
  let changed :=
    negb (Bool.eqb (fanShouldBeOn st) (lastfanShouldBeOn st))
    || negb (Bool.eqb (negb p22) (lastFanStatus st))
    || negb (remoteOverride st =? lastRemoteOverride st) in
  fanStatus st' = negb p22
  /\ filter isVentingChange (log st')
     = filter isVentingChange (log st)
       ++ (if changed
           then [InfoVentingChange (fanShouldBeOn st) (negb p22) (remoteOverride st)]
           else [])
  /\ lastfanShouldBeOn st' = fanShouldBeOn st
  /\ lastFanStatus st' = negb p22
  /\ lastRemoteOverride st' = remoteOverride st
  /\ venting st' = venting st
  /\ filter isWritePoint (log st') = filter isWritePoint (log st).
Proof.
  destruct st. unfold report. state_fields.
  destruct p22; state_fields; cbn [negb];
    match goal with |- context [if ?c then _ else _] => destruct c end; state_fields;
    rewrite ?filter_app; cbn [filter isVentingChange isWritePoint];
    rewrite ?app_nil_r; repeat split; reflexivity.
Qed.

(** X8. A pass logs the venting change exactly once when the desired state,
    the status of the manual switch or the override differ from the values
    the previous pass stored, and not otherwise. The status is the negation
    of the level read from pin 22, and at the end of the pass the three
    stored values are the current ones. *)
Theorem venting_change_is_logged (p : poll) (st : State) :
  let st' := cycle p st in
  let changed :=
    negb (Bool.eqb (fanShouldBeOn st') (lastfanShouldBeOn st))
    || negb (Bool.eqb (fanStatus st') (lastFanStatus st))
    || negb (remoteOverride st' =? lastRemoteOverride st) in
  fanStatus st' = negb (pin22 p)
  /\ filter isVentingChange (log st')
     = filter isVentingChange (log st)
       ++ (if changed
           then [InfoVentingChange (fanShouldBeOn st') (fanStatus st') (remoteOverride st')]
           else [])
  /\ lastfanShouldBeOn st' = fanShouldBeOn st'
  /\ lastFanStatus st' = fanStatus st'
  /\ lastRemoteOverride st' = remoteOverride st'.
Proof.
  intros st' changed. subst changed st'. unfold cycle.
  destruct (sensorLoop_last (dht p) st) as (L1 & L2 & L3 & L4 & _).
  destruct (sensorLoop (dht p) st) as [st1 good]. cbn [fst] in *. unfold control.
  destruct (decisionStage_last good st1) as (D1 & D2 & D3 & D4).
  destruct (overrideStage_last (decisionStage good st1)) as (O1 & O2 & O3 & _ & O4).
  set (s := overrideStage (decisionStage good st1)) in *.
  assert (A : lastfanShouldBeOn (actuate s) = lastfanShouldBeOn st
              /\ lastFanStatus (actuate s) = lastFanStatus st
              /\ lastRemoteOverride (actuate s) = lastRemoteOverride st
              /\ filter isVentingChange (log (actuate s)) = filter isVentingChange (log st)).
  { unfold actuate. cbn [lastfanShouldBeOn lastFanStatus lastRemoteOverride log emit set_pin25].
    rewrite filter_app. cbn [filter isVentingChange]. rewrite app_nil_r.
    repeat split; congruence. }
  destruct A as (A1 & A2 & A3 & A4).
  destruct (report_frame (pin22 p) (now p) (actuate s)) as (Rf & _ & _ & _ & _ & Rr & _).
  destruct (report_changes (pin22 p) (now p) (actuate s))
    as (R0 & R1 & R2 & R3 & R4 & _).
  rewrite R0, R1, R2, R3, R4, Rf, Rr, A1, A2, A3, A4.
  repeat split; reflexivity.
Qed.

Lemma decisionStage_venting good st :
  let decided := floors st (hysteresis (deltaTP st) (fanShouldBeOn st)) in
  let st' := decisionStage good st in
  (good = true -> spike st = false ->
   venting st' = (if decided then "on" else "off")%string
   /\ filter isWritePoint (log st')
      = filter isWritePoint (log st)
        ++ [WritePoint (temperatures st) (humidities st) (dewpoints st) (retried st)
              (if decided then 1 else 0)])
  /\ (good = false \/ spike st = true ->
      venting st' = venting st
      /\ filter isWritePoint (log st') = filter isWritePoint (log st)).
Proof.
  destruct st. unfold decisionStage, decide. state_fields. split.
  - intros -> ->. state_fields.
    rewrite !filter_app. cbn [filter isWritePoint]. rewrite app_nil_r.
    split; reflexivity.
  - intros [-> | H]; [split; reflexivity|]. destruct good; [|split; reflexivity].
    rewrite H. state_fields. rewrite filter_app. cbn [filter isWritePoint].
    rewrite app_nil_r. split; reflexivity.
Qed.

(** X9. The text [venting], shown on the display and on the status page, and
    the value [vent_val] sent to the database are those of the decision step.
    A pass whose decision step runs sets them from what the floors leave,
    before the override is applied, and writes one point; a pass whose
    decision step is skipped keeps the text and writes no point. Under a
    positive override the relay follows the override, so the text can say
    off while the relay is on. *)
Theorem venting_text_ignores_override (p : poll) (st : State) :
  let sensed := sensorLoop (dht p) st in
  let decided :=
    floors (fst sensed) (hysteresis (deltaTP (fst sensed)) (fanShouldBeOn st)) in
  (snd sensed = true -> spike (fst sensed) = false ->
   venting (cycle p st) = (if decided then "on" else "off")%string
   /\ filter isWritePoint (log (cycle p st))
      = filter isWritePoint (log st)
        ++ [WritePoint (temperatures (cycle p st)) (humidities (cycle p st))
              (dewpoints (cycle p st)) (retried (fst sensed))
              (if decided then 1 else 0)])
  /\ (snd sensed = false \/ spike (fst sensed) = true ->
      venting (cycle p st) = venting st
      /\ filter isWritePoint (log (cycle p st)) = filter isWritePoint (log st))
  /\ (0 < remoteOverride st ->
      pin25 (cycle p st) = if remoteOverride st =? 1 then Low else High).
Proof.
  intros sensed decided.
  destruct (cycle_readings p st) as (Et & Eh & Ed). fold sensed in Et, Eh, Ed.
  rewrite Et, Eh, Ed.
  destruct (sensorLoop_last (dht p) st) as (_ & _ & _ & _ & Lw). fold sensed in Lw.
  destruct (sensorLoop_frame (dht p) st) as (Ff & _ & _ & Fv & _).
  fold sensed in Ff, Fv.
  assert (E : venting (cycle p st) = venting (decisionStage (snd sensed) (fst sensed))
              /\ filter isWritePoint (log (cycle p st))
                 = filter isWritePoint (log (decisionStage (snd sensed) (fst sensed)))).
  { unfold cycle. fold sensed. destruct sensed as [st1 good]. cbn [fst snd]. unfold control.
    destruct (overrideStage_last (decisionStage good st1)) as (_ & _ & _ & Ov & Ol).
    set (s := overrideStage (decisionStage good st1)) in *.
    destruct (report_changes (pin22 p) (now p) (actuate s)) as (_ & _ & _ & _ & _ & -> & ->).
    unfold actuate. cbn [venting log emit set_pin25].
    rewrite filter_app. cbn [filter isWritePoint]. rewrite app_nil_r, Ov, Ol.
    split; reflexivity. }
  destruct E as [-> ->].
  destruct (decisionStage_venting (snd sensed) (fst sensed)) as [Hrun Hskip].
  rewrite Ff in Hrun. fold decided in Hrun.
  split; [|split].
  - intros Hg Hs. destruct (Hrun Hg Hs) as [-> ->]. rewrite Lw. split; reflexivity.
  - intros H. destruct (Hskip H) as [-> ->]. rewrite Lw, Fv. split; reflexivity.
  - intros Hpos. rewrite cycle_pin25. pose proof (cycle_fan p st) as Hc. cbn zeta in Hc.
    rewrite Hc. destruct (Z.ltb_spec 0 (remoteOverride st)); [reflexivity|lia].
Qed.

End Logging.

(** Witness for X9. *)
Lemma venting_text_ignores_override_witness :
  let st := step (M := Ref.kernel) (run (M := Ref.kernel) [Poll mild] initial) (post 1) in
  venting (cycle (M := Ref.kernel) mild st) = "off"%string
  /\ In (WritePoint (temperatures (cycle (M := Ref.kernel) mild st))
           (humidities (cycle (M := Ref.kernel) mild st))
           (dewpoints (cycle (M := Ref.kernel) mild st)) (Slice2 0 0) 0)
        (filter isWritePoint (log (cycle (M := Ref.kernel) mild st)))
  /\ pin25 (cycle (M := Ref.kernel) mild st) = Low
  /\ venting (cycle (M := Ref.kernel) both_fail st) = venting st.
Proof.
  intros st.
  destruct (venting_text_ignores_override (M := Ref.kernel) mild st) as (Hrun & _ & Hforce).
  destruct (venting_text_ignores_override (M := Ref.kernel) both_fail st) as (_ & Hskip & _).
  destruct Hrun as [Hv Hw]; [vm_compute; reflexivity|vm_compute; reflexivity|].
  split; [rewrite Hv; vm_compute; reflexivity|].
  split; [rewrite Hw; apply in_or_app; right; left; vm_compute; reflexivity|].
  split; [rewrite Hforce; [reflexivity|vm_compute; reflexivity]|].
  apply Hskip. left. vm_compute. reflexivity.
Defined.

(** ** The status endpoint *)

Section Status.
Context {M : MathKernel}.

Lemma cycle_fanStatus p st : fanStatus (cycle p st) = negb (pin22 p).
Proof.
  unfold cycle. destruct (sensorLoop (dht p) st) as [st1 good]. unfold control.
  destruct (report_changes (pin22 p) (now p) (actuate (overrideStage (decisionStage good st1))))
    as (-> & _).
  reflexivity.
Qed.

(** What a GET is answered, by whether the numbers can be written. *)
Lemma infoHandler_GET (req : request) (st : State) :
  method req = "GET"%string ->
  infoHandler req st
  = if writable st then
      Some (Document {|
        info.Update := cycleUpdate st;
        info.Sensors :=
          [mkSensorData "Inside" (elem0 (temperatures st)) (elem0 (humidities st))
             (elem0 (dewpoints st));
           mkSensorData "Outside" (elem1 (temperatures st)) (elem1 (humidities st))
             (elem1 (dewpoints st))];
        info.Venting := fanShouldBeOn st;
        info.Override := negb (Bool.eqb (fanShouldBeOn st) (fanStatus st));
        info.RemoteOverride := remoteOverride st;
        info.DiffMin := F32.of_Z DIFF_MIN;
        info.Hysteresis := F32.of_Z HYSTERESIS
      |})
    else Some NoBytes.
Proof.
  intros Hm. unfold infoHandler, MarshalIndent, writable. rewrite Hm.
  cbn [String.eqb Ascii.eqb Bool.eqb forallb info.Sensors info.DiffMin info.Hysteresis
       Temperature Humidity DewPoint].
  change (finite (F32.of_Z DIFF_MIN)) with true.
  change (finite (F32.of_Z HYSTERESIS)) with true.
  rewrite !andb_true_r.
  destruct (finite (elem0 (temperatures st)) && finite (elem0 (humidities st))
            && finite (elem0 (dewpoints st))
            && (finite (elem1 (temperatures st)) && finite (elem1 (humidities st))
                && finite (elem1 (dewpoints st)))); reflexivity.
Qed.

(** X10. After a pass, a GET of [/info] is answered with a document when
    the six numbers held for the sensors are finite: [venting] is true
    exactly when the relay output is low and [override] exactly when the
    level read from pin 22 differs from the level written to pin 25. When one
    of the six is NaN or infinite, as the dew point is after a corrected
    humidity of zero, [json.MarshalIndent] returns an error that the handler
    drops, and the body is empty. For a request with another method nothing
    is written. A POST to [/override] changes [remote_override] in the
    document at once, and neither [venting] nor [override] nor the
    sensors. *)
Theorem info_reports_pin_levels (p : poll) (st : State) (req : request) :
  (method req = "GET"%string -> writable (cycle p st) = true ->
   exists inf,
     infoHandler req (cycle p st) = Some (Document inf)
     /\ (info.Venting inf = true <-> pin25 (cycle p st) = Low)
     /\ (info.Override inf = true <-> pin25 (cycle p st) <> level_of (pin22 p))
     /\ info.RemoteOverride inf = remoteOverride st)
  /\ (method req = "GET"%string -> writable (cycle p st) = false ->
      infoHandler req (cycle p st) = Some NoBytes)
  /\ (method req <> "GET"%string -> infoHandler req (cycle p st) = None)
  /\ (forall v inf,
      infoHandler req st = Some (Document inf) ->
      exists inf',
        infoHandler req (overrideHandler (mkRequest "POST" (mkRemote v)) st)
        = Some (Document inf')
        /\ info.RemoteOverride inf' = v
        /\ info.Venting inf' = info.Venting inf
        /\ info.Override inf' = info.Override inf
        /\ info.Sensors inf' = info.Sensors inf).
Proof.
  split; [|split; [|split]].
  - intros Hm Hw. rewrite (infoHandler_GET _ _ Hm), Hw.
    eexists. split; [reflexivity|]. cbn [info.Venting info.Override info.RemoteOverride].
    rewrite cycle_fanStatus, cycle_pin25, cycle_remoteOverride.
    destruct (fanShouldBeOn (cycle p st)), (pin22 p); cbn; repeat split;
      try reflexivity; try discriminate; try congruence.
  - intros Hm Hw. rewrite (infoHandler_GET _ _ Hm), Hw. reflexivity.
  - intros Hm. unfold infoHandler.
    destruct (String.eqb_spec (method req) "GET"); [contradiction|reflexivity].
  - intros v inf. destruct (String.eqb (method req) "GET") eqn:Hm.
    + apply String.eqb_eq in Hm.
      rewrite !(infoHandler_GET _ _ Hm).
      change (writable (overrideHandler (mkRequest "POST" (mkRemote v)) st)) with (writable st).
      destruct (writable st); [|discriminate].
      intros [= <-]. eexists. split; [reflexivity|]. repeat split.
    + unfold infoHandler. rewrite Hm. discriminate.
Qed.

End Status.

(** Witness for X10. *)
Lemma info_reports_pin_levels_witness :
  let st := run (M := Ref.kernel) [Poll humid] initial in
  let manual := mkPoll (dht humid) false "" in
  (exists inf,
     infoHandler (mkRequest "GET" (mkRemote 0)) (cycle (M := Ref.kernel) manual st)
     = Some (Document inf)
     /\ info.Venting inf = true
     /\ info.Override inf = false
     /\ pin25 (cycle (M := Ref.kernel) manual st) = Low)
  /\ infoHandler (mkRequest "GET" (mkRemote 0)) (cycle (M := Ref.kernel) parched_outside st)
     = Some NoBytes.
Proof.
  intros st manual.
  destruct (info_reports_pin_levels (M := Ref.kernel) manual st (mkRequest "GET" (mkRemote 0)))
    as (Hget & _).
  destruct (info_reports_pin_levels (M := Ref.kernel) parched_outside st
              (mkRequest "GET" (mkRemote 0))) as (_ & Hnan & _).
  split; [|apply Hnan; [reflexivity|vm_compute; reflexivity]].
  destruct (Hget eq_refl) as (inf & E & Hv & Ho & _); [vm_compute; reflexivity|].
  exists inf. split; [exact E|].
  assert (Hp : pin25 (cycle (M := Ref.kernel) manual st) = Low) by (vm_compute; reflexivity).
  split; [apply Hv, Hp|]. split; [|exact Hp].
  destruct (info.Override inf); [|reflexivity].
  destruct Ho as [Ho _]. exfalso. apply (Ho eq_refl). rewrite Hp. reflexivity.
Defined.

(** ** What an override leaves behind *)

Section Forced.
Context {M : MathKernel}.

(** A pass without override whose decision step is skipped, or runs inside
    the band with no floor, keeps the desired state it starts from. *)
Lemma cycle_keeps p st :
  remoteOverride st = 0 ->
  let sensed := sensorLoop (dht p) st in
  snd sensed = false \/ spike (fst sensed) = true
  \/ (snd sensed = true /\ spike (fst sensed) = false
      /\ fle (F32.of_Z DIFF_MIN) (deltaTP (fst sensed)) = true
      /\ fle (deltaTP (fst sensed)) (F32.of_Z (DIFF_MIN + HYSTERESIS)) = true
      /\ belowFloor (fst sensed) = false) ->
  fanShouldBeOn (cycle p st) = fanShouldBeOn st.
Proof.
  intros Hrem sensed H.
  pose proof (cycle_fan p st) as Hfan. cbn zeta in Hfan. fold sensed in Hfan.
  destruct (sensorLoop_frame (dht p) st) as (Hprev & _). fold sensed in Hprev.
  rewrite Hfan, Hrem. cbn [Z.ltb Z.compare].
  destruct H as [Hbad | [Hs | (Hgood & Hs & Hlo & Hhi & Hfloor)]].
  - rewrite Hbad. exact Hprev.
  - destruct (snd sensed); [|exact Hprev].
    destruct (decisionStage_spike _ Hs) as [-> _]. exact Hprev.
  - rewrite Hgood, (decisionStage_run _ Hs), floors_belowFloor, Hfloor.
    rewrite (hysteresis_keep _ _ Hlo Hhi). exact Hprev.
Qed.

(** X23. The override writes the variable the decision step keeps as its
    memory, and clearing it does not bring back what the variable held.
    After a POST of a positive value, one pass and a POST of 0, the desired
    state is the forced one, whatever it was before. The next pass keeps
    it, and the relay with it, when its decision step is skipped for a
    failed reading or a spike and when the step runs with [deltaTP] inside
    the band and no floor; when a threshold or a floor settles the step, the
    relay is what it would be from any other state. *)
Theorem forced_state_outlives_override (v : Z) (p1 p2 : poll) (st : State) :
  0 < v ->
  let forced := run [post v; Poll p1; post 0] st in
  let sensed := sensorLoop (dht p2) forced in
  let st2 := fst sensed in
  remoteOverride forced = 0
  /\ fanShouldBeOn forced = (v =? 1)
  /\ (snd sensed = false \/ spike st2 = true ->
      fanShouldBeOn (cycle p2 forced) = (v =? 1)
      /\ pin25 (cycle p2 forced) = if v =? 1 then Low else High)
  /\ (snd sensed = true -> spike st2 = false ->
      fle (F32.of_Z DIFF_MIN) (deltaTP st2) = true ->
      fle (deltaTP st2) (F32.of_Z (DIFF_MIN + HYSTERESIS)) = true ->
      belowFloor st2 = false ->
      fanShouldBeOn (cycle p2 forced) = (v =? 1)
      /\ pin25 (cycle p2 forced) = if v =? 1 then Low else High)
  /\ (snd sensed = true -> spike st2 = false -> settled st2 = true ->
      forall b, pin25 (cycle p2 (set_fanShouldBeOn b forced)) = pin25 (cycle p2 forced)).
Proof.
  intros Hv forced sensed st2.
  assert (Hrem : remoteOverride forced = 0) by reflexivity.
  assert (Hfan : fanShouldBeOn forced = (v =? 1)).
  { subst forced. unfold run. cbn [fold_left step post overrideHandler method String.eqb
      Ascii.eqb Bool.eqb remote Override].
    change (fanShouldBeOn (set_remoteOverride 0 ?s)) with (fanShouldBeOn s).
    pose proof (cycle_fan p1 (set_remoteOverride v st)) as H. cbn zeta in H. rewrite H.
    change (remoteOverride (set_remoteOverride v st)) with v.
    destruct (Z.ltb_spec 0 v); [reflexivity|lia]. }
  split; [exact Hrem|]. split; [exact Hfan|].
  split; [|split].
  - intros H. rewrite cycle_pin25, (cycle_keeps p2 forced Hrem), Hfan; [split; reflexivity|].
    fold sensed. fold st2. tauto.
  - intros Hg Hs Hlo Hhi Hfl.
    rewrite cycle_pin25, (cycle_keeps p2 forced Hrem), Hfan; [split; reflexivity|].
    fold sensed. fold st2. tauto.
  - intros Hg Hs Hset b. rewrite !cycle_pin25.
    pose proof (cycle_fan p2 (set_fanShouldBeOn b forced)) as Hb. cbn zeta in Hb.
    pose proof (cycle_fan p2 forced) as Hf. cbn zeta in Hf.
    rewrite Hb, Hf, sensorLoop_set_fan. fold sensed. fold st2. cbn [fst snd].
    change (remoteOverride (set_fanShouldBeOn b forced)) with (remoteOverride forced).
    rewrite Hrem. cbn [Z.ltb Z.compare]. rewrite Hg.
    rewrite (decisionStage_settled st2 b Hs Hset). reflexivity.
Qed.

End Forced.

(** Witness for X23. *)
Lemma forced_state_outlives_override_witness :
  let st := run (M := Ref.kernel) [Poll mild; Poll mild] initial in
  let forced := run (M := Ref.kernel) [post 1; Poll mild; post 0] st in
  pin25 (cycle (M := Ref.kernel) mild forced) = Low
  /\ pin25 (run (M := Ref.kernel) [Poll mild; Poll mild] st) = High.
Proof.
  intros st forced.
  destruct (forced_state_outlives_override (M := Ref.kernel) 1 mild mild st)
    as (_ & _ & _ & Hband & _); [lia|].
  split; [|vm_compute; reflexivity].
  apply Hband; vm_compute; reflexivity.
Defined.

(** ** A one-pass excursion *)

Lemma binary_round_abs prec emax m e :
  SFabs (binary_round prec emax true m e) = SFabs (binary_round prec emax false m e).
Proof.
  unfold binary_round. destruct (shl_align m e _) as [mz ez].
  unfold binary_round_aux.
  destruct (shr_fexp prec emax (Z.pos mz) ez loc_Exact) as [mrs' e'].
  destruct (shr_fexp prec emax _ e' loc_Exact) as [mrs'' e''].
  destruct (shr_m mrs''); try reflexivity.
  destruct (e'' <=? emax - prec); reflexivity.
Qed.

Lemma binary_normalize_opp_abs prec emax z e :
  SFabs (binary_normalize prec emax (- z) e false)
  = SFabs (binary_normalize prec emax z e false).
Proof.
  destruct z; cbn [Z.opp binary_normalize]; [reflexivity| |symmetry];
    apply binary_round_abs.
Qed.

(** The distance of two floats does not depend on their order. *)
Lemma Abs_sub_sym (x y : float64) : Abs (F64.sub x y) = Abs (F64.sub y x).
Proof.
  unfold Abs, F64.sub.
  destruct x as [sx | sx | | sx mx ex], y as [sy | sy | | sy my ey];
    try (destruct sx, sy; reflexivity); try (destruct sx; reflexivity);
    try (destruct sy; reflexivity); try reflexivity.
  unfold SFsub. rewrite (Z.min_comm ey ex).
  rewrite <- binary_normalize_opp_abs. f_equal. f_equal. lia.
Qed.

Lemma spike_sym a b :
  dewpoints a = lastDewpoints b -> lastDewpoints a = dewpoints b -> spike a = spike b.
Proof.
  unfold spike. intros -> ->.
  rewrite (Abs_sub_sym (to_f64 (elem0 (lastDewpoints b)))),
    (Abs_sub_sym (to_f64 (elem1 (lastDewpoints b)))).
  reflexivity.
Qed.

Section Excursion.
Context {M : MathKernel}.

(** X11. The spike test does not depend on the order of its two dew points,
    so an excursion of one pass costs two: when the reads [p], whose dew
    points are computed, are followed for one pass by the reads [g] and then
    come back, the pass that comes back is rejected as a spike exactly when
    the pass with [g] was. *)
Theorem excursion_is_rejected_twice (p g : poll) (st : State) :
  (forall i, computesDewPoint i (dht p i) = true) ->
  snd (sensorLoop (dht p) st) = true ->
  snd (sensorLoop (dht g) (cycle p st)) = true ->
  spike (fst (sensorLoop (dht p) (cycle g (cycle p st))))
  = spike (fst (sensorLoop (dht g) (cycle p st))).
Proof.
  intros Hp Gp Gg.
  set (s1 := cycle p st) in *. set (s2 := cycle g s1).
  destruct (lastDewpoints_after_good p st Gp) as [P0 P1]. fold s1 in P0, P1.
  destruct (lastDewpoints_after_good g s1 Gg) as [Q0 Q1]. fold s2 in Q0, Q1.
  pose proof (sensorLoop_frame (dht p) s2) as (_ & L2 & _).
  pose proof (sensorLoop_frame (dht g) s1) as (_ & L1 & _).
  cbn zeta in L1, L2.
  pose proof (fun i => sensorLoop_dewpoints (dht p) s2 i) as D2.
  pose proof (fun i => sensorLoop_dewpoints (dht p) st i) as D0.
  apply spike_sym.
  - rewrite L1. apply slice2_ext. intros i. rewrite D2, Hp.
    destruct i; [rewrite <- (slice2_eta (lastDewpoints s1)); cbn [get elem0]; rewrite P0
                |rewrite <- (slice2_eta (lastDewpoints s1)); cbn [get elem1]; rewrite P1].
    + symmetry. change (elem0 ?s) with (get s I0). rewrite D0, Hp. reflexivity.
    + symmetry. change (elem1 ?s) with (get s I1). rewrite D0, Hp. reflexivity.
  - rewrite L2. rewrite <- (slice2_eta (lastDewpoints s2)), Q0, Q1. apply slice2_eta.
Qed.

End Excursion.

(** Witness for X11. *)
Lemma excursion_is_rejected_twice_witness :
  let st := run (M := Ref.kernel) [Poll before_jump] initial in
  spike (fst (sensorLoop (M := Ref.kernel) (dht after_jump)
                (cycle (M := Ref.kernel) before_jump st))) = true
  /\ spike (fst (sensorLoop (M := Ref.kernel) (dht before_jump)
                   (cycle (M := Ref.kernel) after_jump
                      (cycle (M := Ref.kernel) before_jump st)))) = true.
Proof.
  intros st.
  assert (H : spike (fst (sensorLoop (M := Ref.kernel) (dht after_jump)
                            (cycle (M := Ref.kernel) before_jump st))) = true)
    by (vm_compute; reflexivity).
  split; [exact H|].
  rewrite (excursion_is_rejected_twice (M := Ref.kernel) before_jump after_jump st).
  - exact H.
  - intros []; vm_compute; reflexivity.
  - vm_compute. reflexivity.
  - vm_compute. reflexivity.
Defined.

Lemma length_append (a b : string) :
  String.length (a ++ b) = (String.length a + String.length b)%nat.
Proof. induction a as [| c a IH]; cbn; [reflexivity|]. rewrite IH. reflexivity. Qed.

Lemma length_copies_blank n : String.length (copies " " n) = n.
Proof. induction n as [| n IH]; cbn; [reflexivity|]. rewrite IH. reflexivity. Qed.

Lemma Repeat_blank count :
  0 <= count ->
  exists pad, Repeat " " count = Some pad /\ len pad = count.
Proof.
  intros H. unfold Repeat. destruct (Z.ltb_spec count 0); [lia|].
  eexists. split; [reflexivity|]. unfold len. rewrite length_copies_blank. lia.
Qed.

Lemma Itoa_digit r : 0 <= r <= 9 -> String.length (Itoa r) = 1%nat.
Proof.
  intros H.
  assert (C : r = 0 \/ r = 1 \/ r = 2 \/ r = 3 \/ r = 4 \/ r = 5 \/ r = 6 \/ r = 7
              \/ r = 8 \/ r = 9) by lia.
  repeat (destruct C as [-> | C]; [reflexivity|]). subst r. reflexivity.
Qed.

Lemma string_of_uint_length d :
  (String.length (NilEmpty.string_of_uint d) <= 1)%nat ->
  (Pos.of_uint d <= 9)%N.
Proof.
  destruct d as [| d | d | d | d | d | d | d | d | d | d]; cbn [NilEmpty.string_of_uint String.length];
    intros H; try (cbn; lia);
    (destruct d; cbn [NilEmpty.string_of_uint String.length] in H; [cbn; lia|lia..]).
Qed.

Lemma Itoa_long r : 10 <= r \/ r < 0 -> (2 <= String.length (Itoa r))%nat.
Proof.
  intros H. destruct r as [| p | p]; [lia| |].
  - unfold Itoa, Z.to_int, NilZero.string_of_int, NilZero.string_of_uint.
    pose proof (DecimalPos.Unsigned.of_to p) as E.
    pose proof (string_of_uint_length (Pos.to_uint p)) as L.
    destruct (Pos.to_uint p) eqn:U; try (apply Nat.nlt_ge; intros C; rewrite E in L; lia).
    cbn in E. discriminate E.
  - unfold Itoa, Z.to_int, NilZero.string_of_int, NilZero.string_of_uint.
    pose proof (DecimalPos.Unsigned.of_to p) as E.
    destruct (Pos.to_uint p) eqn:U; cbn [String.length NilEmpty.string_of_uint]; try lia.
Qed.

Lemma status_line_layout_aux ipAddress isAlive remoteOverride msg :
  len ipAddress <= 17 ->
  exists spacer,
    showIpAndOverride ipAddress isAlive remoteOverride msg
    = Some (ipAddress ++ spacer ++ msg)%string
    /\ (len ipAddress <= 12 ->
        len spacer = 16 - len ipAddress + len (Itoa remoteOverride))
    /\ (12 < len ipAddress -> len spacer = 17 - len ipAddress).
Proof.
  intros H. unfold showIpAndOverride.
  assert (Hn : 0 <= len ipAddress) by (unfold len; lia).
  destruct (Repeat_blank (17 - len ipAddress)) as (sp & -> & Hsp); [lia|].
  destruct (Z.ltb_spec 0 (17 - len ipAddress)).
  - destruct (Z.ltb_spec 4 (17 - len ipAddress)).
    + destruct (Repeat_blank (17 - len ipAddress - 5)) as (pad & -> & Hpad); [lia|].
      eexists. split; [reflexivity|]. split; [|lia].
      intros _. unfold len in *. rewrite !length_append.
      destruct isAlive; cbn [String.length]; lia.
    + destruct (Z.ltb_spec 2 (17 - len ipAddress)).
      * destruct (Repeat_blank (17 - len ipAddress - 3)) as (pad & -> & Hpad); [lia|].
        eexists. split; [reflexivity|]. split; [lia|].
        intros _. unfold len in *. rewrite !length_append.
        destruct isAlive; cbn [String.length]; lia.
      * destruct (Repeat_blank (17 - len ipAddress - 1)) as (pad & -> & Hpad); [lia|].
        eexists. split; [reflexivity|]. split; [lia|].
        intros _. unfold len in *. rewrite !length_append.
        destruct isAlive; cbn [String.length]; lia.
  - eexists. split; [reflexivity|]. split; lia.
Qed.

(** X12. [showIpAndOverride] panics when the address is longer than 17 bytes.
    Otherwise the text is the address, a spacer and the message; the spacer
    fills up to column 17 when the address has more than 12 bytes, and also
    when it has at most 12 and the override prints as one digit, which it
    does from 0 to 9. An override of 10 and above, or a negative one, prints
    with more characters and makes the spacer longer by as many. *)
Theorem status_line_layout (ipAddress : string) (isAlive : bool) (remoteOverride : Z)
    (msg : string) :
  (17 < len ipAddress -> showIpAndOverride ipAddress isAlive remoteOverride msg = None)
  /\ (len ipAddress <= 17 ->
      exists spacer,
        showIpAndOverride ipAddress isAlive remoteOverride msg
        = Some (ipAddress ++ spacer ++ msg)%string
        /\ (len ipAddress <= 12 ->
            len spacer = 16 - len ipAddress + len (Itoa remoteOverride))
        /\ (12 < len ipAddress -> len spacer = 17 - len ipAddress))
  /\ (0 <= remoteOverride <= 9 -> len (Itoa remoteOverride) = 1)
  /\ (10 <= remoteOverride \/ remoteOverride < 0 -> 2 <= len (Itoa remoteOverride)).
Proof.
  split; [|split; [|split]].
  - intros H. unfold showIpAndOverride, Repeat.
    destruct (Z.ltb_spec (17 - len ipAddress) 0); [reflexivity|lia].
  - apply status_line_layout_aux.
  - intros H. unfold len. rewrite (Itoa_digit _ H). reflexivity.
  - intros H. unfold len. pose proof (Itoa_long _ H). lia.
Qed.

(** Witness for X12. *)
Lemma status_line_layout_witness :
  showIpAndOverride "192.168.0.22" true 0 "ON " = Some "192.168.0.22 * 0 ON "%string
  /\ showIpAndOverride "192.168.0.22" true 10 "ON " = Some "192.168.0.22 * 10 ON "%string
  /\ showIpAndOverride "192.168.100.200" false 2 "OFF" = Some "192.168.100.200  OFF"%string
  /\ showIpAndOverride "192.168.100.200/24" false 2 "OFF" = None
  /\ len (Itoa 0) = 1 /\ 2 <= len (Itoa 10).
Proof.
  destruct (status_line_layout "192.168.100.200/24" false 2 "OFF") as (Hpanic & _).
  destruct (status_line_layout "192.168.0.22" true 0 "ON ") as (_ & _ & Hone & _).
  destruct (status_line_layout "192.168.0.22" true 10 "ON ") as (_ & _ & _ & Hlong).
  split; [reflexivity|]. split; [reflexivity|]. split; [reflexivity|].
  split; [apply Hpanic; vm_compute; reflexivity|].
  split; [apply Hone; lia|apply Hlong; lia].
Defined.

(** ** The address shown *)

Example reg_matches :
  map (MatchString reg)
      ["192.168.0.22/24"; "127.0.0.1/8"; "10.0.0.5"; "0.0.0.0/0"; "255.255.255.255/32";
       "256.1.1.1/8"; "192.168.0/24"; "01.2.3.4"; "fe80::1/64"; "::1/128"; ""]%string
  = [true; true; true; true; true; false; false; false; false; false; false].
Proof. vm_compute. reflexivity. Qed.

Lemma fold_keepAddress_concat ifs acc :
  fold_left (fun acc addresses => fold_left keepAddress addresses acc) ifs acc
  = fold_left keepAddress (List.concat ifs) acc.
Proof.
  revert acc. induction ifs as [| addrs ifs IH]; intros acc; cbn [fold_left List.concat];
    [reflexivity|].
  rewrite fold_left_app. apply IH.
Qed.

Lemma keepAddress_spec acc a :
  keepAddress acc a
  = (if eligible a then beforeSlash a else fst acc,
     snd acc ++ (if MatchString reg a then [a] else [])).
Proof.
  destruct acc as [ip logged]. unfold keepAddress, eligible, beforeSlash. cbn [fst snd].
  destruct (MatchString reg a); cbn [andb]; [|rewrite app_nil_r; reflexivity].
  destruct (negb (Index a "127.0." =? 0)); [|reflexivity].
  destruct (0 <? Index a "/"); reflexivity.
Qed.

Lemma fold_keepAddress_ineligible addrs acc :
  Forall (fun b => eligible b = false) addrs ->
  fst (fold_left keepAddress addrs acc) = fst acc.
Proof.
  intros H. revert acc. induction H as [| b addrs Hb _ IH]; intros acc; cbn [fold_left];
    [reflexivity|].
  rewrite IH, keepAddress_spec, Hb. reflexivity.
Qed.

Lemma fold_keepAddress_logged addrs acc :
  snd (fold_left keepAddress addrs acc)
  = snd acc ++ filter (MatchString reg) addrs.
Proof.
  revert acc. induction addrs as [| b addrs IH]; intros acc; cbn [fold_left filter].
  - rewrite app_nil_r. reflexivity.
  - rewrite IH, keepAddress_spec. cbn [snd]. rewrite <- app_assoc.
    destruct (MatchString reg b); reflexivity.
Qed.

(** X13. [logNetworkInterfaces] keeps the last address that matches the
    pattern and does not start with 127.0., cut before its first slash, and
    not the first one. With no such address [ipAddress] is left as it was;
    every address that matches is logged; a failure of [net.Interfaces]
    changes nothing. *)
Theorem last_address_is_kept (interfaces : list (list string)) (ipAddress : string) :
  (forall before a after,
      List.concat interfaces = before ++ a :: after ->
      eligible a = true ->
      Forall (fun b => eligible b = false) after ->
      fst (logNetworkInterfaces (Some interfaces) ipAddress) = beforeSlash a)
  /\ (Forall (fun b => eligible b = false) (List.concat interfaces) ->
      fst (logNetworkInterfaces (Some interfaces) ipAddress) = ipAddress)
  /\ snd (logNetworkInterfaces (Some interfaces) ipAddress)
     = filter (MatchString reg) (List.concat interfaces)
  /\ logNetworkInterfaces None ipAddress = (ipAddress, []).
Proof.
  unfold logNetworkInterfaces. rewrite fold_keepAddress_concat.
  split; [|split; [|split]].
  - intros before a after -> Ha Hafter.
    rewrite fold_left_app. cbn [fold_left].
    rewrite (fold_keepAddress_ineligible after _ Hafter), keepAddress_spec, Ha.
    reflexivity.
  - intros H. exact (fold_keepAddress_ineligible _ (ipAddress, []) H).
  - apply fold_keepAddress_logged.
  - reflexivity.
Qed.

(** Witness for X13. *)
Lemma last_address_is_kept_witness :
  (logNetworkInterfaces
     (Some [["127.0.0.1/8"; "::1/128"]; ["192.168.0.22/24"; "fe80::1/64"];
            ["10.0.0.5/8"]]) ""
   = ("10.0.0.5", ["127.0.0.1/8"; "192.168.0.22/24"; "10.0.0.5/8"]))%string.
Proof.
  destruct (last_address_is_kept
              [["127.0.0.1/8"; "::1/128"]; ["192.168.0.22/24"; "fe80::1/64"];
               ["10.0.0.5/8"]] "")%string
    as (H & _ & Hl & _).
  rewrite (surjective_pairing (logNetworkInterfaces _ _)), Hl.
  rewrite (H ["127.0.0.1/8"; "::1/128"; "192.168.0.22/24"; "fe80::1/64"]%string
             "10.0.0.5/8"%string []);
    [reflexivity|reflexivity|reflexivity|constructor].
Defined.

(** ** The flags *)

Lemma clampFlags_min_max scrollSpeed lcdDelay :
  clampFlags scrollSpeed lcdDelay
  = (Z.min 10000 (Z.max 100 scrollSpeed), Z.min 10 (Z.max 1 lcdDelay)).
Proof.
  unfold clampFlags.
  destruct (Z.ltb_spec scrollSpeed 100), (Z.ltb_spec lcdDelay 1);
    repeat match goal with
           | |- context [?a <? ?b] => destruct (Z.ltb_spec a b)
           end;
    f_equal; lia.
Qed.

(** ** [strings.TrimSpace] *)

Lemma length_substring (n m : nat) (s : string) :
  (String.length (substring n m s) <= String.length s)%nat.
Proof.
  revert n m. induction s as [| c s IH]; intros n m.
  - destruct n, m; cbn; lia.
  - destruct n as [| n].
    + destruct m as [| m]; cbn [substring String.length]; [lia|].
      specialize (IH 0%nat m). lia.
    + cbn [substring String.length]. specialize (IH n m). lia.
Qed.

Lemma length_slice (s : string) (i j : Z) :
  (String.length (slice s i j) <= String.length s)%nat.
Proof. apply length_substring. Qed.

Lemma length_TrimRightFunc (s : string) (f : Z -> bool) :
  (String.length (TrimRightFunc s f) <= String.length s)%nat.
Proof. unfold TrimRightFunc. apply length_slice. Qed.

Lemma length_TrimFunc (s : string) (f : Z -> bool) :
  (String.length (TrimFunc s f) <= String.length s)%nat.
Proof.
  unfold TrimFunc. etransitivity; [apply length_TrimRightFunc|].
  unfold TrimLeftFunc. destruct (indexFunc s f false =? -1).
  - cbn. lia.
  - apply length_slice.
Qed.

Lemma length_TrimSpace_stop (t : string) (n : nat) :
  (String.length (TrimSpace_stop t n) <= String.length t)%nat.
Proof.
  induction n as [| k IH]; cbn [TrimSpace_stop]; [cbn; lia|].
  destruct (String.get k t) as [c |]; [|cbn; lia].
  destruct (RuneSelf <=? byte c).
  - etransitivity; [apply length_TrimRightFunc|apply length_substring].
  - destruct (asciiSpace c); [exact IH|apply length_substring].
Qed.

(** What is printed is never longer than the text. *)
Lemma len_TrimSpace s : len (TrimSpace s) <= len s.
Proof.
  unfold len. apply inj_le.
  induction s as [| c s IH]; [cbn; lia|].
  cbn [TrimSpace]. destruct (RuneSelf <=? byte c).
  - apply length_TrimFunc.
  - destruct (asciiSpace c).
    + cbn [String.length]. lia.
    + apply length_TrimSpace_stop.
Qed.


Lemma allASCII_trimLeft (s : string) : allASCII s = true -> allASCII (trimLeft s) = true.
Proof.
  induction s as [| c s IH]; [reflexivity|]. intros H. cbn [trimLeft].
  destruct (asciiSpace c); [|exact H].
  cbn [allASCII] in H. apply andb_true_iff in H. apply IH, H.
Qed.

Lemma allASCII_get (s : string) (k : nat) (c : ascii) :
  allASCII s = true -> String.get k s = Some c -> (RuneSelf <=? byte c) = false.
Proof.
  revert k. induction s as [| x s IH]; intros k H E; [discriminate E|].
  cbn [allASCII] in H. apply andb_true_iff in H. destruct H as [Hx Hs].
  destruct k as [| k]; cbn [String.get] in E.
  - injection E as <-. apply Z.ltb_lt in Hx. apply Z.leb_gt. exact Hx.
  - exact (IH k Hs E).
Qed.

Lemma substring_snoc (s : string) (k : nat) (c : ascii) :
  String.get k s = Some c ->
  substring 0 (S k) s = (substring 0 k s ++ String c EmptyString)%string.
Proof.
  revert k. induction s as [| x s IH]; intros k E; [discriminate E|].
  destruct k as [| k]; cbn [String.get] in E.
  - injection E as <-. cbn. destruct s; reflexivity.
  - cbn [substring String.append]. f_equal. apply IH, E.
Qed.

Lemma substring_whole (s : string) : substring 0 (String.length s) s = s.
Proof. induction s as [| c s IH]; [reflexivity|]. cbn. rewrite IH. reflexivity. Qed.

Lemma get_in_range (s : string) (k : nat) :
  (k < String.length s)%nat -> exists c, String.get k s = Some c.
Proof.
  revert k. induction s as [| x s IH]; intros k H; [cbn in H; lia|].
  destruct k as [| k]; [exists x; reflexivity|].
  cbn [String.get]. apply IH. cbn in H. lia.
Qed.

(** [trimRight] looks at the end of the text only. *)
Lemma trimRight_app (a b : string) :
  trimRight (a ++ b)
  = match trimRight b with
    | EmptyString => trimRight a
    | r => (a ++ r)%string
    end.
Proof.
  induction a as [| c a IH]; cbn [String.append trimRight].
  - destruct (trimRight b); reflexivity.
  - rewrite IH. destruct (trimRight b); [reflexivity|].
    destruct a; reflexivity.
Qed.

Lemma trimRight_snoc (a : string) (c : ascii) :
  trimRight (a ++ String c EmptyString)
  = if asciiSpace c then trimRight a else (a ++ String c EmptyString)%string.
Proof.
  rewrite trimRight_app. cbn [trimRight]. destruct (asciiSpace c); reflexivity.
Qed.

Lemma TrimSpace_stop_ascii (t : string) (n : nat) :
  allASCII t = true -> (n <= String.length t)%nat ->
  TrimSpace_stop t n = trimRight (substring 0 n t).
Proof.
  intros Ha. induction n as [| k IH]; intros Hn.
  - destruct t; reflexivity.
  - destruct (get_in_range t k Hn) as [c E].
    cbn [TrimSpace_stop]. rewrite E, (allASCII_get t k c Ha E).
    rewrite (substring_snoc t k c E), trimRight_snoc.
    destruct (asciiSpace c); [apply IH; lia|reflexivity].
Qed.

Lemma trimLeft_stops (s : string) :
  match trimLeft s with
  | EmptyString => True
  | String c _ => asciiSpace c = false
  end.
Proof.
  induction s as [| c s IH]; [exact I|]. cbn [trimLeft].
  destruct (asciiSpace c) eqn:E; [exact IH|exact E].
Qed.

(** On a text of ASCII characters [strings.TrimSpace] removes the bytes of
    [asciiSpace] at both ends and nothing else. *)
Lemma TrimSpace_ascii (s : string) :
  allASCII s = true -> TrimSpace s = trimRight (trimLeft s).
Proof.
  induction s as [| c s IH]; intros Ha; [reflexivity|].
  pose proof Ha as Ha'. cbn [allASCII] in Ha'. apply andb_true_iff in Ha'.
  destruct Ha' as [Hc Hs]. cbn [TrimSpace trimLeft].
  replace (RuneSelf <=? byte c) with false
    by (symmetry; apply Z.leb_gt, Z.ltb_lt, Hc).
  destruct (asciiSpace c); [apply IH, Hs|].
  rewrite TrimSpace_stop_ascii by (assumption || lia).
  rewrite substring_whole. reflexivity.
Qed.

Lemma length_trimLeft s : (String.length (trimLeft s) <= String.length s)%nat.
Proof.
  induction s as [| c s IH]; cbn [trimLeft String.length]; [lia|].
  destruct (asciiSpace c); cbn [String.length]; lia.
Qed.

Lemma length_trimRight s : (String.length (trimRight s) <= String.length s)%nat.
Proof.
  induction s as [| c s IH]; cbn [trimRight String.length]; [lia|].
  destruct (trimRight s); [destruct (asciiSpace c)|]; cbn [String.length] in *; lia.
Qed.




Ltac lcd_fields :=
  cbn [Lcd.i2cbus Lcd.lines Lcd.ticker Lcd.scrollSpeed Lcd.charsPerLine Lcd.initDelay
       Lcd.retryCount Lcd.handler Lcd.inbox Lcd.trace Lcd.set_i2cbus Lcd.set_lines
       Lcd.set_ticker Lcd.set_retryCount Lcd.set_handler Lcd.set_inbox Lcd.emit] in *.

Ltac break_match :=
  repeat match goal with
         | |- context [match ?x with _ => _ end] => destruct x eqn:?
         end.

Section LcdFacts.
Import Lcd.

Lemma at_Some {A} (a : list A) (i : Z) :
  0 <= i < Z.of_nat (List.length a) -> exists v, at_ a i = Some v.
Proof.
  intros H. unfold at_. destruct (Z.ltb_spec i 0); [lia|].
  destruct (nth_error a (Z.to_nat i)) eqn:E; [eauto|].
  apply nth_error_None in E. lia.
Qed.

Lemma at_None {A} (a : list A) (i : Z) : i < 0 -> at_ a i = None.
Proof. intros H. unfold at_. destruct (Z.ltb_spec i 0); [reflexivity|lia]. Qed.

Lemma at_range {A} (a : list A) (i : Z) v :
  at_ a i = Some v -> 0 <= i < Z.of_nat (List.length a).
Proof.
  unfold at_. destruct (Z.ltb_spec i 0); [discriminate|]. intros E.
  assert (nth_error a (Z.to_nat i) <> None) as N by congruence.
  apply nth_error_Some in N. lia.
Qed.

Lemma at_In {A} (a : list A) (i : Z) v : at_ a i = Some v -> In v a.
Proof.
  unfold at_. destruct (i <? 0); [discriminate|]. apply nth_error_In.
Qed.

Lemma length_update_nat {A} (a : list A) i v :
  List.length (update_nat a i v) = List.length a.
Proof.
  revert i. induction a as [| x a IH]; intros i; [reflexivity|].
  destruct i; cbn; [reflexivity|]. rewrite IH. reflexivity.
Qed.

Lemma length_update {A} (a : list A) i v : List.length (update a i v) = List.length a.
Proof. apply length_update_nat. Qed.

Lemma at_update_same {A} (a : list A) i v :
  0 <= i < Z.of_nat (List.length a) -> at_ (update a i v) i = Some v.
Proof.
  intros H. unfold at_, update. destruct (Z.ltb_spec i 0); [lia|].
  assert (Hn : (Z.to_nat i < List.length a)%nat) by lia. clear H H0.
  revert Hn. generalize (Z.to_nat i). intros n. revert n.
  induction a as [| x a IH]; intros n Hn; cbn in Hn; [lia|].
  destruct n; cbn; [reflexivity|]. apply IH. lia.
Qed.

(** *** The guard of [PrintLine] *)

Lemma stopTicker_cases line l :
  0 <= line < Z.of_nat (List.length (ticker l)) ->
  exists l', stopTicker line l = Returns tt l'
             /\ lines l' = lines l /\ scrollSpeed l' = scrollSpeed l
             /\ handler l' = handler l /\ inbox l' = inbox l
             /\ List.length (ticker l') = List.length (ticker l)
             /\ retryCount l' = retryCount l
             /\ filter onDevice (trace l') = filter onDevice (trace l).
Proof.
  intros H. unfold stopTicker. destruct (at_Some _ _ H) as [[s |] ->].
  - eexists. split; [reflexivity|]. lcd_fields. rewrite length_update, filter_app.
    cbn [filter onDevice]. rewrite app_nil_r. repeat split; reflexivity.
  - eexists. split; [reflexivity|]. repeat split; reflexivity.
Qed.

Lemma send_cases c l :
  (handler l = Receiving
   /\ send c l = Returns tt (set_inbox (Some c) (set_handler Running l)))
  \/ (handler l <> Receiving /\ send c l = Blocks l).
Proof.
  unfold send. destruct (handler l); [right|left|right|right]; split;
    try reflexivity; discriminate.
Qed.

Lemma rem_in_range line : 0 <= line < numLines -> Z.rem line numLines = line.
Proof. intros H. apply Z.rem_small. exact H. Qed.

(** The period of the ticker is the scroll speed in nanoseconds as long as
    that fits in 63 bits. *)
Lemma tickerPeriod_small l :
  -9223372036854 <= scrollSpeed l <= 9223372036854 ->
  tickerPeriod l = scrollSpeed l * 1000000.
Proof.
  intros H. unfold tickerPeriod, wrap64.
  rewrite Z.mod_small; [lia|].
  change (2 ^ 63) with 9223372036854775808. change (2 ^ 64) with 18446744073709551616.
  lia.
Qed.

Lemma tickerPeriod_frame l l' : scrollSpeed l' = scrollSpeed l -> tickerPeriod l' = tickerPeriod l.
Proof. unfold tickerPeriod. intros ->. reflexivity. Qed.

Lemma PrintLine_panics line text scroll l :
  sized l ->
  PrintLine line text scroll l = Panics
  <-> (0 <= line < numLines /\ scroll = true /\ numChars < len text /\ tickerPeriod l <= 0).
Proof.
  intros [Hl Ht]. unfold PrintLine.
  destruct (Z.ltb_spec line 0); [split; [discriminate|lia]|].
  destruct (Z.leb_spec numLines line); [split; [discriminate|lia]|]. cbn [orb].
  assert (Hr : 0 <= line < Z.of_nat (List.length (ticker l))).
  { rewrite Ht. unfold numLines in *. lia. }
  destruct scroll.
  - unfold printAndScrollLine. rewrite rem_in_range by lia.
    destruct (stopTicker_cases line l Hr) as (l' & -> & _ & Hs' & _ & _ & Ht' & _).
    cbn [bind]. destruct (Z.leb_spec (len text) numChars).
    + destruct (send_cases (mkCommand cmdPrintline line text) l') as [[_ ->] | [_ ->]];
        (split; [discriminate|lia]).
    + unfold runTicker.
      rewrite (tickerPeriod_frame l (emit (GoRunTicker line text) l')) by exact Hs'.
      destruct (Z.leb_spec (tickerPeriod l) 0); [split; [lia|reflexivity]|].
      destruct (at_Some (ticker (emit (GoRunTicker line text) l')) line) as [v ->];
        [lcd_fields; rewrite Ht'; exact Hr|].
      split; [discriminate|lia].
  - destruct (stopTicker_cases line l Hr) as (l' & -> & _).
    cbn [bind].
    destruct (send_cases (mkCommand cmdPrintline line text) l') as [[_ ->] | [_ ->]];
      (split; [discriminate|intros (_ & E & _); discriminate E]).
Qed.

Lemma PrintLine_no_panic line text scroll l :
  sized l -> 0 < tickerPeriod l -> PrintLine line text scroll l <> Panics.
Proof.
  intros Hs Hp E. apply (PrintLine_panics line text scroll l Hs) in E. lia.
Qed.

(** X15. [PrintLine] accepts the rows that [GetMinMaxRowNum] announces and
    no other: outside them it logs an error and does nothing else. It
    panics in one case only: a text longer than the display, for a row of
    the display, printed with [scroll] while the period handed to
    [time.NewTicker] is not positive. The period is the scroll speed times a
    million in [int64]: the speed in nanoseconds up to 9223372036854 in
    absolute value; from 9223372036855 on the product wraps around and can
    be negative. [printAndScrollLine], called on its own with a negative row
    that is not a multiple of four, indexes the array of tickers out of
    range. *)
Theorem PrintLine_is_guarded (line : Z) (text : string) (scroll : bool) (l : lcd) :
  sized l ->
  (PrintLine line text scroll l = Panics
   <-> (0 <= line < numLines /\ scroll = true /\ numChars < len text
        /\ tickerPeriod l <= 0))
  /\ (-9223372036854 <= scrollSpeed l <= 9223372036854 ->
      tickerPeriod l = scrollSpeed l * 1000000)
  /\ (line < fst (GetMinMaxRowNum l) \/ snd (GetMinMaxRowNum l) < line ->
      PrintLine line text scroll l = Returns tt (emit LogError l))
  /\ (line < 0 -> Z.rem line numLines <> 0 -> printAndScrollLine line text l = Panics).
Proof.
  intros Hsz. pose proof Hsz as [Hl Ht]. unfold numLines in Hl, Ht.
  split; [|split; [|split]].
  - apply PrintLine_panics, Hsz.
  - apply tickerPeriod_small.
  - cbn [GetMinMaxRowNum fst snd]. intros H. unfold PrintLine, numLines in *.
    destruct (Z.ltb_spec line 0); [reflexivity|].
    destruct (Z.leb_spec 4 line); [reflexivity|lia].
  - intros Hneg Hrem. unfold printAndScrollLine, stopTicker.
    rewrite at_None; [reflexivity|].
    pose proof (Z.rem_nonpos line numLines) as Hn. unfold numLines in *. lia.
Qed.


(** *** What reaches the device *)

Lemma accepted_other e : onDevice e = false -> accepted e.
Proof. destruct e; cbn; intros; try exact I; discriminate. Qed.

Lemma Forall_accepted_emit e l :
  Forall accepted (trace l) -> accepted e -> Forall accepted (trace (emit e l)).
Proof.
  intros H He. cbn [trace emit]. apply Forall_app. split; [exact H|].
  constructor; [exact He|constructor].
Qed.

Lemma closeStep_frame (l : lcd) (i : Z) :
  let l' := match at_ (ticker l) i with
            | Some (Some _) => set_ticker (update (ticker l) i None) (emit (TickerStop i) l)
            | _ => l
            end in
  lines l' = lines l /\ handler l' = handler l /\ inbox l' = inbox l
  /\ filter onDevice (trace l') = filter onDevice (trace l)
  /\ (Forall accepted (trace l) -> Forall accepted (trace l')).
Proof.
  cbn zeta. destruct (at_ (ticker l) i) as [[s |] |]; lcd_fields;
    rewrite ?filter_app; cbn [filter onDevice]; rewrite ?app_nil_r;
    repeat split; try reflexivity; intros H; try exact H.
  apply Forall_app. split; [exact H|]. repeat constructor.
Qed.

Lemma Close_frame l l' :
  final (Close l) = Some l' ->
  lines l' = lines l /\ handler l' = handler l /\ inbox l' = inbox l
  /\ filter onDevice (trace l') = filter onDevice (trace l)
  /\ (Forall accepted (trace l) -> Forall accepted (trace l')).
Proof.
  unfold Close. destruct (i2cbus l); cbn [final]; intros [= <-];
    [|repeat split; auto].
  cbn [fold_left].
  pose proof (closeStep_frame l 0) as H0. cbn zeta in H0.
  set (l0 := match at_ (ticker l) 0 with Some (Some _) => _ | _ => l end) in *.
  pose proof (closeStep_frame l0 1) as H1. cbn zeta in H1.
  set (l1 := match at_ (ticker l0) 1 with Some (Some _) => _ | _ => l0 end) in *.
  pose proof (closeStep_frame l1 2) as H2. cbn zeta in H2.
  set (l2 := match at_ (ticker l1) 2 with Some (Some _) => _ | _ => l1 end) in *.
  pose proof (closeStep_frame l2 3) as H3. cbn zeta in H3.
  set (l3 := match at_ (ticker l2) 3 with Some (Some _) => _ | _ => l2 end) in *.
  destruct H0 as (a0 & b0 & c0 & d0 & e0), H1 as (a1 & b1 & c1 & d1 & e1),
    H2 as (a2 & b2 & c2 & d2 & e2), H3 as (a3 & b3 & c3 & d3 & e3).
  lcd_fields. rewrite filter_app. cbn [filter onDevice]. rewrite app_nil_r.
  repeat split; try congruence.
  intros H. apply Forall_app. split; [auto|repeat constructor].
Qed.

(** What a call of the interface does before the handler takes over: it
    makes no call on the device and leaves the options alone. *)
Lemma perform_frame o l l' :
  final (perform o l) = Some l' ->
  lines l' = lines l
  /\ filter onDevice (trace l') = filter onDevice (trace l)
  /\ (Forall accepted (trace l) -> Forall accepted (trace l')).
Proof.
  destruct o as [on | | line | | line text scroll | line]; cbn [perform].
  - unfold Backlight, send. break_match; cbn [final]; intros [= <-];
      repeat split; auto.
  - unfold Clear, send. break_match; cbn [final]; intros [= <-]; repeat split; auto.
  - unfold ClearLine, send. break_match; cbn [final]; intros [= <-]; repeat split; auto.
  - intros H. destruct (Close_frame l l' H) as (a & _ & _ & d & e). repeat split; auto.
  - unfold PrintLine, printAndScrollLine, stopTicker, runTicker, send.
    break_match; cbn [bind final]; lcd_fields; break_match; cbn [final];
      try discriminate; intros [= <-]; lcd_fields;
      rewrite ?filter_app; cbn [filter onDevice]; rewrite ?app_nil_r;
      repeat split; try reflexivity; intros H;
      repeat (apply Forall_app; split; [|repeat constructor]); exact H.
  - unfold tick, send. break_match; cbn [bind final]; intros [= <-];
      repeat split; auto.
Qed.

Lemma printLine_accepted line text err l :
  rowsOk l -> Forall accepted (trace l) ->
  lines (fst (printLine line text err l)) = lines l
  /\ Forall accepted (trace (fst (printLine line text err l))).
Proof.
  intros Hr Ht. unfold printLine.
  destruct ((0 <=? line) && (line <? numLines)); [|split; [reflexivity|exact Ht]].
  destruct (at_ (lines l) line) as [options |] eqn:E; [|split; [reflexivity|exact Ht]].
  cbn [fst]. split; [reflexivity|].
  apply Forall_accepted_emit; [exact Ht|]. cbn [accepted]. split.
  - unfold len. destruct text; cbn; discriminate.
  - unfold rowsOk in Hr. rewrite Forall_forall in Hr. apply Hr, (at_In _ _ _ E).
Qed.

Lemma commandHandler_accepted a l :
  rowsOk l -> Forall accepted (trace l) ->
  lines (commandHandler a l) = lines l
  /\ Forall accepted (trace (commandHandler a l)).
Proof.
  intros Hr Ht. unfold commandHandler.
  destruct (inbox l) as [c |]; [|split; [reflexivity|exact Ht]].
  cbn zeta.
  assert (Hr' : rowsOk (set_inbox None l)) by exact Hr.
  assert (Ht' : Forall accepted (trace (set_inbox None l))) by exact Ht.
  pose proof (printLine_accepted (lineNum c) (lineText c) (fails a) _ Hr' Ht') as [Pl Pt].
  set (m := set_inbox None l) in *.
  assert (Hm : lines m = lines l) by reflexivity.
  clearbody m.
  assert (K : forall m' (failed : bool),
             lines m' = lines l -> Forall accepted (trace m') ->
             lines (if failed
                    then match retryDevice (reopens a) (emit LogError m') with
                         | Returns _ l0 => set_handler Receiving l0
                         | Blocks l0 => set_handler Stuck l0
                         | Panics => set_handler Stuck m'
                         end
                    else set_handler Receiving m') = lines l
             /\ Forall accepted
                  (trace (if failed
                          then match retryDevice (reopens a) (emit LogError m') with
                               | Returns _ l0 => set_handler Receiving l0
                               | Blocks l0 => set_handler Stuck l0
                               | Panics => set_handler Stuck m'
                               end
                          else set_handler Receiving m'))).
  { intros m' failed Hl Ha. destruct failed; [|split; assumption].
    unfold retryDevice, Clear, Backlight, send. lcd_fields.
    destruct (handler m'); cbn [bind]; lcd_fields;
      (split; [exact Hl|]);
      repeat (apply Forall_app; split; [|repeat constructor]); exact Ha. }
  destruct (cmd c =? cmdClear);
    [apply (K (emit DevClear m) (fails a));
     [exact Hm|apply Forall_accepted_emit; [exact Ht'|exact I]]|].
  destruct (cmd c =? cmdBacklightOn);
    [apply (K (emit DevBacklightOn m) (fails a));
     [exact Hm|apply Forall_accepted_emit; [exact Ht'|exact I]]|].
  destruct (cmd c =? cmdBacklightOff);
    [apply (K (emit DevBacklightOff m) (fails a));
     [exact Hm|apply Forall_accepted_emit; [exact Ht'|exact I]]|].
  destruct (cmd c =? cmdPrintline); [|apply (K m false); [exact Hm|exact Ht']].
  destruct (printLine (lineNum c) (lineText c) (fails a) m) as [m' failed].
  cbn [fst] in Pl, Pt. apply (K m' failed); [congruence|exact Pt].
Qed.

Lemma call_accepted o err l l' :
  rowsOk l -> Forall accepted (trace l) ->
  final (call (perform o) err l) = Some l' ->
  rowsOk l' /\ Forall accepted (trace l').
Proof.
  intros Hr Ht. unfold call.
  destruct (perform o l) as [[] m | m |] eqn:E; cbn [final]; intros [= <-].
  - destruct (perform_frame o l m) as (Hl & _ & Ha); [rewrite E; reflexivity|].
    assert (Hrm : rowsOk m) by (unfold rowsOk; rewrite Hl; exact Hr).
    destruct (commandHandler_accepted err m Hrm (Ha Ht)) as [Cl Ca].
    split; [unfold rowsOk; rewrite Cl; exact Hrm|exact Ca].
  - destruct (perform_frame o l m) as (Hl & _ & Ha); [rewrite E; reflexivity|].
    split; [unfold rowsOk; rewrite Hl; exact Hr|exact (Ha Ht)].
Qed.

Lemma session_accepted ops l l' :
  rowsOk l -> Forall accepted (trace l) ->
  final (session ops l) = Some l' ->
  rowsOk l' /\ Forall accepted (trace l').
Proof.
  revert l. induction ops as [| [o err] ops IH]; intros l Hr Ht; cbn [session].
  - cbn [final]. intros [= <-]. split; assumption.
  - destruct (call (perform o) err l) as [[] m | m |] eqn:E; cbn [bind].
    + destruct (call_accepted o err l m Hr Ht) as [Hr' Ht']; [rewrite E; reflexivity|].
      apply IH; assumption.
    + cbn [final]. intros [= <-].
      apply (call_accepted o err l m Hr Ht). rewrite E. reflexivity.
    + discriminate.
Qed.


Lemma New_cases scrollHeader speed delay bus dev a1 a2 :
  match New scrollHeader speed delay bus dev a1 a2 with
  | Returns err l =>
      err = negb (bus && dev)
      /\ handler l
         = (if bus && dev then if fails a2 then Stuck else Receiving else NotStarted)
      /\ (bus && dev = true -> fails a1 = false)
      /\ inbox l = None /\ sized l /\ rowsOk l /\ Forall accepted (trace l)
      /\ scrollSpeed l = speed /\ initDelay l = delay
      /\ GetCharsPerLine l = numChars
      /\ (bus && dev = true -> fails a2 = false -> trace l = [DevClear; DevBacklightOn])
  | Blocks l => bus = true /\ dev = true /\ fails a1 = true /\ handler l = Stuck
  | Panics => False
  end.
Proof.
  unfold sized, rowsOk.
  destruct a1 as [f1 r1], a2 as [f2 r2].
  destruct bus, dev, f1, f2; cbn; repeat split; try reflexivity; try discriminate;
    repeat constructor; cbn; try lia; try discriminate.
Qed.

(** X16. Whatever is asked of a display created by [New], in any order and
    with any errors of the device, every text handed to [ShowMessage] is not
    empty and goes to one of the four rows: an empty text is replaced by a
    blank and a command for a row out of range is dropped. *)
Theorem device_calls_are_accepted (scrollHeader : bool) (speed delay : Z)
    (bus dev : bool) (a1 a2 : answer) (ops : list (op * answer)) (err : bool)
    (l l' : lcd) :
  New scrollHeader speed delay bus dev a1 a2 = Returns err l ->
  final (session ops l) = Some l' ->
  Forall accepted (trace l').
Proof.
  intros HN Hs. pose proof (New_cases scrollHeader speed delay bus dev a1 a2) as C.
  rewrite HN in C. destruct C as (_ & _ & _ & _ & _ & Hr & Ha & _).
  apply (session_accepted ops l l' Hr Ha Hs).
Qed.

(** *** A handler that does not receive *)

Lemma sized_frame l l' :
  lines l' = lines l -> List.length (ticker l') = List.length (ticker l) ->
  sized l -> sized l'.
Proof. unfold sized. intros -> ->. exact (fun H => H). Qed.

Lemma Close_quiet l l' :
  final (Close l) = Some l' ->
  List.length (ticker l') = List.length (ticker l) /\ retryCount l' = retryCount l.
Proof.
  assert (S : forall m i,
             let m' := match at_ (ticker m) i with
                       | Some (Some _) =>
                           set_ticker (update (ticker m) i None) (emit (TickerStop i) m)
                       | _ => m
                       end in
             List.length (ticker m') = List.length (ticker m)
             /\ retryCount m' = retryCount m).
  { intros m i. cbn zeta. destruct (at_ (ticker m) i) as [[s |] |]; lcd_fields;
      rewrite ?length_update; split; reflexivity. }
  unfold Close. destruct (i2cbus l); cbn [final]; intros [= <-]; [|split; reflexivity].
  cbn [fold_left]. lcd_fields.
  pose proof (S l 0) as H0. cbn zeta in H0.
  set (l0 := match at_ (ticker l) 0 with Some (Some _) => _ | _ => l end) in *.
  pose proof (S l0 1) as H1. cbn zeta in H1.
  set (l1 := match at_ (ticker l0) 1 with Some (Some _) => _ | _ => l0 end) in *.
  pose proof (S l1 2) as H2. cbn zeta in H2.
  set (l2 := match at_ (ticker l1) 2 with Some (Some _) => _ | _ => l1 end) in *.
  pose proof (S l2 3) as H3. cbn zeta in H3.
  destruct H0, H1, H2, H3. split; congruence.
Qed.

(** While the handler is not at its receive statement, a call that sends
    blocks, and a call that returns has left the handler alone. *)
Lemma perform_not_receiving o l :
  sized l -> handler l <> Receiving ->
  (sends o l = true -> exists l', perform o l = Blocks l')
  /\ (forall l', final (perform o l) = Some l' ->
      handler l' = handler l /\ inbox l' = inbox l /\ sized l'
      /\ retryCount l' = retryCount l).
Proof.
  intros Hs Hh. pose proof Hs as [Hs1 Hs2].
  assert (Hsend : forall c m, handler m = handler l -> send c m = Blocks m).
  { intros c m E. unfold send. rewrite E. destruct (handler l); try reflexivity.
    now destruct Hh. }
  destruct o as [on | | line | | line text scroll | line]; cbn [perform sends].
  - unfold Backlight. destruct on; rewrite !Hsend by reflexivity;
      (split; [eauto|cbn [final]; intros l' [= <-]; repeat split; auto]).
  - unfold Clear. rewrite Hsend by reflexivity.
    split; [eauto|cbn [final]; intros l' [= <-]; repeat split; auto].
  - unfold ClearLine. rewrite Hsend by reflexivity.
    split; [eauto|cbn [final]; intros l' [= <-]; repeat split; auto].
  - split; [discriminate|]. intros l' H.
    destruct (Close_frame l l' H) as (a & b & c & _).
    destruct (Close_quiet l l' H) as (d & e).
    repeat split; try assumption; apply (sized_frame l l' a d Hs).
  - unfold PrintLine.
    destruct (Z.ltb_spec line 0) as [Hlo | Hlo]; cbn [orb].
    { destruct (Z.leb_spec 0 line); [lia|]. cbn [andb].
      split; [discriminate|]. cbn [final]. intros l' [= <-]. repeat split; apply Hs. }
    destruct (Z.leb_spec numLines line) as [Hhi | Hhi].
    { destruct (Z.leb_spec 0 line); [|lia]. destruct (Z.ltb_spec line numLines); [lia|].
      cbn [andb]. split; [discriminate|]. cbn [final]. intros l' [= <-].
      repeat split; apply Hs. }
    destruct (Z.leb_spec 0 line); [|lia]. destruct (Z.ltb_spec line numLines); [|lia].
    cbn [andb].
    assert (Hr : 0 <= line < Z.of_nat (List.length (ticker l))).
    { destruct Hs as [_ ->]. unfold numLines in *. lia. }
    destruct (stopTicker_cases line l Hr)
      as (m & Em & Ml & Ms & Mh & Mi & Mt & Mr & _).
    assert (Hm : sized m) by (apply (sized_frame l m Ml Mt Hs)).
    destruct scroll; cbn [negb orb].
    + unfold printAndScrollLine. rewrite rem_in_range by lia. rewrite Em. cbn [bind].
      destruct (len text <=? numChars).
      * rewrite Hsend by exact Mh.
        split; [eauto|cbn [final]; intros l' [= <-]; repeat split; try assumption; apply Hm].
      * split; [discriminate|]. unfold runTicker.
        destruct (tickerPeriod (emit (GoRunTicker line text) m) <=? 0); [discriminate|].
        lcd_fields.
        destruct (at_ (ticker m) line); cbn [final]; [|discriminate].
        intros l' [= <-]. unfold sized. lcd_fields.
        repeat split; try assumption; rewrite ?length_update; apply Hm.
    + rewrite Em. cbn [bind]. rewrite Hsend by exact Mh.
      split; [eauto|cbn [final]; intros l' [= <-]; repeat split; try assumption; apply Hm].
  - unfold tick. destruct (at_ (ticker l) line) as [[s |] |].
    + rewrite Hsend by reflexivity. cbn [bind].
      split; [eauto|cbn [final]; intros l' [= <-]; repeat split; auto; apply Hs].
    + split; [discriminate|]. cbn [final]. intros l' [= <-]. repeat split; apply Hs.
    + split; [discriminate|]. cbn [final]. intros l' [= <-]. repeat split; apply Hs.
Qed.

Lemma call_not_receiving o err l :
  sized l -> handler l <> Receiving -> inbox l = None ->
  (sends o l = true -> exists l', call (perform o) err l = Blocks l')
  /\ (forall l', final (call (perform o) err l) = Some l' ->
      handler l' = handler l /\ inbox l' = None /\ sized l'
      /\ retryCount l' = retryCount l
      /\ filter onDevice (trace l') = filter onDevice (trace l)).
Proof.
  intros Hs Hh Hi. destruct (perform_not_receiving o l Hs Hh) as [Hb Hf].
  unfold call. split.
  - intros S. destruct (Hb S) as [l' ->]. eauto.
  - intros l' H.
    destruct (perform o l) as [[] m | m |] eqn:E; cbn [final] in H; [| |discriminate].
    + destruct (Hf m eq_refl) as (a & b & c & d).
      destruct (perform_frame o l m) as (_ & t & _); [rewrite E; reflexivity|].
      injection H as <-. unfold commandHandler. rewrite b, Hi.
      split; [exact a|]. split; [congruence|]. split; [exact c|]. split; assumption.
    + injection H as <-. destruct (Hf m eq_refl) as (a & b & c & d).
      destruct (perform_frame o l m) as (_ & t & _); [rewrite E; reflexivity|].
      split; [exact a|]. split; [congruence|]. split; [exact c|]. split; assumption.
Qed.

Lemma session_not_receiving ops l l' :
  sized l -> handler l <> Receiving -> inbox l = None ->
  final (session ops l) = Some l' ->
  handler l' = handler l /\ retryCount l' = retryCount l
  /\ filter onDevice (trace l') = filter onDevice (trace l).
Proof.
  revert l. induction ops as [| [o err] ops IH]; intros l Hs Hh Hi; cbn [session].
  - cbn [final]. intros [= <-]. repeat split.
  - destruct (call_not_receiving o err l Hs Hh Hi) as [_ Hf].
    destruct (call (perform o) err l) as [[] m | m |]; cbn [bind final].
    + destruct (Hf m eq_refl) as (a & b & c & d & e). intros H.
      destruct (IH m c) as (x & y & z); [congruence|exact b|exact H|].
      repeat split; congruence.
    + intros [= <-]. destruct (Hf m eq_refl) as (a & b & c & d & e).
      repeat split; assumption.
    + discriminate.
Qed.


(** *** No call panics *)

Lemma closeStep_shape (l : lcd) (i : Z) :
  let l' := match at_ (ticker l) i with
            | Some (Some _) => set_ticker (update (ticker l) i None) (emit (TickerStop i) l)
            | _ => l
            end in
  scrollSpeed l' = scrollSpeed l /\ List.length (ticker l') = List.length (ticker l).
Proof.
  cbn zeta. destruct (at_ (ticker l) i) as [[s |] |]; lcd_fields;
    rewrite ?length_update; split; reflexivity.
Qed.

Lemma Close_shape l :
  exists l', Close l = Returns tt l'
             /\ scrollSpeed l' = scrollSpeed l /\ lines l' = lines l
             /\ List.length (ticker l') = List.length (ticker l).
Proof.
  unfold Close. destruct (i2cbus l) eqn:Eb; [|exists l; repeat split].
  eexists. split; [reflexivity|].
  assert (F : final (Close l) = Some (emit BusClose
                (fold_left (fun l i =>
                   match at_ (ticker l) i with
                   | Some (Some _) => set_ticker (update (ticker l) i None) (emit (TickerStop i) l)
                   | _ => l
                   end) [0; 1; 2; 3] l))).
  { unfold Close. rewrite Eb. reflexivity. }
  destruct (Close_frame l _ F) as (Hl & _).
  split; [|split; [exact Hl|]].
  - cbn [fold_left]. lcd_fields.
    pose proof (closeStep_shape l 0) as H0. cbn zeta in H0.
    set (l0 := match at_ (ticker l) 0 with Some (Some _) => _ | _ => l end) in *.
    pose proof (closeStep_shape l0 1) as H1. cbn zeta in H1.
    set (l1 := match at_ (ticker l0) 1 with Some (Some _) => _ | _ => l0 end) in *.
    pose proof (closeStep_shape l1 2) as H2. cbn zeta in H2.
    set (l2 := match at_ (ticker l1) 2 with Some (Some _) => _ | _ => l1 end) in *.
    pose proof (closeStep_shape l2 3) as H3. cbn zeta in H3.
    destruct H0, H1, H2, H3. congruence.
  - cbn [fold_left]. lcd_fields.
    pose proof (closeStep_shape l 0) as H0. cbn zeta in H0.
    set (l0 := match at_ (ticker l) 0 with Some (Some _) => _ | _ => l end) in *.
    pose proof (closeStep_shape l0 1) as H1. cbn zeta in H1.
    set (l1 := match at_ (ticker l0) 1 with Some (Some _) => _ | _ => l0 end) in *.
    pose proof (closeStep_shape l1 2) as H2. cbn zeta in H2.
    set (l2 := match at_ (ticker l1) 2 with Some (Some _) => _ | _ => l1 end) in *.
    pose proof (closeStep_shape l2 3) as H3. cbn zeta in H3.
    destruct H0, H1, H2, H3. congruence.
Qed.

(** A call of the interface leaves the scroll speed and the size of the
    arrays as they are. *)
Lemma perform_shape o l l' :
  final (perform o l) = Some l' ->
  scrollSpeed l' = scrollSpeed l /\ lines l' = lines l
  /\ List.length (ticker l') = List.length (ticker l).
Proof.
  destruct o as [on | | line | | line text scroll | line]; cbn [perform].
  - unfold Backlight, send. break_match; cbn [final]; intros [= <-]; repeat split.
  - unfold Clear, send. break_match; cbn [final]; intros [= <-]; repeat split.
  - unfold ClearLine, send. break_match; cbn [final]; intros [= <-]; repeat split.
  - destruct (Close_shape l) as (m & -> & H). cbn [final]. intros [= <-]. exact H.
  - unfold PrintLine, printAndScrollLine, stopTicker, runTicker, send.
    break_match; cbn [bind final]; lcd_fields; break_match; cbn [final];
      try discriminate; intros [= <-]; lcd_fields; rewrite ?length_update;
      repeat split; reflexivity.
  - unfold tick, send. break_match; cbn [bind final]; try discriminate;
      intros [= <-]; lcd_fields; rewrite ?length_update; repeat split; reflexivity.
Qed.

(** So does a turn of the handler. *)
Lemma commandHandler_shape a l :
  scrollSpeed (commandHandler a l) = scrollSpeed l
  /\ lines (commandHandler a l) = lines l
  /\ ticker (commandHandler a l) = ticker l.
Proof.
  unfold commandHandler. destruct (inbox l) as [c |]; [|repeat split].
  cbn zeta. set (m := set_inbox None l).
  assert (Hm : scrollSpeed m = scrollSpeed l /\ lines m = lines l /\ ticker m = ticker l)
    by (repeat split).
  clearbody m.
  assert (K : forall m' (failed : bool),
             scrollSpeed m' = scrollSpeed l /\ lines m' = lines l /\ ticker m' = ticker l ->
             let r := if failed
                      then match retryDevice (reopens a) (emit LogError m') with
                           | Returns _ l0 => set_handler Receiving l0
                           | Blocks l0 => set_handler Stuck l0
                           | Panics => set_handler Stuck m'
                           end
                      else set_handler Receiving m' in
             scrollSpeed r = scrollSpeed l /\ lines r = lines l /\ ticker r = ticker l).
  { intros m' failed H. cbn zeta. destruct failed; [|exact H].
    unfold retryDevice, Clear, Backlight, send. lcd_fields.
    destruct (handler m'); cbn [bind]; lcd_fields; exact H. }
  cbn zeta in K.
  destruct (cmd c =? cmdClear); [apply (K (emit DevClear m) (fails a)); exact Hm|].
  destruct (cmd c =? cmdBacklightOn); [apply (K (emit DevBacklightOn m) (fails a)); exact Hm|].
  destruct (cmd c =? cmdBacklightOff);
    [apply (K (emit DevBacklightOff m) (fails a)); exact Hm|].
  destruct (cmd c =? cmdPrintline); [|apply (K m false); exact Hm].
  destruct (printLine (lineNum c) (lineText c) (fails a) m) as [m' failed] eqn:E.
  apply (K m' failed). unfold printLine in E.
  destruct ((0 <=? lineNum c) && (lineNum c <? numLines)); [|injection E as <- <-; exact Hm].
  destruct (at_ (lines m) (lineNum c)); injection E as <- <-; exact Hm.
Qed.

Lemma call_scrollSpeed o a l l' :
  final (call (perform o) a l) = Some l' -> scrollSpeed l' = scrollSpeed l.
Proof.
  unfold call. destruct (perform o l) as [[] m | m |] eqn:E; cbn [final]; intros [= <-].
  - destruct (perform_shape o l m) as (x & _); [rewrite E; reflexivity|].
    destruct (commandHandler_shape a m) as (y & _). congruence.
  - destruct (perform_shape o l m) as (x & _); [rewrite E; reflexivity|]. exact x.
Qed.

Lemma session_scrollSpeed ops l l' :
  final (session ops l) = Some l' -> scrollSpeed l' = scrollSpeed l.
Proof.
  revert l. induction ops as [| [o a] ops IH]; intros l; cbn [session].
  - cbn [final]. intros [= <-]. reflexivity.
  - pose proof (call_scrollSpeed o a l) as Hc.
    destruct (call (perform o) a l) as [[] m | m |]; cbn [bind final].
    + intros H. rewrite (IH m H). apply Hc. reflexivity.
    + intros [= <-]. apply Hc. reflexivity.
    + discriminate.
Qed.

Lemma perform_no_panic o l : sized l -> 0 < tickerPeriod l -> perform o l <> Panics.
Proof.
  intros Hs Hp. destruct o as [on | | line | | line text scroll | line]; cbn [perform].
  - unfold Backlight, send. break_match; discriminate.
  - unfold Clear, send. break_match; discriminate.
  - unfold ClearLine, send. break_match; discriminate.
  - destruct (Close_shape l) as (m & -> & _). discriminate.
  - apply PrintLine_no_panic; assumption.
  - unfold tick, send. break_match; cbn [bind]; discriminate.
Qed.

(** With arrays of the right size and a ticker period that is positive, no
    sequence of calls panics, and the display stays that way. *)
Lemma call_no_panic o a l :
  sized l -> 0 < tickerPeriod l ->
  call (perform o) a l <> Panics
  /\ forall l', final (call (perform o) a l) = Some l' ->
     sized l' /\ tickerPeriod l' = tickerPeriod l.
Proof.
  intros Hs Hp. pose proof (perform_no_panic o l Hs Hp) as Hn. unfold call.
  destruct (perform o l) as [[] m | m |] eqn:E; [| |now destruct Hn].
  - split; [discriminate|]. cbn [final]. intros l' [= <-].
    destruct (perform_shape o l m) as (a1 & a2 & a3); [rewrite E; reflexivity|].
    destruct (commandHandler_shape a m) as (b1 & b2 & b3).
    split.
    + apply (sized_frame l); [congruence|rewrite b3; exact a3|exact Hs].
    + apply tickerPeriod_frame. congruence.
  - split; [discriminate|]. cbn [final]. intros l' [= <-].
    destruct (perform_shape o l m) as (a1 & a2 & a3); [rewrite E; reflexivity|].
    split; [apply (sized_frame l); assumption|apply tickerPeriod_frame, a1].
Qed.

Lemma session_no_panic ops l :
  sized l -> 0 < tickerPeriod l ->
  session ops l <> Panics
  /\ forall l', final (session ops l) = Some l' ->
     sized l' /\ tickerPeriod l' = tickerPeriod l.
Proof.
  revert l. induction ops as [| [o a] ops IH]; intros l Hs Hp; cbn [session].
  - split; [discriminate|]. cbn [final]. intros l' [= <-]. split; [exact Hs|reflexivity].
  - destruct (call_no_panic o a l Hs Hp) as [Hn Hf].
    destruct (call (perform o) a l) as [[] m | m |]; cbn [bind]; [| |now destruct Hn].
    + destruct (Hf m eq_refl) as [Ms Mp].
      destruct (IH m Ms ltac:(lia)) as [In If]. split; [exact In|].
      intros l' H. destruct (If l' H) as [x y]. split; [exact x|congruence].
    + split; [discriminate|]. exact Hf.
Qed.

(** The calls that start no ticker: all but [PrintLine] with [scroll],
    [Close] and the ticks. *)
Lemma call_without_scroll o a l l' :
  (match o with
   | OpBacklight _ | OpClear | OpClearLine _ | OpPrintLine _ _ false => True
   | _ => False
   end) ->
  Forall (fun t => t = None) (ticker l) ->
  final (call (perform o) a l) = Some l' ->
  ticker l' = ticker l.
Proof.
  intros Ho Hn.
  assert (P : forall m, final (perform o l) = Some m -> ticker m = ticker l).
  { destruct o as [on | | line | | line text [|] | line]; try now destruct Ho.
    - cbn [perform]. unfold Backlight, send. intros m.
      break_match; cbn [final]; intros [= <-]; reflexivity.
    - cbn [perform]. unfold Clear, send. intros m.
      break_match; cbn [final]; intros [= <-]; reflexivity.
    - cbn [perform]. unfold ClearLine, send. intros m.
      break_match; cbn [final]; intros [= <-]; reflexivity.
    - cbn [perform]. unfold PrintLine. intros m.
      destruct ((line <? 0) || (numLines <=? line)); [cbn [final]; intros [= <-]; reflexivity|].
      unfold stopTicker. destruct (at_ (ticker l) line) as [[s |] |] eqn:E.
      + rewrite Forall_forall in Hn. specialize (Hn _ (at_In _ _ _ E)). discriminate Hn.
      + cbn [bind]. unfold send. break_match; cbn [final]; intros [= <-]; reflexivity.
      + cbn [bind final]. discriminate. }
  unfold call. destruct (perform o l) as [[] m | m |]; cbn [final]; intros [= <-].
  - destruct (commandHandler_shape a m) as (_ & _ & ->). apply P. reflexivity.
  - apply P. reflexivity.
Qed.

Lemma session_without_scroll ops l l' :
  Forall (fun oa => match fst oa with
                    | OpBacklight _ | OpClear | OpClearLine _ | OpPrintLine _ _ false => True
                    | _ => False
                    end) ops ->
  Forall (fun t => t = None) (ticker l) ->
  final (session ops l) = Some l' ->
  ticker l' = ticker l.
Proof.
  revert l. induction ops as [| [o a] ops IH]; intros l Ho Hn; cbn [session].
  - cbn [final]. intros [= <-]. reflexivity.
  - inversion Ho as [| x xs Hx Hxs]; subst. cbn [fst] in Hx.
    pose proof (call_without_scroll o a l) as Hc.
    destruct (call (perform o) a l) as [[] m | m |]; cbn [bind final].
    + intros H. specialize (Hc m Hx Hn eq_refl).
      rewrite (IH m Hxs); [exact Hc|rewrite Hc; exact Hn|exact H].
    + intros [= <-]. apply Hc; [exact Hx|exact Hn|reflexivity].
    + discriminate.
Qed.

(** [New] is such a sequence: the display it returns has no ticker. *)
Lemma New_tickers scrollHeader speed delay bus dev a1 a2 err l :
  New scrollHeader speed delay bus dev a1 a2 = Returns err l ->
  ticker l = [None; None; None; None].
Proof.
  unfold New. destruct bus; cbn [negb]; [|intros [= <- <-]; reflexivity].
  destruct dev; cbn [negb]; [|intros [= <- <-]; reflexivity].
  match goal with
  | |- bind (call Clear a1 ?l0) _ = _ -> _ => set (m0 := l0)
  end.
  assert (H0 : ticker m0 = [None; None; None; None]) by reflexivity.
  clearbody m0.
  pose proof (session_without_scroll [(OpClear, a1); (OpBacklight true, a2)] m0) as S.
  cbn [session] in S. intros E. rewrite <- H0.
  apply (S l); [repeat constructor|rewrite H0; repeat constructor|].
  revert E. change (call Clear a1 m0) with (call (perform OpClear) a1 m0).
  destruct (call (perform OpClear) a1 m0) as [[] m1 | m1 |]; cbn [bind];
    try (intros E; discriminate E).
  change (call (Backlight true) a2 m1) with (call (perform (OpBacklight true)) a2 m1).
  destruct (call (perform (OpBacklight true)) a2 m1) as [[] m2 | m2 |]; cbn [bind final];
    try (intros E; discriminate E).
  intros [= <- <-]. reflexivity.
Qed.

(** [PrintLine] for a row of the display while the handler does not
    receive. *)
Lemma PrintLine_not_receiving line text scroll l :
  sized l -> handler l <> Receiving -> 0 <= line < numLines ->
  (scroll = false \/ len text <= numChars ->
   exists l', PrintLine line text scroll l = Blocks l')
  /\ (scroll = true -> numChars < len text -> 0 < tickerPeriod l ->
      exists l',
        PrintLine line text scroll l = Returns tt l'
        /\ handler l' = handler l
        /\ filter onDevice (trace l') = filter onDevice (trace l)
        /\ exists l'', tick line l' = Blocks l'')
  /\ (scroll = true -> numChars < len text -> tickerPeriod l <= 0 ->
      PrintLine line text scroll l = Panics).
Proof.
  intros Hs Hh Hr. split; [|split].
  - intros H.
    destruct (perform_not_receiving (OpPrintLine line text scroll) l Hs Hh) as [Hb _].
    apply Hb. cbn [sends].
    destruct (Z.leb_spec 0 line); [|lia]. destruct (Z.ltb_spec line numLines); [|lia].
    destruct H as [-> | H]; [reflexivity|].
    destruct (Z.leb_spec (len text) numChars); [|lia]. destruct scroll; reflexivity.
  - intros -> Hlong Hp. pose proof Hs as [Hs1 Hs2].
    assert (Hrt : 0 <= line < Z.of_nat (List.length (ticker l))).
    { rewrite Hs2. unfold numLines in *. lia. }
    destruct (stopTicker_cases line l Hrt) as (m & Em & Ml & Msp & Mh & Mi & Mt & Mr & Mf).
    unfold PrintLine.
    destruct (Z.ltb_spec line 0); [lia|]. destruct (Z.leb_spec numLines line); [lia|].
    cbn [orb]. unfold printAndScrollLine. rewrite rem_in_range by exact Hr.
    rewrite Em. cbn [bind]. destruct (Z.leb_spec (len text) numChars); [lia|].
    unfold runTicker.
    rewrite (tickerPeriod_frame l (emit (GoRunTicker line text) m)) by exact Msp.
    destruct (Z.leb_spec (tickerPeriod l) 0); [lia|]. lcd_fields.
    destruct (at_Some (ticker m) line) as [v ->]; [rewrite Mt; exact Hrt|].
    eexists. split; [reflexivity|]. lcd_fields.
    split; [exact Mh|]. split.
    + rewrite filter_app. cbn [filter onDevice]. rewrite app_nil_r. exact Mf.
    + unfold tick. lcd_fields.
      rewrite at_update_same by (rewrite Mt; exact Hrt).
      unfold send. lcd_fields. rewrite Mh.
      destruct (handler l); try (eexists; reflexivity). now destruct Hh.
  - intros -> Hlong Hp. apply PrintLine_panics; [exact Hs|]. repeat split; try lia.
Qed.

(** X17. When [New] fails to open the bus or the device it returns without
    having started [commandHandler]. When the device answers the first
    command of [New] with an error, [New] itself blocks; when it answers the
    second with an error, [New] returns a display whose handler is blocked.
    Without errors the display has been cleared and lit and its handler
    waits. On a display that [New] returns with a handler that does not
    receive, [PrintLine] for a row of the display blocks for ever whenever it
    sends on the channel: without [scroll], which is how [main] always calls
    it, and with [scroll] for a text that fits. With [scroll] and a longer
    text it starts a ticker and returns, and the first tick blocks; with a
    ticker period that is not positive it panics. Whatever is called from
    then on, the handler stays where it is and nothing reaches the
    device. *)
Theorem failed_New_blocks_the_loop (scrollHeader : bool) (speed delay : Z)
    (bus dev : bool) (a1 a2 : answer) :
  (bus && dev = false ->
   exists l,
     New scrollHeader speed delay bus dev a1 a2 = Returns true l
     /\ handler l = NotStarted)
  /\ (bus && dev = true -> fails a1 = true ->
      exists l, New scrollHeader speed delay bus dev a1 a2 = Blocks l)
  /\ (bus && dev = true -> fails a1 = false -> fails a2 = true ->
      exists l,
        New scrollHeader speed delay bus dev a1 a2 = Returns false l
        /\ handler l = Stuck)
  /\ (bus && dev = true -> fails a1 = false -> fails a2 = false ->
      exists l,
        New scrollHeader speed delay bus dev a1 a2 = Returns false l
        /\ healthy l /\ trace l = [DevClear; DevBacklightOn])
  /\ (forall err l,
      New scrollHeader speed delay bus dev a1 a2 = Returns err l ->
      handler l <> Receiving ->
      (forall line text scroll, 0 <= line < numLines ->
         (scroll = false \/ len text <= numChars ->
          exists l', PrintLine line text scroll l = Blocks l')
         /\ (scroll = true -> numChars < len text -> 0 < tickerPeriod l ->
             exists l',
               PrintLine line text scroll l = Returns tt l'
               /\ handler l' = handler l
               /\ filter onDevice (trace l') = filter onDevice (trace l)
               /\ exists l'', tick line l' = Blocks l'')
         /\ (scroll = true -> numChars < len text -> tickerPeriod l <= 0 ->
             PrintLine line text scroll l = Panics))
      /\ (forall ops l', final (session ops l) = Some l' ->
          handler l' = handler l
          /\ filter onDevice (trace l') = filter onDevice (trace l))).
Proof.
  pose proof (New_cases scrollHeader speed delay bus dev a1 a2) as C.
  split; [|split; [|split; [|split]]].
  - intros Hb. destruct (New scrollHeader speed delay bus dev a1 a2) as [err l | l |].
    + destruct C as (-> & Hh & _). rewrite Hb in *. exists l. split; [reflexivity|exact Hh].
    + destruct C as (-> & -> & _). discriminate Hb.
    + destruct C.
  - intros Hb Hf. destruct (New scrollHeader speed delay bus dev a1 a2) as [err l | l |].
    + destruct C as (_ & _ & C3 & _). rewrite (C3 Hb) in Hf. discriminate Hf.
    + exists l. reflexivity.
    + destruct C.
  - intros Hb Hf1 Hf2.
    destruct (New scrollHeader speed delay bus dev a1 a2) as [err l | l |].
    + destruct C as (-> & Hh & _). rewrite Hb, Hf2 in *. exists l.
      split; [reflexivity|exact Hh].
    + destruct C as (_ & _ & C3 & _). rewrite C3 in Hf1. discriminate Hf1.
    + destruct C.
  - intros Hb Hf1 Hf2.
    destruct (New scrollHeader speed delay bus dev a1 a2) as [err l | l |].
    + destruct C as (-> & Hh & _ & Hi & _ & _ & _ & _ & _ & _ & Ht).
      rewrite Hb, Hf2 in *. exists l. split; [reflexivity|].
      split; [split; assumption|]. apply Ht; reflexivity.
    + destruct C as (_ & _ & C3 & _). rewrite C3 in Hf1. discriminate Hf1.
    + destruct C.
  - intros err l E Hh. rewrite E in C.
    destruct C as (_ & _ & _ & Hi & Hs & _).
    split.
    + intros line text scroll Hr. apply PrintLine_not_receiving; assumption.
    + intros ops l' H.
      destruct (session_not_receiving ops l l' Hs Hh Hi H) as (x & _ & z).
      split; assumption.
Qed.

Lemma commandHandler_failure c m a :
  inbox m = Some c -> handler m = Running -> fails a = true ->
  (cmd c = cmdClear \/ cmd c = cmdBacklightOn \/ cmd c = cmdBacklightOff
   \/ (cmd c = cmdPrintline /\ 0 <= lineNum c < numLines
       /\ exists options, at_ (lines m) (lineNum c) = Some options)) ->
  let l' := commandHandler a m in
  handler l' = Stuck /\ inbox l' = None /\ retryCount l' = retryCount m + 1
  /\ lines l' = lines m /\ ticker l' = ticker m.
Proof.
  intros Hi Hh Hf Hc. cbn zeta. unfold commandHandler. rewrite Hi, Hf.
  assert (K : forall m', handler m' = Running -> inbox m' = None ->
                let l' := match retryDevice (reopens a) (emit LogError m') with
                          | Returns _ l0 => set_handler Receiving l0
                          | Blocks l0 => set_handler Stuck l0
                          | Panics => set_handler Stuck m'
                          end in
                handler l' = Stuck /\ inbox l' = None
                /\ retryCount l' = retryCount m' + 1
                /\ lines l' = lines m' /\ ticker l' = ticker m').
  { intros m' Hr Hn. cbn zeta. unfold retryDevice, Clear, send. lcd_fields.
    rewrite Hr. cbn [bind]. lcd_fields. repeat split; try reflexivity. exact Hn. }
  destruct Hc as [-> | [-> | [-> | (-> & Hr & options & Ho)]]]; cbn [Z.eqb Pos.eqb cmdClear
    cmdBacklightOn cmdBacklightOff cmdPrintline].
  - apply (K (emit DevClear (set_inbox None m))); [exact Hh|reflexivity].
  - apply (K (emit DevBacklightOn (set_inbox None m))); [exact Hh|reflexivity].
  - apply (K (emit DevBacklightOff (set_inbox None m))); [exact Hh|reflexivity].
  - unfold printLine. lcd_fields. rewrite Ho.
    destruct (Z.leb_spec 0 (lineNum c)); [|lia].
    destruct (Z.ltb_spec (lineNum c) numLines); [|lia]. cbn [andb].
    apply (K (emit (DevShowMessage _ options) (set_inbox None m))); [exact Hh|reflexivity].
Qed.

(** A call that sends to a healthy handler returns, with its command in
    the hands of the handler. *)
Lemma perform_healthy o l :
  sized l -> healthy l -> sends o l = true -> reachesDevice o = true ->
  exists m c,
    perform o l = Returns tt m
    /\ inbox m = Some c /\ handler m = Running /\ sized m
    /\ retryCount m = retryCount l
    /\ (cmd c = cmdClear \/ cmd c = cmdBacklightOn \/ cmd c = cmdBacklightOff
        \/ (cmd c = cmdPrintline /\ 0 <= lineNum c < numLines
            /\ exists options, at_ (lines m) (lineNum c) = Some options)).
Proof.
  intros Hs [Hh Hi] Hsend Hreach. pose proof Hs as [Hs1 Hs2].
  assert (Hopt : forall line m, 0 <= line < numLines -> lines m = lines l ->
                   exists options, at_ (lines m) line = Some options).
  { intros line m Hr ->. apply at_Some. rewrite Hs1. unfold numLines in *. lia. }
  destruct o as [on | | line | | line text scroll | line]; cbn [perform sends reachesDevice] in *.
  - unfold Backlight, send. rewrite Hh.
    destruct on; eexists; eexists; (split; [reflexivity|]); lcd_fields;
      repeat split; auto.
  - unfold Clear, send. rewrite Hh. eexists; eexists; (split; [reflexivity|]); lcd_fields.
    repeat split; auto.
  - unfold ClearLine, send. rewrite Hh. eexists; eexists; (split; [reflexivity|]); lcd_fields.
    apply andb_true_iff in Hreach. destruct Hreach as [R1 R2].
    apply Z.leb_le in R1. apply Z.ltb_lt in R2.
    repeat split; auto. right. right. right. repeat split; auto.
  - discriminate.
  - apply andb_true_iff in Hsend. destruct Hsend as [Hr Hmode].
    apply andb_true_iff in Hr. destruct Hr as [R1 R2].
    apply Z.leb_le in R1. apply Z.ltb_lt in R2.
    assert (Hr : 0 <= line < Z.of_nat (List.length (ticker l))).
    { rewrite Hs2. unfold numLines in *. lia. }
    destruct (stopTicker_cases line l Hr)
      as (m & Em & Ml & Ms & Mh & Mi & Mt & Mr & _).
    unfold PrintLine.
    destruct (Z.ltb_spec line 0); [lia|]. destruct (Z.leb_spec numLines line); [lia|].
    cbn [orb].
    assert (Hm : sized m) by (apply (sized_frame l m Ml Mt Hs)).
    assert (Hfin : exists m' c,
               send (mkCommand cmdPrintline line text) m = Returns tt m'
               /\ inbox m' = Some c /\ handler m' = Running /\ sized m'
               /\ retryCount m' = retryCount l
               /\ (cmd c = cmdClear \/ cmd c = cmdBacklightOn \/ cmd c = cmdBacklightOff
                   \/ (cmd c = cmdPrintline /\ 0 <= lineNum c < numLines
                       /\ exists options, at_ (lines m') (lineNum c) = Some options))).
    { unfold send. rewrite Mh, Hh. eexists; eexists; (split; [reflexivity|]); lcd_fields.
      split; [reflexivity|]. split; [reflexivity|]. split; [exact Hm|].
      split; [exact Mr|]. right. right. right. cbn [cmd lineNum].
      split; [reflexivity|]. split; [lia|]. apply Hopt; [lia|exact Ml]. }
    destruct scroll; cbn [negb orb] in Hmode.
    + unfold printAndScrollLine. rewrite rem_in_range by lia. rewrite Em. cbn [bind].
      rewrite Hmode. exact Hfin.
    + rewrite Em. cbn [bind]. exact Hfin.
  - unfold tick. destruct (at_ (ticker l) line) as [[s |] |] eqn:E; try discriminate.
    pose proof (at_range _ _ _ E) as Hr. rewrite Hs2 in Hr.
    unfold send. rewrite Hh. cbn [bind].
    eexists; eexists; (split; [reflexivity|]); lcd_fields.
    split; [reflexivity|]. split; [reflexivity|].
    split; [unfold sized; lcd_fields; rewrite length_update; exact Hs|].
    split; [reflexivity|]. right. right. right. cbn [cmd lineNum].
    split; [reflexivity|]. split; [unfold numLines in *; lia|].
    apply at_Some. rewrite Hs1. exact Hr.
Qed.

(** X18. On a display whose handler waits, the first error of the device
    stops the display for good: [commandHandler] calls [retryDevice], which
    sends on the channel that [commandHandler] alone receives from. From then
    on every call that sends a command blocks for ever, [retryCount] stays at
    one more, and nothing reaches the device. *)
Theorem device_error_blocks_the_display (o : op) (a : answer) (l : lcd) :
  sized l -> healthy l -> sends o l = true -> reachesDevice o = true ->
  fails a = true ->
  exists l',
    call (perform o) a l = Returns tt l'
    /\ handler l' = Stuck
    /\ retryCount l' = retryCount l + 1
    /\ (forall o' a', sends o' l' = true ->
        exists l'', call (perform o') a' l' = Blocks l'')
    /\ (forall ops l'', final (session ops l') = Some l'' ->
        handler l'' = Stuck
        /\ retryCount l'' = retryCount l + 1
        /\ filter onDevice (trace l'') = filter onDevice (trace l')).
Proof.
  intros Hs Hh Hsend Hreach Hf.
  destruct (perform_healthy o l Hs Hh Hsend Hreach) as (m & c & Em & Mi & Mh & Ms & Mr & Mc).
  destruct (commandHandler_failure c m a Mi Mh Hf Mc) as (Fh & Fi & Fr & Fl & Ft).
  exists (commandHandler a m). unfold call at 1. rewrite Em.
  split; [reflexivity|]. split; [exact Fh|]. split; [congruence|].
  assert (Hs' : sized (commandHandler a m)).
  { unfold sized. rewrite Fl, Ft. exact Ms. }
  assert (Hn : handler (commandHandler a m) <> Receiving) by (rewrite Fh; discriminate).
  split.
  - intros o' a' S.
    destruct (call_not_receiving o' a' _ Hs' Hn Fi) as [Hb _]. apply Hb, S.
  - intros ops l'' H.
    destruct (session_not_receiving ops _ l'' Hs' Hn Fi H) as (x & y & z).
    split; [congruence|]. split; [congruence|exact z].
Qed.

(** *** A text that scrolls *)

Lemma substring_all s : substring 0 (String.length s) s = s.
Proof. induction s as [| c s IH]; cbn; [reflexivity|]. rewrite IH. reflexivity. Qed.

Lemma substring_none s : substring 0 0 s = EmptyString.
Proof. destruct s; reflexivity. Qed.

Lemma rotate_cons c r : rotate (String c r) = (r ++ String c EmptyString)%string.
Proof.
  unfold rotate. cbn [String.length Nat.sub substring].
  rewrite Nat.sub_0_r, substring_all, substring_none. reflexivity.
Qed.

Lemma append_assoc (a b c : string) : ((a ++ b) ++ c = a ++ (b ++ c))%string.
Proof. induction a as [| x a IH]; cbn; [reflexivity|]. rewrite IH. reflexivity. Qed.

Lemma append_empty (a : string) : (a ++ "")%string = a.
Proof. induction a as [| x a IH]; cbn; [reflexivity|]. rewrite IH. reflexivity. Qed.

Lemma iter_rotate_shift n s : Nat.iter n rotate (rotate s) = rotate (Nat.iter n rotate s).
Proof. rewrite <- Nat.iter_succ_r. reflexivity. Qed.

Lemma rotate_prefix (a b : string) :
  Nat.iter (String.length a) rotate (a ++ b)%string = (b ++ a)%string.
Proof.
  revert b. induction a as [| c a IH]; intros b; cbn [String.length].
  - cbn. rewrite append_empty. reflexivity.
  - rewrite Nat.iter_succ_r. cbn [append]. rewrite rotate_cons, append_assoc, IH.
    rewrite append_assoc. reflexivity.
Qed.

Lemma rotate_period s : Nat.iter (String.length s) rotate s = s.
Proof.
  pose proof (rotate_prefix s "") as H. rewrite append_empty in H. exact H.
Qed.

Lemma rotate_length s : String.length (rotate s) = String.length s.
Proof.
  destruct s as [| c r]; [reflexivity|].
  rewrite rotate_cons, length_append. cbn. lia.
Qed.

Lemma iter_rotate_length n s : String.length (Nat.iter n rotate s) = String.length s.
Proof.
  induction n as [| n IH]; [reflexivity|]. rewrite Nat.iter_succ, rotate_length. exact IH.
Qed.

(** One tick on a healthy display. *)
Lemma tick_step line s l :
  sized l -> healthy l -> at_ (ticker l) line = Some (Some s) -> s <> EmptyString ->
  exists options l',
    at_ (lines l) line = Some options
    /\ call (tick line) fine l = Returns tt l'
    /\ sized l' /\ healthy l' /\ lines l' = lines l
    /\ at_ (ticker l') line = Some (Some (rotate s))
    /\ trace l' = trace l ++ [DevShowMessage s options].
Proof.
  intros Hs [Hh Hi] Et Hne. pose proof Hs as [Hs1 Hs2].
  pose proof (at_range _ _ _ Et) as Hr.
  destruct (at_Some (lines l) line) as [options Eo]; [rewrite Hs1, <- Hs2; exact Hr|].
  exists options. unfold call, tick, send. rewrite Et, Hh. cbn [bind].
  eexists. split; [exact Eo|]. split; [reflexivity|].
  unfold commandHandler, fine. lcd_fields. cbn [cmd lineNum lineText fails reopens].
  cbn [Z.eqb Pos.eqb cmdClear cmdBacklightOn cmdBacklightOff cmdPrintline].
  unfold printLine. lcd_fields. rewrite Eo.
  rewrite Hs2 in Hr. unfold numLines in *.
  destruct (Z.leb_spec 0 line); [|lia]. destruct (Z.ltb_spec line 4); [|lia].
  cbn [andb]. lcd_fields.
  assert (Hlen : (len s =? 0) = false).
  { unfold len. destruct s; [now destruct Hne|reflexivity]. }
  rewrite Hlen. unfold sized, healthy. lcd_fields. rewrite length_update.
  repeat split; try assumption; try reflexivity.
  apply at_update_same. rewrite Hs2. lia.
Qed.

Lemma iter_rotate_nonempty n text :
  Nat.iter n rotate (text ++ "     ")%string <> EmptyString.
Proof.
  intros E. apply (f_equal String.length) in E.
  rewrite iter_rotate_length, length_append in E. cbn in E. lia.
Qed.

Lemma session_app ops ops' l :
  session (ops ++ ops') l = bind (session ops l) (fun _ l => session ops' l).
Proof.
  revert l. induction ops as [| [o err] ops IH]; intros l; cbn [session app bind];
    [reflexivity|].
  destruct (call (perform o) err l) as [[] m | m |]; cbn [bind]; [apply IH|reflexivity..].
Qed.

Lemma ticks_scroll line s options k l :
  sized l -> healthy l -> at_ (ticker l) line = Some (Some s) ->
  at_ (lines l) line = Some options ->
  (forall n, Nat.iter n rotate s <> EmptyString) ->
  exists l',
    session (repeat (OpTick line, fine) k) l = Returns tt l'
    /\ sized l' /\ healthy l' /\ lines l' = lines l
    /\ at_ (ticker l') line = Some (Some (Nat.iter k rotate s))
    /\ trace l'
       = trace l ++ map (fun i => DevShowMessage (Nat.iter i rotate s) options) (seq 0 k).
Proof.
  intros Hs Hh Et Eo Hne. induction k as [| k IH].
  - exists l. cbn. rewrite app_nil_r. repeat split; try assumption; first [apply Hs | apply Hh].
  - destruct IH as (m & Em & Ms & Mh & Ml & Mt & Mtr).
    destruct (tick_step line _ m Ms Mh Mt (Hne k))
      as (options' & l' & Eo' & Ec & Ls & Lh & Ll & Lt & Ltr).
    rewrite Ml, Eo in Eo'. injection Eo' as <-.
    exists l'. rewrite repeat_snoc, session_app, Em. cbn [bind session].
    change (call (perform (OpTick line)) fine m) with (call (tick line) fine m).
    rewrite Ec.
    cbn [bind]. split; [reflexivity|]. split; [exact Ls|]. split; [exact Lh|].
    split; [congruence|]. split; [exact Lt|].
    rewrite Ltr, Mtr, seq_S, map_app, <- app_assoc. reflexivity.
Qed.

Lemma filter_shown (g : nat -> string) options xs :
  filter onDevice (map (fun i => DevShowMessage (g i) options) xs)
  = map (fun i => DevShowMessage (g i) options) xs.
Proof.
  induction xs as [| i rest IH]; [reflexivity|].
  cbn [map filter onDevice]. rewrite IH. reflexivity.
Qed.

(** X19. On a display with a positive ticker period, a text longer than the
    display that is printed with [scroll] is shown by the ticker: the tick
    number k shows the text followed by five blanks, rotated to the left k
    times. Every frame is as long as the text plus five, and after that many
    ticks the frames start again. *)
Theorem long_text_scrolls (l : lcd) (line : Z) (text : string) (k : nat) :
  sized l -> healthy l -> 0 < tickerPeriod l ->
  0 <= line < numLines -> numChars < len text ->
  let s := (text ++ "     ")%string in
  exists options l',
    at_ (lines l) line = Some options
    /\ session ((OpPrintLine line text true, fine) :: repeat (OpTick line, fine) k) l
       = Returns tt l'
    /\ filter onDevice (trace l')
       = filter onDevice (trace l)
         ++ map (fun i => DevShowMessage (Nat.iter i rotate s) options) (seq 0 k)
    /\ Nat.iter (String.length text + 5) rotate s = s
    /\ (forall i, String.length (Nat.iter i rotate s) = (String.length text + 5)%nat).
Proof.
  intros Hs Hh Hspeed Hr Hlong s. pose proof Hs as [Hs1 Hs2]. pose proof Hh as [Hh1 Hh2].
  assert (Hrt : 0 <= line < Z.of_nat (List.length (ticker l))).
  { rewrite Hs2. unfold numLines in *. lia. }
  destruct (at_Some (lines l) line) as [options Eo];
    [rewrite Hs1; unfold numLines in *; lia|].
  destruct (stopTicker_cases line l Hrt) as (m & Em & Ml & Msp & Mh & Mi & Mt & Mr & Mf).
  assert (E1 : exists l1,
             call (perform (OpPrintLine line text true)) fine l = Returns tt l1
             /\ sized l1 /\ healthy l1 /\ lines l1 = lines l
             /\ at_ (ticker l1) line = Some (Some s)
             /\ filter onDevice (trace l1) = filter onDevice (trace l)).
  { unfold call. cbn [perform]. unfold PrintLine.
    destruct (Z.ltb_spec line 0); [lia|]. destruct (Z.leb_spec numLines line); [lia|].
    cbn [orb]. unfold printAndScrollLine. rewrite rem_in_range by exact Hr.
    rewrite Em. cbn [bind]. destruct (Z.leb_spec (len text) numChars); [lia|].
    unfold runTicker.
    rewrite (tickerPeriod_frame l (emit (GoRunTicker line text) m)) by exact Msp.
    destruct (Z.leb_spec (tickerPeriod l) 0); [lia|]. lcd_fields.
    destruct (at_Some (ticker m) line) as [v ->]; [rewrite Mt; exact Hrt|].
    eexists. split; [reflexivity|].
    unfold commandHandler. lcd_fields. rewrite Mi, Hh2.
    unfold sized, healthy. lcd_fields. rewrite length_update, Ml, Mt, Mh, Mi.
    rewrite filter_app. cbn [filter onDevice]. rewrite app_nil_r.
    repeat split; try assumption.
    apply at_update_same. rewrite Mt. exact Hrt. }
  destruct E1 as (l1 & Ec & Ls & Lh & Ll & Lt & Lf).
  destruct (ticks_scroll line s options k l1 Ls Lh Lt) as (l' & Es & _ & _ & _ & _ & Tr).
  { rewrite Ll. exact Eo. }
  { intros n. apply iter_rotate_nonempty. }
  exists options, l'. split; [exact Eo|]. cbn [session]. rewrite Ec. cbn [bind].
  split; [exact Es|]. split; [|split].
  - rewrite Tr, filter_app, Lf. f_equal. apply filter_shown.
  - replace (String.length text + 5)%nat with (String.length s);
      [apply rotate_period|]. subst s. rewrite length_append. reflexivity.
  - intros i. rewrite iter_rotate_length. subst s. rewrite length_append. reflexivity.
Qed.


(** Witness for X15. *)
Lemma PrintLine_is_guarded_witness :
  PrintLine 7 "Fan" false disp = Returns tt (emit LogError disp)
  /\ PrintLine 2 "Dew point fan controller" true disp <> Panics
  /\ PrintLine 2 "Dew point fan controller" true
       (set_scrollSpeed 9223372036855 disp) = Panics
  /\ PrintLine 2 "Dew point fan controller" true (set_scrollSpeed 0 disp) = Panics
  /\ printAndScrollLine (-1) "Fan" disp = Panics.
Proof.
  assert (Hs : forall v, sized (set_scrollSpeed v disp)) by (intros v; split; reflexivity).
  destruct (PrintLine_is_guarded 7 "Fan" false disp (Hs 500)) as (_ & _ & Hout & _).
  destruct (PrintLine_is_guarded 2 "Dew point fan controller" true disp (Hs 500))
    as (Hnp & _).
  destruct (PrintLine_is_guarded 2 "Dew point fan controller" true
              (set_scrollSpeed 9223372036855 disp) (Hs _)) as (Hwrap & _).
  destruct (PrintLine_is_guarded 2 "Dew point fan controller" true
              (set_scrollSpeed 0 disp) (Hs _)) as (Hzero & _).
  destruct (PrintLine_is_guarded (-1) "Fan" true disp (Hs 500)) as (_ & _ & _ & Hneg).
  split; [apply Hout; right; cbn; lia|].
  split; [intros E; apply Hnp in E; destruct E as (_ & _ & _ & E); vm_compute in E;
          apply E; reflexivity|].
  split; [apply Hwrap; repeat split; try (unfold numLines; lia); vm_compute;
          intros E; discriminate E|].
  split; [apply Hzero; repeat split; try (unfold numLines; lia); vm_compute;
          intros E; discriminate E|].
  apply Hneg; [lia|]. cbn. lia.
Defined.

(** Witness for X16. *)
Lemma device_calls_are_accepted_witness :
  let ops := [(OpClearLine 9, fine); (OpPrintLine 1 "" false, fine);
              (OpPrintLine 0 "Dew point fan controller" true, fine);
              (OpTick 0, fine); (OpClearLine 3, mkAnswer true true); (OpClear, fine)] in
  match final (session ops disp) with
  | Some l => Forall accepted (trace l) /\ In (DevShowMessage " " (mkOptions 2 true false)) (trace l)
  | None => False
  end.
Proof.
  intros ops.
  destruct (final (session ops disp)) as [l |] eqn:E.
  - split.
    + apply (device_calls_are_accepted false 500 3 true true fine fine ops false disp l
               eq_refl E).
    + vm_compute in E. injection E as <-. cbn. tauto.
  - vm_compute in E. discriminate E.
Defined.

(** Witness for X18. *)
Lemma device_error_blocks_the_display_witness :
  exists l',
    call (perform (OpPrintLine 0 "I-T: 22.0C H: 55.0%" false)) (mkAnswer true true) disp
    = Returns tt l'
    /\ handler l' = Stuck
    /\ exists l'', call (perform (OpPrintLine 1 "O-T: 12.0C H: 82.0%" false)) fine l'
                   = Blocks l''.
Proof.
  destruct (device_error_blocks_the_display (OpPrintLine 0 "I-T: 22.0C H: 55.0%" false)
              (mkAnswer true true) disp)
    as (l' & E & Hh & _ & Hb & _).
  - split; reflexivity.
  - split; reflexivity.
  - reflexivity.
  - reflexivity.
  - reflexivity.
  - exists l'. split; [exact E|]. split; [exact Hh|]. apply Hb. reflexivity.
Defined.

(** Witness for X19. *)
Lemma long_text_scrolls_witness :
  exists l',
    session ((OpPrintLine 0 "Dew point fan controller" true, fine)
             :: repeat (OpTick 0, fine) 3) disp = Returns tt l'
    /\ filter onDevice (trace l')
       = [DevClear; DevBacklightOn;
          DevShowMessage "Dew point fan controller     " (mkOptions 1 true true);
          DevShowMessage "ew point fan controller     D" (mkOptions 1 true true);
          DevShowMessage "w point fan controller     De" (mkOptions 1 true true)].
Proof.
  destruct (long_text_scrolls disp 0 "Dew point fan controller" 3)
    as (options & l' & Eo & Es & Ef & _).
  - split; reflexivity.
  - split; reflexivity.
  - vm_compute. reflexivity.
  - unfold numLines. lia.
  - unfold numChars, len. cbn. lia.
  - exists l'. split; [exact Es|]. rewrite Ef.
    injection Eo as <-. reflexivity.
Defined.

End LcdFacts.

(** ** The display seen from [main] *)

(** X14. Whatever the flags, [main] creates the display with a scroll speed
    within [100, 10000] and a delay within [1, 10], and values in these
    ranges are kept. The period of the ticker is then the speed times a
    million, below the point where it wraps around. So [New] does not panic
    and, with the calls taken one at a time, no sequence of calls on the
    display it returns does, whatever the device answers: the scroll speed
    stays what it was, and neither [printLine] of [main] nor [PrintLine]
    panics in any state such calls lead to, [time.NewTicker] included. The
    calls that [main] makes, [Backlight] and [PrintLine] without [scroll],
    start no ticker at all. *)
Theorem flags_are_clamped (scrollSpeed lcdDelay : Z) :
  let speed := fst (clampFlags scrollSpeed lcdDelay) in
  let delay := snd (clampFlags scrollSpeed lcdDelay) in
  100 <= speed <= 10000
  /\ 1 <= delay <= 10
  /\ (100 <= scrollSpeed <= 10000 -> speed = scrollSpeed)
  /\ (1 <= lcdDelay <= 10 -> delay = lcdDelay)
  /\ (forall bus dev a1 a2, Lcd.New false speed delay bus dev a1 a2 <> Lcd.Panics)
  /\ (forall bus dev a1 a2 err l,
      Lcd.New false speed delay bus dev a1 a2 = Lcd.Returns err l ->
      Lcd.scrollSpeed l = speed /\ Lcd.initDelay l = delay
      /\ Lcd.tickerPeriod l = speed * 1000000
      /\ forall ops,
           Lcd.session ops l <> Lcd.Panics
           /\ forall l', Lcd.final (Lcd.session ops l) = Some l' ->
              Lcd.scrollSpeed l' = speed
              /\ (forall line text scroll,
                    printLine line text scroll l' <> Lcd.Panics
                    /\ Lcd.PrintLine line text scroll l' <> Lcd.Panics)
              /\ (Forall (fun oa => calledByMain (fst oa) = true) ops ->
                  Lcd.ticker l' = [None; None; None; None])).
Proof.
  intros speed delay. subst speed delay.
  rewrite !clampFlags_min_max. cbn [fst snd].
  split; [lia|]. split; [lia|]. split; [lia|]. split; [lia|].
  split.
  { intros bus dev a1 a2 E.
    pose proof (New_cases false (Z.min 10000 (Z.max 100 scrollSpeed))
                  (Z.min 10 (Z.max 1 lcdDelay)) bus dev a1 a2) as C.
    rewrite E in C. exact C. }
  intros bus dev a1 a2 err l E.
  pose proof (New_cases false (Z.min 10000 (Z.max 100 scrollSpeed))
                (Z.min 10 (Z.max 1 lcdDelay)) bus dev a1 a2) as C.
  rewrite E in C. destruct C as (_ & _ & _ & _ & Hs & _ & _ & Hsp & Hd & _).
  assert (Hp : Lcd.tickerPeriod l = Z.min 10000 (Z.max 100 scrollSpeed) * 1000000).
  { rewrite tickerPeriod_small; rewrite Hsp; [reflexivity|lia]. }
  split; [exact Hsp|]. split; [exact Hd|]. split; [exact Hp|].
  intros ops. destruct (session_no_panic ops l Hs ltac:(lia)) as [Hn Hf].
  split; [exact Hn|]. intros l' H. destruct (Hf l' H) as [Hs' Hp'].
  assert (Hsp' : Lcd.scrollSpeed l' = Z.min 10000 (Z.max 100 scrollSpeed))
    by (rewrite (session_scrollSpeed ops l l' H); exact Hsp).
  split; [exact Hsp'|]. split.
  - intros line text scroll. split; apply PrintLine_no_panic; try exact Hs'; lia.
  - intros Hm. rewrite <- (New_tickers _ _ _ _ _ _ _ _ _ E).
    apply (session_without_scroll ops l l'); [|rewrite (New_tickers _ _ _ _ _ _ _ _ _ E);
                                               repeat constructor|exact H].
    apply Forall_forall. intros [o a] Hin. rewrite Forall_forall in Hm.
    specialize (Hm _ Hin). cbn [fst] in *.
    destruct o as [[|] | | | | ? ? [|] |]; try discriminate Hm; exact I.
Qed.

(** Witness for X14. *)
Lemma flags_are_clamped_witness :
  clampFlags 500 3 = (500, 3) /\ clampFlags 0 60 = (100, 10)
  /\ Lcd.New false 500 3 true true Lcd.fine Lcd.fine = Lcd.Returns false disp
  /\ Lcd.session [(Lcd.OpBacklight true, Lcd.fine);
                  (Lcd.OpPrintLine 0 "Starting..." false, Lcd.fine);
                  (Lcd.OpPrintLine 1 "Dew point fan controller" true, Lcd.fine);
                  (Lcd.OpTick 1, Lcd.fine)] disp <> Lcd.Panics.
Proof.
  destruct (flags_are_clamped 500 3) as (_ & _ & Hs & Hd & _ & Hn).
  split; [|split; [reflexivity|]].
  - rewrite (surjective_pairing (clampFlags 500 3)), Hs, Hd by lia. reflexivity.
  - split; [reflexivity|].
    destruct (Hn true true Lcd.fine Lcd.fine false disp eq_refl) as (_ & _ & _ & Hp).
    apply Hp.
Defined.

(** X20. [printLine] of [main], on a display whose handler waits and whose
    device answers without error: the row shows what [strings.TrimSpace]
    leaves of the text, a single blank when nothing is left, and the ticker
    of the row is stopped. What is shown is never longer than the text. For a
    text of ASCII characters it is the text without the tabs, line feeds,
    vertical tabs, form feeds, carriage returns and spaces at its two ends;
    in other texts the white space of Unicode goes as well. *)
Theorem printLine_shows_trimmed_text (line : Z) (text : string) (l : Lcd.lcd) :
  Lcd.sized l -> Lcd.healthy l -> 0 <= line < Lcd.numLines ->
  exists options l',
    Lcd.at_ (Lcd.lines l) line = Some options
    /\ Lcd.call (printLine line text false) Lcd.fine l = Lcd.Returns tt l'
    /\ Lcd.sized l' /\ Lcd.healthy l'
    /\ filter Lcd.onDevice (Lcd.trace l')
       = filter Lcd.onDevice (Lcd.trace l)
         ++ [Lcd.DevShowMessage
               (if len (TrimSpace text) =? 0 then " "%string else TrimSpace text) options]
    /\ Lcd.at_ (Lcd.ticker l') line = Some None
    /\ len (TrimSpace text) <= len text
    /\ (allASCII text = true -> TrimSpace text = trimRight (trimLeft text)).
Proof.
  intros Hs Hh Hr. pose proof Hs as [Hs1 Hs2]. pose proof Hh as [Hh1 Hh2].
  assert (Hrt : 0 <= line < Z.of_nat (List.length (Lcd.ticker l))).
  { rewrite Hs2. unfold Lcd.numLines in *. lia. }
  destruct (at_Some (Lcd.lines l) line) as [options Eo];
    [rewrite Hs1; unfold Lcd.numLines in *; lia|].
  exists options.
  unfold printLine, Lcd.call, Lcd.PrintLine.
  destruct (Z.ltb_spec line 0); [lia|]. destruct (Z.leb_spec Lcd.numLines line); [lia|].
  cbn [orb]. unfold Lcd.stopTicker.
  destruct (at_Some (Lcd.ticker l) line Hrt) as [[s |] Et]; rewrite Et;
    cbn [Lcd.bind]; unfold Lcd.send; lcd_fields; rewrite Hh1;
    (eexists; split; [exact Eo|]; split; [reflexivity|]);
    unfold Lcd.commandHandler, Lcd.fine; lcd_fields;
    cbn [Lcd.cmd Lcd.lineNum Lcd.lineText Lcd.fails Lcd.reopens];
    cbn [Z.eqb Pos.eqb Lcd.cmdClear Lcd.cmdBacklightOn Lcd.cmdBacklightOff Lcd.cmdPrintline];
    unfold Lcd.printLine; lcd_fields; rewrite Eo;
    (destruct (Z.leb_spec 0 line); [|lia]);
    (destruct (Z.ltb_spec line Lcd.numLines); [|lia]);
    cbn [andb]; unfold Lcd.sized, Lcd.healthy; lcd_fields;
    rewrite ?length_update, ?filter_app; cbn [filter Lcd.onDevice];
    rewrite ?app_nil_r;
    repeat split; try assumption; try reflexivity; try apply len_TrimSpace;
    try apply TrimSpace_ascii.
  apply at_update_same. exact Hrt.
Qed.

(** Witness for X20. *)
Lemma printLine_shows_trimmed_text_witness :
  let nbsp := String (ascii_of_nat 194) (String (ascii_of_nat 160) EmptyString) in
  (exists l',
     Lcd.call (printLine 2 "   " false) Lcd.fine disp = Lcd.Returns tt l'
     /\ filter Lcd.onDevice (Lcd.trace l')
        = [Lcd.DevClear; Lcd.DevBacklightOn;
           Lcd.DevShowMessage " " (Lcd.mkOptions 3 true false)])
  /\ (exists l',
        Lcd.call (printLine 1 (nbsp ++ " O: retried 3 " ++ nbsp) false) Lcd.fine disp
        = Lcd.Returns tt l'
        /\ filter Lcd.onDevice (Lcd.trace l')
           = [Lcd.DevClear; Lcd.DevBacklightOn;
              Lcd.DevShowMessage "O: retried 3" (Lcd.mkOptions 2 true false)]).
Proof.
  intros nbsp.
  assert (Hs : Lcd.sized disp) by (split; reflexivity).
  assert (Hh : Lcd.healthy disp) by (split; reflexivity).
  split.
  - destruct (printLine_shows_trimmed_text 2 "   " disp Hs Hh)
      as (options & l' & Eo & Ec & _ & _ & Ef & _); [unfold Lcd.numLines; lia|].
    exists l'. split; [exact Ec|]. rewrite Ef. injection Eo as <-. reflexivity.
  - destruct (printLine_shows_trimmed_text 1 (nbsp ++ " O: retried 3 " ++ nbsp) disp Hs Hh)
      as (options & l' & Eo & Ec & _ & _ & Ef & _); [unfold Lcd.numLines; lia|].
    exists l'. split; [exact Ec|]. rewrite Ef. injection Eo as <-. reflexivity.
Defined.

Section StatusLine.
Context {M : MathKernel}.



End StatusLine.


Lemma skipn_length_app {A} (a b : list A) : skipn (List.length a) (a ++ b) = b.
Proof. induction a as [| x a IH]; [reflexivity|exact IH]. Qed.

Section PassEvents.
Context {M : MathKernel}.

Lemma sensorStep_first rd st g i :
  exists e more,
    log (fst (sensorStep rd (st, g) i)) = log st ++ e :: more
    /\ ((exists n, e = PrintRetried i n) \/ (exists t h, e = PrintReading i t h)).
Proof.
  destruct st. unfold sensorStep. state_fields.
  destruct (dht_err (rd i)); state_fields; split_ifs; state_fields;
    rewrite <- ?app_assoc; cbn [app]; eexists; eexists;
    (split; [reflexivity|]); eauto.
Qed.

Lemma sensorStep_extends rd acc i :
  exists evs, log (fst (sensorStep rd acc i)) = log (fst acc) ++ evs.
Proof.
  destruct acc as [st g].
  destruct (sensorStep_first rd st g i) as (e & more & E & _). eauto.
Qed.

Lemma decisionStage_extends good st :
  exists evs, log (decisionStage good st) = log st ++ evs.
Proof.
  destruct st. unfold decisionStage, decide. state_fields.
  destruct good; [|exists []; rewrite app_nil_r; reflexivity].
  match goal with |- context [if ?c then _ else _] => destruct c end; state_fields;
    rewrite <- ?app_assoc; eexists; reflexivity.
Qed.

Lemma report_extends p22 time st :
  exists evs, log (report p22 time st) = log st ++ evs.
Proof.
  destruct st. unfold report. state_fields.
  destruct p22; state_fields;
    match goal with |- context [if ?c then _ else _] => destruct c end; state_fields;
    rewrite <- ?app_assoc; eexists; reflexivity.
Qed.

(** A pass starts with the call of [printLine] for the inside sensor, and
    writes the relay after it. *)
Lemma cycle_events p st :
  exists e more,
    log (cycle p st) = log st ++ e :: more
    /\ ((exists n, e = PrintRetried I0 n) \/ (exists t h, e = PrintReading I0 t h))
    /\ In (Pin25Out (pin25 (cycle p st))) more.
Proof.
  pose proof (cycle_pin25 p st) as Hp.
  unfold cycle in *. unfold sensorLoop in *. cbn [fold_left] in *.
  destruct (sensorStep_first (dht p) st true I0) as (e & m0 & E0 & He).
  destruct (sensorStep_extends (dht p) (sensorStep (dht p) (st, true) I0) I1) as (m1 & E1).
  destruct (sensorStep (dht p) (sensorStep (dht p) (st, true) I0) I1) as [st1 good].
  cbn [fst] in E1. unfold control in *.
  destruct (decisionStage_extends good st1) as (m2 & E2).
  destruct (overrideStage_last (decisionStage good st1)) as (_ & _ & _ & _ & E3).
  set (s := overrideStage (decisionStage good st1)) in *.
  destruct (report_extends (pin22 p) (now p) (actuate s)) as (m4 & E4).
  destruct (report_frame (pin22 p) (now p) (actuate s)) as (_ & _ & _ & _ & _ & _ & Rp).
  exists e, (m0 ++ m1 ++ m2 ++ Pin25Out (pin25 (actuate s)) :: m4).
  split; [|split; [exact He|]].
  - rewrite E4. unfold actuate at 1. cbn [log emit set_pin25].
    rewrite E3, E2, E1, E0. unfold actuate. cbn [pin25 emit set_pin25].
    rewrite <- !app_assoc. cbn [app]. reflexivity.
  - rewrite Rp. rewrite !in_app_iff. right. right. right. left. reflexivity.
Qed.

Lemma passEvents_spec p st : log (cycle p st) = log st ++ passEvents p st.
Proof.
  unfold passEvents. destruct (cycle_events p st) as (e & more & -> & _).
  rewrite skipn_length_app. reflexivity.
Qed.

End PassEvents.

Section DisplayFacts.
Variable Sprintf : event -> string.
Variable ipAddress : string.
Variable answerTo : event -> Lcd.answer.

Lemma rowOf_range e row : rowOf e = Some row -> 0 <= row < Lcd.numLines.
Proof.
  unfold Lcd.numLines.
  destruct e as [i n | i t h | | | | | | | | |]; cbn; try discriminate;
    try destruct i; intros [= <-]; lia.
Qed.

(** A call of [printLine] on a healthy display that the device answers
    without an error. *)
Lemma printLine_fine line text a l :
  Lcd.sized l -> Lcd.healthy l -> 0 <= line < Lcd.numLines -> Lcd.fails a = false ->
  exists l',
    Lcd.call (printLine line text false) a l = Lcd.Returns tt l'
    /\ Lcd.sized l' /\ Lcd.healthy l'.
Proof.
  intros Hs Hh Hr Hf. pose proof Hs as [Hs1 Hs2]. pose proof Hh as [Hh1 Hh2].
  assert (Hrt : 0 <= line < Z.of_nat (List.length (Lcd.ticker l))).
  { rewrite Hs2. unfold Lcd.numLines in *. lia. }
  destruct (at_Some (Lcd.lines l) line) as [options Eo];
    [rewrite Hs1; unfold Lcd.numLines in *; lia|].
  unfold printLine, Lcd.call, Lcd.PrintLine.
  destruct (Z.ltb_spec line 0); [lia|]. destruct (Z.leb_spec Lcd.numLines line); [lia|].
  cbn [orb]. unfold Lcd.stopTicker.
  destruct (at_Some (Lcd.ticker l) line Hrt) as [[s |] Et]; rewrite Et;
    cbn [Lcd.bind]; unfold Lcd.send; lcd_fields; rewrite Hh1;
    (eexists; split; [reflexivity|]);
    unfold Lcd.commandHandler; lcd_fields;
    cbn [Lcd.cmd Lcd.lineNum Lcd.lineText]; rewrite Hf;
    cbn [Z.eqb Pos.eqb Lcd.cmdClear Lcd.cmdBacklightOn Lcd.cmdBacklightOff Lcd.cmdPrintline];
    unfold Lcd.printLine; lcd_fields; rewrite Eo;
    (destruct (Z.leb_spec 0 line); [|lia]);
    (destruct (Z.ltb_spec line Lcd.numLines); [|lia]);
    cbn [andb]; unfold Lcd.sized, Lcd.healthy; lcd_fields;
    rewrite ?length_update; repeat split; try assumption; try reflexivity.
Qed.

Lemma happen_fine evs l :
  Lcd.sized l -> Lcd.healthy l -> len ipAddress <= 17 ->
  (forall e, Lcd.fails (answerTo e) = false) ->
  exists l',
    happen Sprintf ipAddress answerTo evs l = (evs, Lcd.Returns tt l')
    /\ Lcd.sized l' /\ Lcd.healthy l'.
Proof.
  intros Hs Hh Hip Ha. revert l Hs Hh.
  induction evs as [| e evs IH]; intros l Hs Hh; cbn [happen]; [eauto|].
  destruct (rowOf e) as [row |] eqn:Er.
  - assert (Ht : exists text, textOf Sprintf ipAddress e = Some text).
    { destruct e; cbn [textOf]; eauto.
      match goal with
      | |- context [showIpAndOverride ipAddress ?a ?r ?m] =>
          destruct (status_line_layout_aux ipAddress a r m Hip) as (sp & -> & _)
      end.
      eauto. }
    destruct Ht as [text ->].
    destruct (printLine_fine row text (answerTo e) l Hs Hh (rowOf_range e row Er) (Ha e))
      as (l1 & -> & Hs1 & Hh1).
    destruct (IH l1 Hs1 Hh1) as (l' & -> & Hs' & Hh'). eauto.
  - destruct (IH l Hs Hh) as (l' & -> & Hs' & Hh'). eauto.
Qed.

Lemma printLine_blocked line text l :
  Lcd.sized l -> Lcd.handler l <> Lcd.Receiving -> 0 <= line < Lcd.numLines ->
  forall a, exists l', Lcd.call (printLine line text false) a l = Lcd.Blocks l'.
Proof.
  intros Hs Hh Hr a.
  destruct (perform_not_receiving (Lcd.OpPrintLine line (TrimSpace text) false) l Hs Hh)
    as [Hb _].
  unfold Lcd.call, printLine. cbn [Lcd.perform] in Hb.
  destruct Hb as [l' ->]; [|eauto].
  cbn [Lcd.sends negb orb].
  destruct (Z.leb_spec 0 line); [|lia]. destruct (Z.ltb_spec line Lcd.numLines); [|lia].
  reflexivity.
Qed.

(** X22. Every pass calls [printLine] for the inside sensor before it does
    anything else to the outside, and writes the relay after it. With a
    display whose handler does not receive, that call blocks: none of the
    effects of the pass happens and the relay is not written. With a display
    whose handler waits, a device that answers without error and an address
    of at most 17 bytes, all of them happen. *)
Theorem controller_stops_with_the_display {M : MathKernel} (p : poll) (st : State)
    (l : Lcd.lcd) :
  Lcd.sized l ->
  log (cycle p st) = log st ++ passEvents p st
  /\ In (Pin25Out (pin25 (cycle p st))) (passEvents p st)
  /\ (Lcd.handler l <> Lcd.Receiving ->
      exists l', happen Sprintf ipAddress answerTo (passEvents p st) l = ([], Lcd.Blocks l'))
  /\ (Lcd.healthy l -> len ipAddress <= 17 ->
      (forall e, Lcd.fails (answerTo e) = false) ->
      exists l',
        happen Sprintf ipAddress answerTo (passEvents p st) l
        = (passEvents p st, Lcd.Returns tt l')
        /\ Lcd.healthy l').
Proof.
  intros Hs. split; [apply passEvents_spec|].
  destruct (cycle_events p st) as (e & more & E & He & Hin).
  assert (Ep : passEvents p st = e :: more).
  { unfold passEvents. rewrite E, skipn_length_app. reflexivity. }
  rewrite Ep. split; [right; exact Hin|]. split.
  - intros Hh. cbn [happen].
    assert (R : rowOf e = Some 0 /\ textOf Sprintf ipAddress e = Some (Sprintf e)).
    { destruct He as [[n ->] | (t & h & ->)]; split; reflexivity. }
    destruct R as [-> ->].
    destruct (printLine_blocked 0 (Sprintf e) l Hs Hh) with (a := answerTo e) as [l' ->];
      [unfold Lcd.numLines; lia|eauto].
  - intros Hh Hip Ha. rewrite <- Ep.
    destruct (happen_fine (passEvents p st) l Hs Hh Hip Ha) as (l' & -> & _ & Hh').
    eauto.
Qed.

End DisplayFacts.

(** Witness for X22. *)
Lemma controller_stops_with_the_display_witness :
  let stuck := Lcd.set_handler Lcd.Stuck disp in
  let events := passEvents (M := Ref.kernel) humid initial in
  (exists l',
      happen (fun _ => "I-T: 22.0C H: 55.0%"%string) "192.168.0.22" (fun _ => Lcd.fine)
        events stuck = ([], Lcd.Blocks l'))
  /\ In (Pin25Out High) events
  /\ (exists l',
         happen (fun _ => "I-T: 22.0C H: 55.0%"%string) "192.168.0.22" (fun _ => Lcd.fine)
           events disp = (events, Lcd.Returns tt l')).
Proof.
  intros stuck events.
  destruct (controller_stops_with_the_display (fun _ => "I-T: 22.0C H: 55.0%"%string)
              "192.168.0.22" (fun _ => Lcd.fine) (M := Ref.kernel) humid initial stuck)
    as (_ & Hin & Hb & _); [split; reflexivity|].
  destruct (controller_stops_with_the_display (fun _ => "I-T: 22.0C H: 55.0%"%string)
              "192.168.0.22" (fun _ => Lcd.fine) (M := Ref.kernel) humid initial disp)
    as (_ & _ & _ & Hf); [split; reflexivity|].
  split; [apply Hb; discriminate|]. split.
  - replace High with (pin25 (cycle (M := Ref.kernel) humid initial))
      by (vm_compute; reflexivity).
    exact Hin.
  - destruct Hf as (l' & E & _).
    + split; reflexivity.
    + vm_compute. intros H. discriminate H.
    + reflexivity.
    + exists l'. exact E.
Defined.
